(** * avr_ftdi: the USB protocol engine of avr_ftdi.cpp, embedded in Rocq

    The firmware talks to the ATmega32U4 USB controller through memory
    mapped registers.  Every register read is volatile: its value is decided
    by the controller and the host, not by the program.  The embedding keeps
    the program's own variables in a record, logs every register write and
    every diagnostic character in a trace, and draws the value of each
    register read from an input oracle, one stream per register and per
    selected endpoint. *)

From Stdlib Require Import ZArith List Bool Lia Ascii String.
Import ListNotations.
Local Open Scope Z_scope.

(** ** Machine integers and bit macros *)

Definition u8 (x : Z) : Z := x mod 256.
Definition u16 (x : Z) : Z := x mod 65536.

(** avr-libc: [_BV(bit)] is [1 << bit]. *)
Definition _BV (bit : Z) : Z := Z.shiftl 1 bit.

(** avr-libc: [bit_is_set(sfr, bit)] is [sfr & _BV(bit)], used as a truth
    value; [bit_is_clear] is its negation. *)
Definition bit_is_set (v bit : Z) : bool := negb (Z.land v (_BV bit) =? 0).
Definition bit_is_clear (v bit : Z) : bool := Z.land v (_BV bit) =? 0.

Arguments u8 : simpl never.
Arguments u16 : simpl never.
Arguments bit_is_set : simpl never.
Arguments bit_is_clear : simpl never.

(** A C [switch] case list: does [x] match one of the labels? *)
Definition case_of (x : Z) (labels : list Z) : bool := existsb (Z.eqb x) labels.

(** ** The USB controller registers the program uses (avr/io.h) *)

Inductive reg : Type :=
  | UEINTX | UEDATX | UEBCLX | UEBCHX | UECONX
  | UECFG0X | UECFG1X | UESTA0X | UDADDR.

Definition reg_idx (r : reg) : Z :=
  match r with
  | UEINTX => 0 | UEDATX => 1 | UEBCLX => 2 | UEBCHX => 3 | UECONX => 4
  | UECFG0X => 5 | UECFG1X => 6 | UESTA0X => 7 | UDADDR => 8
  end.

Definition reg_eqb (a b : reg) : bool := reg_idx a =? reg_idx b.

(** Bit numbers of the ATmega32U4 data sheet. *)
Definition TXINI : Z := 0.    (* UEINTX *)
Definition RXOUTI : Z := 2.   (* UEINTX *)
Definition RXSTPI : Z := 3.   (* UEINTX *)
Definition FIFOCON : Z := 7.  (* UEINTX *)
Definition EPEN : Z := 0.     (* UECONX *)
Definition STALLRQ : Z := 5.  (* UECONX *)
Definition ALLOC : Z := 1.    (* UECFG1X *)
Definition CFGOK : Z := 7.    (* UESTA0X *)
Definition ADDEN : Z := 7.    (* UDADDR *)

Definition EP0_SIZE : Z := 64.

(** ** Program state, input oracle and output trace *)

(** What the program does to the outside world, in program order: a write
    of [v] to register [r] while endpoint [ep] is selected, or a character
    on the diagnostic UART (putchar, printf_P). *)
Inductive event : Type :=
  | Wr (r : reg) (ep : Z) (v : Z)
  | Uart (c : ascii).

(** [usb_header] of usb.h, filled by handle_CONTROL from the eight SETUP
    bytes: two 8-bit and three 16-bit fields. *)
Record usb_header : Type := mkHeader {
  bmReqType : Z;
  bReq : Z;
  wValue : Z;
  wIndex : Z;
  wLength : Z
}.

Record state : Type := mkState {
  head : usb_header;                 (* static usb_header head *)
  USB_config : Z;                    (* static uint8_t USB_config *)
  do_send_famous_message : bool;
  do_send_char : bool;
  usb_char : Z;
  UENUM : Z;                         (* the selected endpoint *)
  sfr : reg -> Z -> nat -> Z;        (* sfr r ep k: what the k-th next read of
                                        register r of endpoint ep returns *)
  trace : list event
}.

Definition set_head (h : usb_header) (s : state) : state :=
  mkState h (USB_config s) (do_send_famous_message s) (do_send_char s)
          (usb_char s) (UENUM s) (sfr s) (trace s).
Definition set_USB_config (v : Z) (s : state) : state :=
  mkState (head s) v (do_send_famous_message s) (do_send_char s)
          (usb_char s) (UENUM s) (sfr s) (trace s).
Definition set_do_send_famous_message (b : bool) (s : state) : state :=
  mkState (head s) (USB_config s) b (do_send_char s)
          (usb_char s) (UENUM s) (sfr s) (trace s).
Definition set_do_send_char (b : bool) (s : state) : state :=
  mkState (head s) (USB_config s) (do_send_famous_message s) b
          (usb_char s) (UENUM s) (sfr s) (trace s).
Definition set_usb_char (c : Z) (s : state) : state :=
  mkState (head s) (USB_config s) (do_send_famous_message s) (do_send_char s)
          c (UENUM s) (sfr s) (trace s).
Definition set_UENUM (n : Z) (s : state) : state :=
  mkState (head s) (USB_config s) (do_send_famous_message s) (do_send_char s)
          (usb_char s) n (sfr s) (trace s).
Definition set_sfr (f : reg -> Z -> nat -> Z) (s : state) : state :=
  mkState (head s) (USB_config s) (do_send_famous_message s) (do_send_char s)
          (usb_char s) (UENUM s) f (trace s).
Definition emit (e : event) (s : state) : state :=
  mkState (head s) (USB_config s) (do_send_famous_message s) (do_send_char s)
          (usb_char s) (UENUM s) (sfr s) (trace s ++ [e]).

(** The oracle after one read of register [r] of endpoint [ep]. *)
Definition pop (r : reg) (ep : Z) (f : reg -> Z -> nat -> Z)
  : reg -> Z -> nat -> Z :=
  fun r' ep' k => if reg_eqb r' r && (ep' =? ep) then f r' ep' (S k)
                  else f r' ep' k.

(** The value the [k]-th next read of [r] on endpoint [ep] will return;
    the registers are eight bits wide. *)
Definition peek (r : reg) (ep : Z) (k : nat) (s : state) : Z := u8 (sfr s r ep k).

(** A volatile read and a register write, on the selected endpoint; a
    write keeps the low eight bits of the value. *)
Definition rd_next (r : reg) (s : state) : state :=
  set_sfr (pop r (UENUM s) (sfr s)) s.
Definition rd (r : reg) (s : state) : Z * state :=
  (peek r (UENUM s) 0 s, rd_next r s).
Definition wr (r : reg) (v : Z) (s : state) : state :=
  emit (Wr r (UENUM s) (u8 v)) s.

(** [set_bit(REG, BIT)] is [REG |= _BV(BIT)], [clear_bit(REG, BIT)] is
    [REG &= ~_BV(BIT)]: a read and a write of the register. *)
Definition set_bit (r : reg) (bit : Z) (s : state) : state :=
  let (v, s) := rd r s in wr r (Z.lor v (_BV bit)) s.
Definition clear_bit (r : reg) (bit : Z) (s : state) : state :=
  let (v, s) := rd r s in wr r (Z.land v (Z.lnot (_BV bit))) s.

(** What [clear_bit] writes back when its read returned [v], and what
    [set_bit] does. *)
Definition cleared (v bit : Z) : Z := u8 (Z.land v (Z.lnot (_BV bit))).
Definition raised (v bit : Z) : Z := u8 (Z.lor v (_BV bit)).

Arguments cleared : simpl never.
Arguments raised : simpl never.

(** The program's own variables, as opposed to the controller: the
    selected endpoint, the oracle and the trace. *)
Definition pvars (s : state) : usb_header * Z * bool * bool * Z :=
  (head s, USB_config s, do_send_famous_message s, do_send_char s, usb_char s).

(** What an operation leaves alone. *)
Class Quiet (f : state -> state) : Prop :=
  quiet : forall s, pvars (f s) = pvars s.
Class KeepsEP (f : state -> state) : Prop :=
  keeps_ep : forall s, UENUM (f s) = UENUM s.
Class KeepsSfr (f : state -> state) : Prop :=
  keeps_sfr : forall s, sfr (f s) = sfr s.
Class KeepsTrace (f : state -> state) : Prop :=
  keeps_trace : forall s, trace (f s) = trace s.

(** [EP_select(N)] is [UENUM = N & 0x07]. *)
Definition EP_select (n : Z) (s : state) : state := set_UENUM (Z.land n 7) s.
Definition EP_read8 (s : state) : Z * state := rd UEDATX s.
Definition EP_read16_le (s : state) : Z * state :=
  let (l, s) := rd UEDATX s in
  let (h, s) := rd UEDATX s in
  (Z.lor (Z.shiftl h 8) l, s).
Definition EP_write8 (v : Z) (s : state) : state := wr UEDATX v s.
Definition EP_write16_le (v : Z) (s : state) : state :=
  let s := wr UEDATX (Z.land v 255) s in
  wr UEDATX (Z.land (Z.shiftr v 8) 255) s.

(** Diagnostic output on the UART. *)
Definition putchar (c : ascii) (s : state) : state := emit (Uart c) s.

Fixpoint print (str : string) (s : state) : state :=
  match str with
  | EmptyString => s
  | String c rest => print rest (putchar c s)
  end.

Definition hex_digit (d : Z) : ascii :=
  if d <? 10 then ascii_of_N (Z.to_N (48 + d)) else ascii_of_N (Z.to_N (87 + d)).

(** printf_P("%04x", i) of a 16-bit unsigned int: always four lower-case
    digits. *)
Definition hex4 (i : Z) : list ascii :=
  let i := u16 i in
  [hex_digit (Z.shiftr i 12);
   hex_digit (Z.land (Z.shiftr i 8) 15);
   hex_digit (Z.land (Z.shiftr i 4) 15);
   hex_digit (Z.land i 15)].

Fixpoint putchars (l : list ascii) (s : state) : state :=
  match l with
  | [] => s
  | c :: l' => putchars l' (putchar c s)
  end.

Definition put_hex (i : Z) (s : state) : state := putchars (hex4 i) s.

(** The bytes written to the data register of endpoint [ep] in a trace. *)
Fixpoint ep_data (ep : Z) (tr : list event) : list Z :=
  match tr with
  | [] => []
  | Wr UEDATX e v :: tr' => if e =? ep then v :: ep_data ep tr' else ep_data ep tr'
  | _ :: tr' => ep_data ep tr'
  end.

(** Does the event send a zero-length packet on endpoint [ep], that is,
    write the flag register with TXINI cleared? *)
Definition zero_length_status (ep : Z) (e : event) : bool :=
  match e with
  | Wr UEINTX e' v => (e' =? ep) && bit_is_clear v TXINI
  | _ => false
  end.

(** ** Flash objects

    A pointer into program memory is the list of bytes from that address to
    the end of the object it points into; [pgm_read_byte] reads its first
    byte and [addr++] drops it.  No caller below reads past its object. *)
Definition pgm_read_byte (addr : list Z) : Z := hd 0 addr.

Definition code (c : ascii) : Z := Z.of_N (N_of_ascii c).

(** PSTR("Hello world!\r\n"): fourteen characters and the terminating NUL. *)
Definition famous_message : list Z :=
  map code (list_ascii_of_string "Hello world!") ++ [13; 10; 0].

(** The fourteen characters of the message. *)
Definition banner : list Z :=
  map code (list_ascii_of_string "Hello world!") ++ [13; 10].

(** ** The bulk data relay (lines 756-830) *)

(** Every FTDI serial read starts with two reserved bytes. *)
Definition send_reserved_bytes (s : state) : state :=
  let s := wr UEDATX 0x80 s in   (* modem status *)
  wr UEDATX 0x00 s.               (* line status *)

(** [bulk_write_PM]: while(len--) { UEDATX = pgm_read_byte(addr); addr++; } *)
Fixpoint bulk_write_PM_loop (len : nat) (addr : list Z) (s : state) : state :=
  match len with
  | O => s
  | S len' =>
      let val := pgm_read_byte addr in
      let s := wr UEDATX val s in
      bulk_write_PM_loop len' (tl addr) s
  end.

Definition bulk_write_PM (addr : list Z) (len : Z) (s : state) : state :=
  bulk_write_PM_loop (Z.to_nat (u16 len)) addr s.

Definition handle_outgoing_bytes (s : state) : state :=
  let s := EP_select 1 s in
  if do_send_famous_message s then
    let s := set_do_send_famous_message false s in
    let (v, s) := rd UEINTX s in
    if bit_is_set v TXINI then
      let s := clear_bit UEINTX TXINI s in
      let s := send_reserved_bytes s in
      let s := bulk_write_PM famous_message 14 s in
      clear_bit UEINTX FIFOCON s
    else s
  else if do_send_char s then
    let s := set_do_send_char false s in
    let (v, s) := rd UEINTX s in
    if bit_is_set v TXINI then
      let s := clear_bit UEINTX TXINI s in
      let s := send_reserved_bytes s in
      let s := wr UEDATX (usb_char s) s in      (* send one char *)
      clear_bit UEINTX FIFOCON s
    else s
  else s.

(** The body of the for loop of handle_incoming_bytes, run [n] times. *)
Fixpoint read_chars (n : nat) (s : state) : state :=
  match n with
  | O => s
  | S n' =>
      let (c, s) := rd UEDATX s in
      let s := set_usb_char c s in
      let s := if c =? code "a" then set_do_send_famous_message true s
               else set_do_send_char true s in
      read_chars n' s
  end.

Definition handle_incoming_bytes (s : state) : state :=
  let s := EP_select 2 s in
  let (v, s) := rd UEINTX s in
  if bit_is_set v RXOUTI then
    let s := clear_bit UEINTX RXOUTI s in
    let (h, s) := rd UEBCHX s in
    let (l, s) := rd UEBCLX s in
    let N := Z.lor (Z.shiftl h 8) l in
    let s := if N >? 0 then read_chars (Z.to_nat N) s else s in
    clear_bit UEINTX FIFOCON s
  else s.

(** How many outbound items are pending: the banner, the echo, or both. *)
Definition pending_items (s : state) : nat :=
  ((if do_send_famous_message s then 1 else 0) +
   (if do_send_char s then 1 else 0))%nat.

(** One pass of the relay as the main loop sequences it (lines 981, 984). *)
Definition relay_poll (s : state) : state :=
  handle_outgoing_bytes (handle_incoming_bytes s).

Fixpoint relay_polls (n : nat) (s : state) : state :=
  match n with
  | O => s
  | S n' => relay_polls n' (relay_poll s)
  end.

(** ** Blocking code

    The control path polls the controller in loops that only the hardware
    can end, and dies in [while(1) {}] on an impossible configuration.  A
    computation takes fuel for its loops and ends in one of three ways. *)

Inductive outcome (A : Type) : Type :=
  | Ret (a : A) (s : state)   (* returned [a] *)
  | Busy (s : state)          (* out of fuel: still inside a polling loop *)
  | Halted (s : state).       (* reached a [while(1) {}] *)
Arguments Ret {A} a s.
Arguments Busy {A} s.
Arguments Halted {A} s.

Definition M (A : Type) : Type := state -> outcome A.

Definition ret {A : Type} (a : A) : M A := fun s => Ret a s.
Definition bind {A B : Type} (m : M A) (k : A -> M B) : M B :=
  fun s => match m s with
           | Ret a s' => k a s'
           | Busy s' => Busy s'
           | Halted s' => Halted s'
           end.
Definition lift (f : state -> state) : M unit := fun s => Ret tt (f s).
Definition liftv {A : Type} (f : state -> A * state) : M A :=
  fun s => let (a, s') := f s in Ret a s'.
Definition halt {A : Type} : M A := fun s => Halted s.

(** The state a computation has reached, however it ended. *)
Definition final {A : Type} (o : outcome A) : state :=
  match o with Ret _ s => s | Busy s => s | Halted s => s end.

(** Did the computation return? *)
Definition returned {A : Type} (o : outcome A) : bool :=
  match o with Ret _ _ => true | _ => false end.

Declare Scope usb_scope.
Delimit Scope usb_scope with usb.
Notation "x <- m ;; k" := (bind m (fun x => k))
  (at level 61, m at next level, right associativity) : usb_scope.
Notation "m ;; k" := (bind m (fun _ => k))
  (at level 61, right associativity) : usb_scope.
Local Open Scope usb_scope.

(** [oops(a, v)]: if [a] is zero, print and spin forever. *)
Definition oops (a : bool) (v : string) : M unit :=
  fun s => if a then Ret tt s else Halted (print ("oops! " ++ v) s).

(** avr-libc: [loop_until_bit_is_set(sfr, bit)] is
    [do { } while (bit_is_clear(sfr, bit))]. *)
Fixpoint loop_until_bit_is_set (fuel : nat) (r : reg) (bit : Z) : M unit :=
  fun s =>
    match fuel with
    | O => Busy s
    | S fuel' =>
        let (v, s) := rd r s in
        if bit_is_clear v bit then loop_until_bit_is_set fuel' r bit s
        else Ret tt s
    end.

(** The inner loop of ctrl_write_PM: copy [ntx] bytes of flash to the
    endpoint; returns the advanced pointer. *)
Fixpoint ctrl_write_chunk (ntx : nat) (addr : list Z) (s : state)
  : list Z * state :=
  match ntx with
  | O => (addr, s)
  | S ntx' =>
      let val := pgm_read_byte addr in
      let s := EP_write8 val s in
      ctrl_write_chunk ntx' (tl addr) s
  end.

(** [ctrl_write_PM] (lines 447-484): write [len] bytes from flash to EP0,
    one packet per round.  Returns 1 when a new SETUP aborts it, else 0. *)
Fixpoint ctrl_write_PM (fuel : nat) (addr : list Z) (len : Z) : M Z :=
  fun s =>
    if len =? 0 then Ret 0 s
    else
      match fuel with
      | O => Busy s
      | S fuel' =>
          let ntx := EP0_SIZE in
          let (bsize, s) := rd UEBCLX s in
          let (epintreg, s) := rd UEINTX s in
          (oops (ntx >=? bsize) "EP" ;;      (* EP0_SIZE is wrong *)
           let ntx := ntx - bsize in
           let ntx := if ntx >? len then len else ntx in
           if bit_is_set epintreg RXSTPI then
             ret 1               (* another SETUP has started, abort this one *)
           else if bit_is_set epintreg RXOUTI then
             ret 0               (* stop early *)
           else if bit_is_clear epintreg TXINI then
             ctrl_write_PM fuel' addr len     (* retry until can send *)
           else
             oops (ntx >? 0) "Ep" ;;
             let len := len - ntx in
             addr <- liftv (ctrl_write_chunk (Z.to_nat ntx) addr) ;;
             lift (clear_bit UEINTX TXINI) ;;
             ctrl_write_PM fuel' addr len) s
      end.


(** The selected endpoint is always ready to take a packet: transmit-ready
    flag up, room in the bank, and a quiet host. *)
Definition ep_ready (s : state) : Prop :=
  forall k, bit_is_set (peek UEINTX (UENUM s) k s) TXINI = true /\
            bit_is_set (peek UEINTX (UENUM s) k s) RXSTPI = false /\
            bit_is_set (peek UEINTX (UENUM s) k s) RXOUTI = false /\
            peek UEBCLX (UENUM s) k s < EP0_SIZE.

(** ** usb.h

    The header with the request codes, descriptor tags and request-type
    masks is not among the sources; its constants are parameters of the
    development, under the names the program uses. *)
Class usb_h : Type := {
  usb_desc_device : Z;
  usb_desc_config : Z;
  usb_desc_string : Z;
  usb_desc_iface : Z;
  usb_desc_EP : Z;
  usb_req_get_status : Z;
  usb_req_clear_feature : Z;
  usb_req_set_feature : Z;
  usb_req_set_address : Z;
  usb_req_get_desc : Z;
  usb_req_set_desc : Z;
  usb_req_get_config : Z;
  usb_req_set_config : Z;
  usb_req_get_iface : Z;
  usb_req_set_iface : Z;
  usb_req_synch_frame : Z;
  USB_REQ_TYPE_IN : Z;
  USB_REQ_TYPE_OUT : Z;
  USB_REQ_TYPE_INTERFACE : Z;
  USB_REQ_TYPE_ENDPOINT : Z;
  USB_REQ_TYPE_VENDOR : Z;
  ReqType_DirD2H : Z;
  FTDI_SIO_RESET : Z;
  FTDI_SIO_MODEM_CTRL : Z;
  FTDI_SIO_SET_BAUD_RATE : Z;
  FTDI_SIO_SET_DATA : Z;
  FTDI_SIO_SET_FLOW_CTRL : Z;
  FTDI_SIO_SET_LATENCY_TIMER : Z;
  FTDI_SIO_READ_EEPROM : Z;
  FTDI_SIO_GET_LATENCY_TIMER : Z;
  FTDI_SIO_GET_MODEM_STATUS : Z
}.

Section Firmware.
Context {K : usb_h}.

(** ** The descriptors in flash (lines 127-219) *)

(** A 16-bit field in flash, low byte first. *)
Definition le16 (x : Z) : list Z := [u8 x; u8 (Z.shiftr x 8)].

(** Modelled from the spec: the descriptor structs are declared in usb.h,
    which is missing.  The spec has them mirror the standard USB descriptor
    layout, length-prefixed and type-tagged: packed records of 8-bit and
    little-endian 16-bit fields in the order of the initialisers, 18 bytes
    for a device descriptor, 9 for a configuration, 9 for an interface and 7
    for an endpoint.  The field values below are those of the source; a wide
    character is two bytes on the AVR. *)
Definition sizeof_devdesc : Z := 18.
Definition sizeof_usb_std_config_desc : Z := 9.
Definition sizeof_usb_std_iface_desc : Z := 9.
Definition sizeof_devconf : Z := 32.

Definition devdesc : list Z :=
  [u8 sizeof_devdesc; u8 usb_desc_device] ++ le16 0x0110 ++
  [0x00; 0x00; 0x00; EP0_SIZE] ++
  le16 0x0403 ++                     (* Vendor ID *)
  le16 0x6001 ++                     (* Product ID *)
  le16 0x0400 ++                     (* bcdDevice *)
  [1; 2; 0; 1].

Definition devconf : list Z :=
  ([u8 sizeof_usb_std_config_desc; u8 usb_desc_config] ++ le16 sizeof_devconf ++
   [1; 1; 0; 0x80; 20 / 2]) ++
  [u8 sizeof_usb_std_iface_desc; u8 usb_desc_iface; 0; 0; 2; 0xff; 0xff; 0xff; 0] ++
  ([7; u8 usb_desc_EP; 0x81; 0x02] ++ le16 0x0040 ++ [0]) ++
  ([7; u8 usb_desc_EP; 0x02; 0x02] ++ le16 0x0040 ++ [0]).

(** The bytes of a wide string literal, with its terminating zero. *)
Definition wide (chars : list Z) : list Z := flat_map le16 (chars ++ [0]).
Definition wchars (str : string) : list Z := map code (list_ascii_of_string str).

(** sizeof of a wide string literal. *)
Definition sizeof_wide (chars : list Z) : Z := 2 * (Z.of_nat (List.length chars) + 1).

Definition iLang : list Z := [4; u8 usb_desc_string] ++ wide [0x0409].

(** DESCSTR(STR) is { 2 + sizeof(STR) - 2, usb_desc_string, STR }. *)
Definition DESCSTR (chars : list Z) : list Z :=
  [u8 (2 + sizeof_wide chars - 2); u8 usb_desc_string] ++ wide chars.

Definition iProd : list Z := DESCSTR (wchars "QuartelRCBB" ++ [0; 0]).
Definition iSerial : list Z := DESCSTR (wchars "FTP1W65N" ++ [0; 0]).

(** ** The standard Get Descriptor request (lines 226-260) *)

(** The switch of USB_get_desc: the flash object and the length to send,
    or [None] where the function returns 0. *)
Definition USB_get_desc_select (h : usb_header) : option (list Z * Z) :=
  let idx := u8 (wValue h) in
  let ty := Z.shiftr (wValue h) 8 in
  if case_of ty [usb_desc_device] then
    if negb (idx =? 0) then None else Some (devdesc, u8 sizeof_devdesc)
  else if case_of ty [usb_desc_config] then
    if negb (idx =? 0) then None else Some (devconf, u8 sizeof_devconf)
  else if case_of ty [usb_desc_string] then
    match (if idx =? 0 then Some iLang
           else if idx =? 1 then Some iProd
           else if idx =? 2 then Some iSerial
           else None) with
    | Some addr =>
        (* the first byte of any descriptor is its length in bytes *)
        Some (addr, pgm_read_byte addr)
    | None => None
    end
  else None.

(** The descriptors a Get Descriptor request can name, with their own
    lengths: the device descriptor, the configuration descriptor with its
    interface and endpoints, and the strings 0 to 2. *)
Definition descriptor_requested (h : usb_header) (addr : list Z) (len : Z) : Prop :=
  let ty := Z.shiftr (wValue h) 8 in
  let idx := u8 (wValue h) in
  (ty = usb_desc_device /\ idx = 0 /\ addr = devdesc /\ len = 18) \/
  (ty = usb_desc_config /\ idx = 0 /\ addr = devconf /\ len = 32) \/
  (ty = usb_desc_string /\
   ((idx = 0 /\ addr = iLang /\ len = 4) \/
    (idx = 1 /\ addr = iProd /\ len = 28) \/
    (idx = 2 /\ addr = iSerial /\ len = 22))).

Definition USB_get_desc (fuel : nat) : M Z :=
  fun s =>
    match USB_get_desc_select (head s) with
    | None => Ret 0 s
    | Some (addr, len) =>
        let len := if len >? wLength (head s) then u8 (wLength (head s)) else len in
        (r <- ctrl_write_PM fuel addr len ;;
         ret (if r =? 0 then 1 else 0)) s
    end.

(** ** Set Address and Set Configuration (lines 335-385, 486-509) *)

Definition USB_set_address (fuel : nat) : M unit :=
  fun s =>
    (lift (wr UDADDR (Z.land (wValue (head s)) 0x7f)) ;;
     lift (clear_bit UEINTX TXINI) ;;          (* send 0 length reply *)
     loop_until_bit_is_set fuel UEINTX TXINI ;; (* wait until sent *)
     lift (wr UDADDR (Z.lor (_BV ADDEN) (Z.land (wValue (head s)) 0x7f))) ;;
     lift (clear_bit UEINTX TXINI)) s.

(** One half of setup_other_ep: configure endpoint [n] with type [cfg0]. *)
Definition setup_bulk_ep (n cfg0 : Z) : M unit :=
  lift (EP_select n) ;;
  lift (clear_bit UECONX EPEN) ;;
  lift (clear_bit UECFG1X ALLOC) ;;
  lift (set_bit UECONX EPEN) ;;
  lift (wr UECFG0X cfg0) ;;
  lift (wr UECFG1X 50) ;;                      (* 0b00110010 *)
  v <- liftv (rd UESTA0X) ;;
  if bit_is_clear v CFGOK then
    lift (putchar "!") ;; halt                 (* putchar('1!'); while(1) {} *)
  else ret tt.

Definition setup_other_ep : M unit :=
  setup_bulk_ep 1 0x81 ;;                      (* BULK, IN *)
  setup_bulk_ep 2 0x80 ;;                      (* BULK, OUT *)
  lift (EP_select 0).

Definition USB_set_config : M unit :=
  fun s =>
    (lift (set_USB_config (u8 (wValue (head s)))) ;;
     setup_other_ep) s.

(** What dump_unsupported_request prints for the request [h]. *)
Definition dump_text (h : usb_header) : list ascii :=
  ("?"%char :: hex4 (bmReqType h) ++ hex4 (bReq h) ++
   hex4 (Z.shiftr (wLength h) 8) ++ hex4 (wLength h))%list.

Definition dump_unsupported_request (s : state) : state :=
  let s := putchar "?" s in
  let s := put_hex (bmReqType (head s)) s in
  let s := put_hex (bReq (head s)) s in
  let s := put_hex (Z.shiftr (wLength (head s)) 8) s in
  put_hex (wLength (head s)) s.

(** ** The control dispatchers (lines 523-754) *)

(** The status wait of a control read: poll UEINTX until RXSTPI or RXOUTI
    shows; returns the value read. *)
Fixpoint wait_status (fuel : nat) : M Z :=
  fun s =>
    match fuel with
    | O => Busy s
    | S fuel' =>
        let (sts, s) := rd UEINTX s in
        if Z.land sts (Z.lor (_BV RXSTPI) (_BV RXOUTI)) =? 0
        then wait_status fuel' s
        else Ret sts s
    end.

(** The closing [if(ok) ... else ...] that both dispatchers end with
    (lines 620-648 and 725-753). *)
Definition control_complete (fuel : nat) (ok : Z) : M unit :=
  fun s =>
    (if negb (ok =? 0) then
       (if negb (Z.land (bmReqType (head s)) ReqType_DirD2H =? 0) then
          (* Control read. Wait for, and complete, status *)
          sts <- wait_status fuel ;;
          let ok := u8 (Z.land sts (_BV RXOUTI)) in
          if ok =? 0 then
            lift (set_bit UECONX STALLRQ) ;; lift (putchar "S")
          else
            lift (clear_bit UEINTX RXOUTI) ;; lift (clear_bit UEINTX TXINI)
        else
          (* Control write. indicate completion *)
          lift (clear_bit UEINTX TXINI)) ;;
       lift (putchar "C")
     else
       (* fail un-handled SETUP *)
       lift (set_bit UECONX STALLRQ) ;; lift (putchar "F")) s.

(** [switch(head.bReq)] of usb_control_in; the result is [ok]. *)
Definition control_in_standard (fuel : nat) : M Z :=
  fun s =>
    let h := head s in
    if case_of (bReq h) [usb_req_set_feature; usb_req_clear_feature] then
      Ret 1 s
    else if case_of (bReq h) [usb_req_get_status] then
      if case_of (bmReqType h)
           [USB_REQ_TYPE_IN;
            Z.lor USB_REQ_TYPE_IN USB_REQ_TYPE_INTERFACE;
            Z.lor USB_REQ_TYPE_IN USB_REQ_TYPE_ENDPOINT] then
        (* always status 0 *)
        (loop_until_bit_is_set fuel UEINTX TXINI ;;
         lift (EP_write16_le 0) ;;
         lift (clear_bit UEINTX TXINI) ;;
         ret 1) s
      else Ret 0 s
    else if case_of (bReq h) [usb_req_set_address] then
      Ret 0 s
    else if case_of (bReq h) [usb_req_get_desc] then
      if bmReqType h =? 0x80 then USB_get_desc fuel s else Ret 0 s
    else if case_of (bReq h) [usb_req_set_config] then
      if bmReqType h =? 0 then Ret 1 (set_USB_config (u8 (wValue h)) s)
      else Ret 0 s
    else if case_of (bReq h) [usb_req_get_config] then
      if bmReqType h =? USB_REQ_TYPE_IN then
        (loop_until_bit_is_set fuel UEINTX TXINI ;;
         lift (EP_write8 (USB_config s)) ;;
         lift (clear_bit UEINTX TXINI) ;;
         ret 1) s
      else Ret 0 s
    else if case_of (bReq h) [usb_req_set_iface] then Ret 0 s
    else if case_of (bReq h) [usb_req_get_iface] then Ret 0 s
    else if case_of (bReq h) [usb_req_set_desc] then Ret 0 s
    else if case_of (bReq h) [usb_req_synch_frame] then Ret 0 s
    else
      if Z.land (bmReqType h) USB_REQ_TYPE_VENDOR =? 0
      then Ret 0 (dump_unsupported_request s)
      else Ret 0 s.

(** The vendor block of usb_control_in (lines 588-618). *)
Definition control_in_vendor (fuel : nat) (ok : Z) : M Z :=
  fun s =>
    let h := head s in
    if bmReqType h =? Z.lor USB_REQ_TYPE_IN USB_REQ_TYPE_VENDOR then
      if case_of (bReq h) [FTDI_SIO_READ_EEPROM] then
        (loop_until_bit_is_set fuel UEINTX TXINI ;;
         lift (EP_write8 0xff) ;;
         lift (EP_write8 0xff) ;;
         lift (clear_bit UEINTX TXINI) ;;
         ret 1) s
      else if case_of (bReq h) [FTDI_SIO_GET_LATENCY_TIMER] then
        (loop_until_bit_is_set fuel UEINTX TXINI ;;
         lift (EP_write8 0x10) ;;                 (* 16 ms is the default value *)
         lift (clear_bit UEINTX TXINI) ;;
         ret 1) s
      else if case_of (bReq h) [FTDI_SIO_GET_MODEM_STATUS] then
        (loop_until_bit_is_set fuel UEINTX TXINI ;;
         lift (EP_write8 0x00) ;;
         lift (clear_bit UEINTX TXINI) ;;
         ret 1) s
      else Ret ok (dump_unsupported_request s)
    else Ret ok s.

(** Handles CONTROL reads (device to host). *)
Definition usb_control_in (fuel : nat) : M unit :=
  ok <- control_in_standard fuel ;;
  ok <- control_in_vendor fuel ok ;;
  control_complete fuel ok.

(** [switch(head.bReq)] of usb_control_out; the result is [ok], or [None]
    where Set Address returns from the function. *)
Definition control_out_standard (fuel : nat) : M (option Z) :=
  fun s =>
    let h := head s in
    if case_of (bReq h) [usb_req_set_feature; usb_req_clear_feature] then
      Ret (Some 1) s
    else if case_of (bReq h) [usb_req_get_status] then
      Ret (Some 0) s
    else if case_of (bReq h) [usb_req_set_address] then
      if bmReqType h =? USB_REQ_TYPE_OUT then
        (lift (putchar "A") ;;
         USB_set_address fuel ;;
         lift (putchar "a") ;;
         ret None) s
      else Ret (Some 0) s
    else if case_of (bReq h) [usb_req_get_desc] then
      Ret (Some 0) s
    else if case_of (bReq h) [usb_req_set_config] then
      if bmReqType h =? 0 then
        (lift (putchar "S") ;;
         USB_set_config ;;
         lift (putchar "s") ;;
         ret (Some 1)) s
      else Ret (Some 0) s
    else if case_of (bReq h) [usb_req_get_config] then Ret (Some 0) s
    else if case_of (bReq h) [usb_req_set_iface] then Ret (Some 0) s
    else if case_of (bReq h) [usb_req_get_iface] then Ret (Some 0) s
    else if case_of (bReq h) [usb_req_set_desc] then Ret (Some 0) s
    else if case_of (bReq h) [usb_req_synch_frame] then Ret (Some 0) s
    else
      if Z.land (bmReqType h) USB_REQ_TYPE_VENDOR =? 0
      then Ret (Some 0) (dump_unsupported_request s)
      else Ret (Some 0) s.

(** The vendor block of usb_control_out (lines 707-723). *)
Definition control_out_vendor (ok : Z) : M Z :=
  fun s =>
    let h := head s in
    if bmReqType h =? Z.lor USB_REQ_TYPE_OUT USB_REQ_TYPE_VENDOR then
      if case_of (bReq h) [FTDI_SIO_RESET] then Ret 1 s
      else if case_of (bReq h)
                [FTDI_SIO_MODEM_CTRL; FTDI_SIO_SET_BAUD_RATE; FTDI_SIO_SET_DATA;
                 FTDI_SIO_SET_FLOW_CTRL; FTDI_SIO_SET_LATENCY_TIMER] then Ret 1 s
      else Ret ok (dump_unsupported_request s)
    else Ret ok s.

(** Handles CONTROL writes (host to device). *)
Definition usb_control_out (fuel : nat) : M unit :=
  r <- control_out_standard fuel ;;
  match r with
  | None => ret tt
  | Some ok =>
      ok <- control_out_vendor ok ;;
      control_complete fuel ok
  end.

(** The branch on the direction bit at the end of handle_CONTROL. *)
Definition control_dispatch (fuel : nat) : M unit :=
  fun s =>
    if negb (Z.land (bmReqType (head s)) USB_REQ_TYPE_IN =? 0)
    then usb_control_in fuel s
    else usb_control_out fuel s.

(** Called when the host is quizzing or configuring the device: read the
    SETUP packet into [head] and dispatch on its direction. *)
Definition handle_CONTROL (fuel : nat) : M unit :=
  t <- liftv EP_read8 ;;
  r <- liftv EP_read8 ;;
  v <- liftv EP_read16_le ;;
  i <- liftv EP_read16_le ;;
  l <- liftv EP_read16_le ;;
  lift (set_head (mkHeader t r v i l)) ;;
  lift (clear_bit UEINTX RXSTPI) ;;
  control_dispatch fuel.

(** The standard requests one of the two dispatchers acts on; the others
    (Set Interface, Get Interface, Set Descriptor, Synch Frame and every
    unknown code) are not implemented. *)
Definition implemented_requests : list Z :=
  [usb_req_set_feature; usb_req_clear_feature; usb_req_get_status;
   usb_req_set_address; usb_req_get_desc; usb_req_set_config;
   usb_req_get_config].

(** The case labels of the switch on [bReq], in the order of the source.
    C requires the labels of one switch to be distinct. *)
Definition switch_labels : list Z :=
  [usb_req_set_feature; usb_req_clear_feature; usb_req_get_status;
   usb_req_set_address; usb_req_get_desc; usb_req_set_config;
   usb_req_get_config; usb_req_set_iface; usb_req_get_iface;
   usb_req_set_desc; usb_req_synch_frame].

(** The six FTDI commands usb_control_out recognises. *)
Definition ftdi_out_commands : list Z :=
  [FTDI_SIO_RESET; FTDI_SIO_MODEM_CTRL; FTDI_SIO_SET_BAUD_RATE;
   FTDI_SIO_SET_DATA; FTDI_SIO_SET_FLOW_CTRL; FTDI_SIO_SET_LATENCY_TIMER].

(** The answers of the vendor block of usb_control_in, by opcode. *)
Definition canned_response (opcode : Z) : option (list Z) :=
  if opcode =? FTDI_SIO_READ_EEPROM then Some [0xff; 0xff]
  else if opcode =? FTDI_SIO_GET_LATENCY_TIMER then Some [0x10]
  else if opcode =? FTDI_SIO_GET_MODEM_STATUS then Some [0x00]
  else None.

(** What the failing branch of a dispatcher adds to the trace in state [s]:
    the stall request on the selected endpoint and the letter F. *)
Definition stall_events (s : state) : list event :=
  [Wr UECONX (UENUM s) (raised (peek UECONX (UENUM s) 0 s) STALLRQ); Uart "F"].

End Firmware.

(** ** Concrete instances *)

(** Modelled from the spec: usb.h is missing.  The spec names standard
    USB 1.1 control requests and the proprietary requests of the emulated
    FT232 chip; these are the codes of chapter 9 of the USB 1.1 standard
    (request codes, descriptor types, bmRequestType bit fields) and of the
    FTDI SIO vendor requests.  They instantiate the development on concrete
    requests; the general theorems hold for any values. *)
Definition usb11 : usb_h := {|
  usb_desc_device := 1;
  usb_desc_config := 2;
  usb_desc_string := 3;
  usb_desc_iface := 4;
  usb_desc_EP := 5;
  usb_req_get_status := 0;
  usb_req_clear_feature := 1;
  usb_req_set_feature := 3;
  usb_req_set_address := 5;
  usb_req_get_desc := 6;
  usb_req_set_desc := 7;
  usb_req_get_config := 8;
  usb_req_set_config := 9;
  usb_req_get_iface := 10;
  usb_req_set_iface := 11;
  usb_req_synch_frame := 12;
  USB_REQ_TYPE_IN := 0x80;
  USB_REQ_TYPE_OUT := 0x00;
  USB_REQ_TYPE_INTERFACE := 0x01;
  USB_REQ_TYPE_ENDPOINT := 0x02;
  USB_REQ_TYPE_VENDOR := 0x40;
  ReqType_DirD2H := 0x80;
  FTDI_SIO_RESET := 0;
  FTDI_SIO_MODEM_CTRL := 1;
  FTDI_SIO_SET_FLOW_CTRL := 2;
  FTDI_SIO_SET_BAUD_RATE := 3;
  FTDI_SIO_SET_DATA := 4;
  FTDI_SIO_GET_MODEM_STATUS := 5;
  FTDI_SIO_SET_LATENCY_TIMER := 9;
  FTDI_SIO_GET_LATENCY_TIMER := 10;
  FTDI_SIO_READ_EEPROM := 0x90
|}.

(** An oracle given by a script: the listed registers return the listed
    values in turn and [dflt] once their list is used up; every other
    register returns [dflt]. *)
Fixpoint script (l : list (reg * Z * list Z)) (dflt : Z) : reg -> Z -> nat -> Z :=
  match l with
  | [] => fun _ _ _ => dflt
  | (r, ep, vs) :: l' =>
      fun r' ep' k => if reg_eqb r' r && (ep' =? ep) then nth k vs dflt
                      else script l' dflt r' ep' k
  end.

(** The program's variables as C initialises them, with a request in [head],
    endpoint [ep] selected and an oracle. *)
Definition boot (h : usb_header) (ep : Z) (f : reg -> Z -> nat -> Z) : state :=
  mkState h 0 false false 0 ep f [].

(** ** The rest of the program *)

(** setupEP0 (lines 311-333): setup the control endpoint. *)
Definition setupEP0 : M unit :=
  lift (EP_select 0) ;;
  (* un-configure EP 0 *)
  lift (clear_bit UECONX EPEN) ;;
  lift (clear_bit UECFG1X ALLOC) ;;
  (* configure EP 0 *)
  lift (set_bit UECONX EPEN) ;;
  lift (wr UECFG0X 0) ;;                       (* CONTROL *)
  lift (wr UECFG1X 50) ;;                      (* EPSIZE=64B, 1 bank, ALLOC *)
  v <- liftv (rd UESTA0X) ;;
  if bit_is_clear v CFGOK then
    lift (putchar "!") ;; halt                 (* while(1) {} *)
  else ret tt.

Section MainLoop.
Context {K : usb_h}.

(** The USB part of the body of the main loop (lines 975-984): control
    messages first, then the inbound and the outbound check of the relay. *)
Definition main_loop_usb (fuel : nat) : M unit :=
  lift (EP_select 0) ;;
  v <- liftv (rd UEINTX) ;;
  (if negb (Z.land v (Z.shiftl 1 RXSTPI) =? 0) then handle_CONTROL fuel
   else ret tt) ;;
  lift handle_incoming_bytes ;;
  lift handle_outgoing_bytes.

(** [n] turns of the loop. *)
Fixpoint main_loop_passes (fuel : nat) (n : nat) : M unit :=
  match n with
  | O => ret tt
  | S n' => main_loop_usb fuel ;; main_loop_passes fuel n'
  end.

End MainLoop.

(** ** Notions the properties are stated with *)

(** Reading hexadecimal back: the value of a digit and of a digit string,
    most significant digit first. *)
Definition hex_value (c : ascii) : option Z :=
  let n := code c in
  if (48 <=? n) && (n <=? 57) then Some (n - 48)
  else if (97 <=? n) && (n <=? 102) then Some (n - 87)
  else None.

Fixpoint hex_decode_from (acc : Z) (l : list ascii) : option Z :=
  match l with
  | [] => Some acc
  | c :: l' =>
      match hex_value c with
      | Some d => hex_decode_from (16 * acc + d) l'
      | None => None
      end
  end.

Definition hex_decode (l : list ascii) : option Z := hex_decode_from 0 l.

(** Reading a dump of dump_unsupported_request back: a question mark and
    four groups of four digits. *)
Definition dump_decode (l : list ascii) : option (Z * Z * Z * Z) :=
  match l with
  | q :: l =>
      if (code q =? code "?") && (Nat.eqb (List.length l) 16) then
        match hex_decode (firstn 4 l), hex_decode (firstn 4 (skipn 4 l)),
              hex_decode (firstn 4 (skipn 8 l)), hex_decode (skipn 12 l) with
        | Some a, Some b, Some c, Some d => Some (a, b, c, d)
        | _, _, _, _ => None
        end
      else None
  | [] => None
  end.

(** The eight bytes of a SETUP packet on the wire: the request type, the
    request code and three 16-bit fields, low byte first. *)
Definition setup_bytes (h : usb_header) : list Z :=
  [bmReqType h; bReq h] ++ le16 (wValue h) ++ le16 (wIndex h) ++ le16 (wLength h).

(** The fields of a header fit their C types. *)
Definition header_ok (h : usb_header) : Prop :=
  0 <= bmReqType h < 256 /\ 0 <= bReq h < 256 /\
  0 <= wValue h < 65536 /\ 0 <= wIndex h < 65536 /\ 0 <= wLength h < 65536.

(** The next reads of register [r] on endpoint [ep] return the values [vs],
    in order. *)
Definition next_reads (r : reg) (ep : Z) (vs : list Z) (s : state) : Prop :=
  forall k, (k < List.length vs)%nat -> peek r ep k s = nth k vs 0.

(** [respects P R m]: started where [P] holds, [m] ends, however it ends,
    in a state that [R] relates to the first; where it returns, [P] holds
    again. *)
Definition respects {A : Type} (P : state -> Prop) (R : state -> state -> Prop)
    (m : M A) : Prop :=
  forall s, P s -> R s (final (m s)) /\ (returned (m s) = true -> P (final (m s))).

(** [P] and [R] are kept by the primitives: [R] is a preorder, and a
    register read, a register write and a diagnostic character each take a
    [P] state to an [R]-related [P] state. *)
Record rules (P : state -> Prop) (R : state -> state -> Prop) : Prop := mkRules {
  rule_refl : forall s, R s s;
  rule_trans : forall s t u, R s t -> R t u -> R s u;
  rule_rd : forall r s, P s -> R s (rd_next r s) /\ P (rd_next r s);
  rule_wr : forall r v s, P s -> R s (wr r v s) /\ P (wr r v s);
  rule_putchar : forall c s, P s -> R s (putchar c s) /\ P (putchar c s)
}.

Arguments rule_refl {P R} _ s.
Arguments rule_trans {P R} _ s t u _ _.
Arguments rule_rd {P R} _ r s _.
Arguments rule_wr {P R} _ r v s _.
Arguments rule_putchar {P R} _ c s _.

(** The variables of the relay. *)
Definition relay_vars (s : state) : bool * bool * Z :=
  (do_send_famous_message s, do_send_char s, usb_char s).

(** What acting on a control request may do: the request and the relay's
    variables stay, the configuration value changes only to the low byte of
    wValue of a Set Configuration request of type 0, and the trace grows. *)
Definition control_step {K : usb_h} (s s' : state) : Prop :=
  head s' = head s /\ relay_vars s' = relay_vars s /\
  (USB_config s' <> USB_config s ->
   bmReqType (head s) = 0 /\ bReq (head s) = usb_req_set_config /\
   USB_config s' = u8 (wValue (head s))) /\
  (exists tr, trace s' = (trace s ++ tr)%list).

(** The relay is left alone: its variables stay and no data byte is
    written to an endpoint other than endpoint 0. *)
Definition relay_kept (s s' : state) : Prop :=
  relay_vars s' = relay_vars s /\
  forall ep, ep <> 0 -> ep_data ep (trace s') = ep_data ep (trace s).

(** What the relay does to the controller, as a trace: it acknowledges an
    OUT packet on endpoint 2 (RXOUTI, then FIFOCON), or it sends one IN
    packet on endpoint 1 (TXINI, the data, FIFOCON) that holds the two
    reserved bytes followed by the banner or by one character. *)
Inductive relay_trace : list event -> Prop :=
  | relay_nothing : relay_trace []
  | relay_ack (a b : Z) (rest : list event) :
      bit_is_set a RXOUTI = false -> bit_is_set b FIFOCON = false ->
      relay_trace rest ->
      relay_trace (Wr UEINTX 2 a :: Wr UEINTX 2 b :: rest)
  | relay_packet (a b : Z) (payload : list Z) (rest : list event) :
      bit_is_set a TXINI = false -> bit_is_set b FIFOCON = false ->
      payload = banner \/ (exists c, payload = [c]) ->
      relay_trace rest ->
      relay_trace (Wr UEINTX 1 a :: map (Wr UEDATX 1) (0x80 :: 0x00 :: payload)
                   ++ Wr UEINTX 1 b :: rest).

(** A stream of bulk IN data made of such packets. *)
Inductive framed : list Z -> Prop :=
  | framed_nil : framed []
  | framed_banner (rest : list Z) :
      framed rest -> framed (0x80 :: 0x00 :: banner ++ rest)
  | framed_char (c : Z) (rest : list Z) :
      framed rest -> framed (0x80 :: 0x00 :: c :: rest).

(** The packets of a transfer on endpoint [ep]: each is its data bytes
    followed by a write of the flag register with TXINI cleared. *)
Inductive packet_trace (ep : Z) : list (list Z) -> list event -> Prop :=
  | packets_nil : packet_trace ep [] []
  | packets_cons (p : list Z) (ps : list (list Z)) (v : Z) (tr : list event) :
      bit_is_set v TXINI = false ->
      packet_trace ep ps tr ->
      packet_trace ep (p :: ps) (map (Wr UEDATX ep) p ++ Wr UEINTX ep v :: tr).

(** Every packet but the last is full, and the last is not empty. *)
Fixpoint full_but_last (size : nat) (ps : list (list Z)) : Prop :=
  match ps with
  | [] => True
  | [p] => (0 < List.length p <= size)%nat
  | p :: ps' => List.length p = size /\ full_but_last size ps'
  end.

(** ** The rest of the chip: start-up, the interrupt handler and main

    The code outside the USB protocol engine also drives registers that
    are not endpoint registers: the device-level USB registers, the PLL and
    port C.  A [board] is the engine's state together with an oracle and a
    log for those registers.  Each logged write carries the length of the
    engine's trace at that moment, which fixes its place among the engine's
    events, and the selected endpoint, as UEIENX belongs to it. *)

Inductive dreg : Type :=
  | USBCON | USBSTA | UHWCON | UDCON | UDINT | UDIEN | UEIENX
  | PLLCSR | PLLFRQ | PORTC | DDRC.

Definition dreg_idx (r : dreg) : Z :=
  match r with
  | USBCON => 0 | USBSTA => 1 | UHWCON => 2 | UDCON => 3 | UDINT => 4
  | UDIEN => 5 | UEIENX => 6 | PLLCSR => 7 | PLLFRQ => 8 | PORTC => 9
  | DDRC => 10
  end.

Definition dreg_eqb (a b : dreg) : bool := dreg_idx a =? dreg_idx b.

(** Bit numbers of the ATmega32U4 data sheet. *)
Definition UVREGE : Z := 0.   (* UHWCON *)
Definition USBE : Z := 7.     (* USBCON *)
Definition FRZCLK : Z := 5.   (* USBCON *)
Definition OTGPADE : Z := 4.  (* USBCON *)
Definition VBUS : Z := 0.     (* USBSTA *)
Definition DETACH : Z := 0.   (* UDCON *)
Definition LSM : Z := 2.      (* UDCON *)
Definition SUSPI : Z := 0.    (* UDINT *)
Definition EORSTI : Z := 3.   (* UDINT *)
Definition WAKEUPI : Z := 4.  (* UDINT *)
Definition SUSPE : Z := 0.    (* UDIEN *)
Definition EORSTE : Z := 3.   (* UDIEN *)
Definition WAKEUPE : Z := 4.  (* UDIEN *)
Definition PLOCK : Z := 0.    (* PLLCSR *)
Definition PLLE : Z := 1.     (* PLLCSR *)
Definition PINDIV : Z := 4.   (* PLLCSR *)
Definition PDIV1 : Z := 1.    (* PLLFRQ *)
Definition PDIV3 : Z := 3.    (* PLLFRQ *)
Definition PLLTM0 : Z := 4.   (* PLLFRQ *)
Definition PLLUSB : Z := 6.   (* PLLFRQ *)
Definition PORTC7 : Z := 7.   (* PORTC *)

(** enum ustate of main. *)
Inductive ustate : Type := usDisconnected | usDone.

(** A write of [v] to the register [r], made when the engine's trace held
    [pos] events and endpoint [ep] was selected. *)
Inductive devent : Type :=
  | DWr (pos : nat) (r : dreg) (ep : Z) (v : Z).

Record board : Type := mkBoard {
  usb : state;                  (* the USB protocol engine *)
  dsfr : dreg -> nat -> Z;      (* dsfr r k: what the k-th next read of r returns *)
  dtrace : list devent;         (* the writes to these registers *)
  interrupts : bool;            (* the global interrupt flag: cli(), sei() *)
  loop_ctr : Z;                 (* unsigned int loop_ctr of main *)
  us : ustate                   (* ustate us of main *)
}.

Definition with_usb (s : state) (b : board) : board :=
  mkBoard s (dsfr b) (dtrace b) (interrupts b) (loop_ctr b) (us b).
Definition with_dsfr (f : dreg -> nat -> Z) (b : board) : board :=
  mkBoard (usb b) f (dtrace b) (interrupts b) (loop_ctr b) (us b).
Definition dlog (e : devent) (b : board) : board :=
  mkBoard (usb b) (dsfr b) (dtrace b ++ [e]) (interrupts b) (loop_ctr b) (us b).
Definition with_interrupts (i : bool) (b : board) : board :=
  mkBoard (usb b) (dsfr b) (dtrace b) i (loop_ctr b) (us b).
Definition with_loop_ctr (c : Z) (b : board) : board :=
  mkBoard (usb b) (dsfr b) (dtrace b) (interrupts b) c (us b).
Definition with_us (u : ustate) (b : board) : board :=
  mkBoard (usb b) (dsfr b) (dtrace b) (interrupts b) (loop_ctr b) u.

(** Run a step of the engine on the board. *)
Definition on_usb (f : state -> state) (b : board) : board := with_usb (f (usb b)) b.

(** Volatile reads and writes of the board's registers. *)
Definition dpeek (r : dreg) (k : nat) (b : board) : Z := u8 (dsfr b r k).
Definition drd_next (r : dreg) (b : board) : board :=
  with_dsfr (fun r' k => if dreg_eqb r' r then dsfr b r' (S k) else dsfr b r' k) b.
Definition drd (r : dreg) (b : board) : Z * board := (dpeek r 0 b, drd_next r b).
Definition dwr (r : dreg) (v : Z) (b : board) : board :=
  dlog (DWr (List.length (trace (usb b))) r (UENUM (usb b)) (u8 v)) b.

(** [REG |= m] and [REG &= m]. *)
Definition dor (r : dreg) (m : Z) (b : board) : board :=
  let (v, b) := drd r b in dwr r (Z.lor v m) b.
Definition dand (r : dreg) (m : Z) (b : board) : board :=
  let (v, b) := drd r b in dwr r (Z.land v m) b.

(** Blocking code on the board. *)
Inductive bout (A : Type) : Type :=
  | BRet (a : A) (b : board)
  | BBusy (b : board)
  | BHalted (b : board).
Arguments BRet {A} a b.
Arguments BBusy {A} b.
Arguments BHalted {A} b.

Definition BM (A : Type) : Type := board -> bout A.

Definition bret {A : Type} (a : A) : BM A := fun b => BRet a b.
Definition bbind {A B : Type} (m : BM A) (k : A -> BM B) : BM B :=
  fun b => match m b with
           | BRet a b' => k a b'
           | BBusy b' => BBusy b'
           | BHalted b' => BHalted b'
           end.
Definition blift (f : board -> board) : BM unit := fun b => BRet tt (f b).

(** A computation of the engine, run on the board. *)
Definition core {A : Type} (m : M A) : BM A :=
  fun b => match m (usb b) with
           | Ret a s => BRet a (with_usb s b)
           | Busy s => BBusy (with_usb s b)
           | Halted s => BHalted (with_usb s b)
           end.

Definition bfinal {A : Type} (o : bout A) : board :=
  match o with BRet _ b => b | BBusy b => b | BHalted b => b end.
Definition breturned {A : Type} (o : bout A) : bool :=
  match o with BRet _ _ => true | _ => false end.

Declare Scope board_scope.
Delimit Scope board_scope with board.
Notation "x <- m ;; k" := (bbind m (fun x => k))
  (at level 61, m at next level, right associativity) : board_scope.
Notation "m ;; k" := (bbind m (fun _ => k))
  (at level 61, right associativity) : board_scope.

(** *** setup_usb (lines 868-912) *)

(** [while (!(PLLCSR & (1<<PLOCK)));] *)
Fixpoint wait_PLL_lock (fuel : nat) : BM unit :=
  fun b =>
    match fuel with
    | O => BBusy b
    | S fuel' =>
        let (v, b) := drd PLLCSR b in
        if Z.land v (Z.shiftl 1 PLOCK) =? 0 then wait_PLL_lock fuel' b
        else BRet tt b
    end.

(** The loop [for (uint8_t i = 1; i <= 6; i++)] with [n] turns to go:
    select endpoint [i] and disable it. *)
Fixpoint disable_endpoints (n : nat) (i : Z) (s : state) : state :=
  match n with
  | O => s
  | S n' =>
      let s := set_UENUM (u8 (Z.lor (Z.land (UENUM s) 0xF8) i)) s in
      let s := clear_bit UECONX EPEN s in      (* UECONX &= ~(1 << EPEN) *)
      disable_endpoints n' (i + 1) s
  end.

(** Performs initial USB and PLL configuration. *)
Definition setup_usb (fuel : nat) : BM unit :=
  (blift (with_interrupts false) ;;             (* cli() *)
   blift (dand USBCON 254) ;;                   (* 0b11111110 *)
   blift (dand UDIEN 130) ;;                    (* 0b10000010 *)
   blift (dand UEIENX 32) ;;                    (* 0b00100000 *)
   blift (with_interrupts true) ;;              (* sei() *)
   blift (dor UHWCON (Z.shiftl 1 UVREGE)) ;;
   blift (dwr PLLCSR 0) ;;
   blift (dor PLLCSR (Z.shiftl 1 PINDIV)) ;;
   blift (dwr PLLFRQ (Z.lor (Z.lor (Z.lor (Z.shiftl 1 PDIV3) (Z.shiftl 1 PDIV1))
                                   (Z.shiftl 1 PLLUSB)) (Z.shiftl 1 PLLTM0))) ;;
   blift (dor PLLCSR (Z.shiftl 1 PLLE)) ;;
   wait_PLL_lock fuel ;;
   blift (dor USBCON (Z.lor (Z.shiftl 1 USBE) (Z.shiftl 1 OTGPADE))) ;;
   blift (dand USBCON (Z.lnot (Z.shiftl 1 FRZCLK))) ;;
   blift (dand UDCON (Z.lnot (Z.shiftl 1 LSM))) ;;
   blift (on_usb (disable_endpoints 6 1)))%board.

(** *** ISR(USB_GEN_vect) (lines 387-430)

    settings.h, which may define HANDLE_SUSPEND, is not among the sources:
    the handler is given for both settings. *)
Section Interrupt.
Variable HANDLE_SUSPEND : bool.

Definition USB_GEN_vect : BM unit :=
  fun b =>
    let (status, b) := drd UDINT b in
    let ack := 0 in
    let b := on_usb (putchar "I") b in
    let (ack, b) :=
      if HANDLE_SUSPEND && bit_is_set status SUSPI then
        (Z.lor ack (_BV SUSPI),
         (* prepare for wakeup, freeze *)
         dor USBCON (_BV FRZCLK)
           (dor UDIEN (_BV WAKEUPE) (dand UDIEN (Z.lnot (_BV SUSPE)) b)))
      else (ack, b) in
    let (ack, b) :=
      if HANDLE_SUSPEND && bit_is_set status WAKEUPI then
        (Z.lor ack (_BV WAKEUPI),
         dor UDIEN (_BV SUSPE)
           (dand UDIEN (Z.lnot (_BV WAKEUPE))
              (dand USBCON (Z.lnot (_BV FRZCLK)) b)))
      else (ack, b) in
    if bit_is_set status EORSTI then
      let ack := Z.lor ack (_BV EORSTI) in
      (* coming out of USB reset *)
      let b := if HANDLE_SUSPEND
               then dor UDIEN (_BV WAKEUPE) (dand UDIEN (Z.lnot (_BV SUSPE)) b)
               else b in
      let b := on_usb (putchar "E") b in
      (core setupEP0 ;;
       (* ack. all active interrupts (write 0) *)
       blift (dwr UDINT (Z.lnot ack)))%board b
    else
      BRet tt (dwr UDINT (Z.lnot ack) b).

End Interrupt.

(** *** The body of the main loop (lines 939-985) *)

(** The two characters that "\r\n" stands for in a C string. *)
Definition CRLF : string :=
  String (ascii_of_nat 13) (String (ascii_of_nat 10) EmptyString).

Section Main.
Context {K : usb_h}.

(** The part of the body before the USB handling: the counter and the
    LED, then the plug detection.  [_delay_ms(5)] between the two only
    passes time and has no counterpart here. *)
Definition main_loop_led (b : board) : board :=
  let b := with_loop_ctr (u16 (loop_ctr b + 1)) b in      (* ++loop_ctr *)
  if negb (Z.land (loop_ctr b) 0x80 =? 0)
  then dor PORTC (_BV PORTC7) b
  else dand PORTC (Z.lnot (_BV PORTC7)) b.

Definition main_loop_plug (b : board) : board :=
  match us b with
  | usDisconnected =>
      let (v, b) := drd USBSTA b in
      if negb (Z.land v (Z.shiftl 1 VBUS) =? 0) then
        let b := on_usb (print ("Plugged in!" ++ CRLF)) b in
        (* connected *)
        let b := dand UDCON (Z.lnot (Z.shiftl 1 DETACH)) b in
        (* enable the end of reset interrupt *)
        let b := dor UDIEN (Z.shiftl 1 EORSTE) b in
        with_us usDone b
      else b
  | usDone =>
      let (v, b) := drd USBSTA b in
      if Z.land v (Z.shiftl 1 VBUS) =? 0 then
        (* we got disconnected from the pc/laptop *)
        let b := on_usb (print ("Disconnected!" ++ CRLF)) b in
        with_us usDisconnected b
      else b
  end.

Definition main_loop_body (fuel : nat) : BM unit :=
  (blift main_loop_led ;;
   blift main_loop_plug ;;
   core (main_loop_usb fuel))%board.

End Main.

(** *** Notions for the board *)

(** The values written to the register [r] in a log, in order. *)
Fixpoint dreg_writes (r : dreg) (l : list devent) : list Z :=
  match l with
  | [] => []
  | DWr _ r' _ v :: l' =>
      if dreg_eqb r' r then v :: dreg_writes r l' else dreg_writes r l'
  end.

(** Writes to the board's registers made while the engine stands still in
    the state [s]. *)
Definition early_writes (s : state) (b b' : board) : Prop :=
  usb b = s /\ usb b' = s /\
  exists dl, dtrace b' = (dtrace b ++ dl)%list /\
             Forall (fun e => match e with
                              | DWr pos _ ep _ =>
                                  pos = List.length (trace s) /\ ep = UENUM s
                              end) dl.


(** A board at power-on: the engine with nothing selected and an oracle
    for the other registers. *)
Definition power_on (f : dreg -> nat -> Z) : board :=
  mkBoard (boot (mkHeader 0 0 0 0 0) 0 (script [] 0)) f [] true 0 usDisconnected.


(** * Properties *)

(** ** Machine integers *)

Lemma u8_range (x : Z) : 0 <= u8 x < 256.
Proof. unfold u8. apply Z.mod_pos_bound. lia. Qed.

Lemma u8_small (x : Z) : 0 <= x < 256 -> u8 x = x.
Proof. intros H. unfold u8. apply Z.mod_small. exact H. Qed.

Lemma u8_idem (x : Z) : u8 (u8 x) = u8 x.
Proof. apply u8_small, u8_range. Qed.

Lemma bit_is_clear_negb (v bit : Z) : bit_is_clear v bit = negb (bit_is_set v bit).
Proof. unfold bit_is_clear, bit_is_set. now rewrite negb_involutive. Qed.

(** Clearing a bit leaves it clear. *)
Lemma cleared_bit (v bit : Z) :
  0 <= bit < 8 -> bit_is_set (cleared v bit) bit = false.
Proof.
  intros Hb. unfold bit_is_set, cleared, u8, _BV.
  apply negb_false_iff, Z.eqb_eq. apply Z.bits_inj'. intros n Hn.
  rewrite Z.land_spec, Z.bits_0. change 256 with (2 ^ 8).
  destruct (Z.eq_dec n bit) as [->|Hne].
  - rewrite Z.mod_pow2_bits_low by lia.
    rewrite Z.land_spec, Z.lnot_spec, Z.shiftl_spec by lia.
    rewrite Z.sub_diag. cbn [Z.testbit negb]. now rewrite andb_false_r.
  - rewrite Z.shiftl_spec by lia.
    destruct (Z.ltb_spec n bit).
    + rewrite (Z.testbit_neg_r 1) by lia. apply andb_false_r.
    + replace (Z.testbit 1 (n - bit)) with false; [apply andb_false_r|].
      symmetry. apply (Z.bits_above_log2 1); cbn; lia.
Qed.

(** ** Traces *)

Lemma ep_data_app (ep : Z) (t1 t2 : list event) :
  ep_data ep (t1 ++ t2) = (ep_data ep t1 ++ ep_data ep t2)%list.
Proof.
  induction t1 as [|e t1 IH]; simpl; [reflexivity|].
  destruct e as [r e v|c]; [|exact IH].
  destruct r; try exact IH.
  destruct (e =? ep); simpl; now rewrite IH.
Qed.

Lemma ep_data_map_Wr (ep : Z) (l : list Z) :
  ep_data ep (map (Wr UEDATX ep) l) = l.
Proof.
  induction l as [|v l IH]; simpl; [reflexivity|].
  now rewrite Z.eqb_refl, IH.
Qed.

Lemma ep_data_map_Uart (ep : Z) (l : list ascii) : ep_data ep (map Uart l) = [].
Proof. induction l as [|c l IH]; simpl; [reflexivity | exact IH]. Qed.

(** ** The oracle *)

(** A read of one register leaves the streams of the others alone. *)
Lemma pop_other (r0 : reg) (ep0 : Z) (f : reg -> Z -> nat -> Z)
    (r : reg) (ep : Z) (k : nat) :
  (r, ep) <> (r0, ep0) -> pop r0 ep0 f r ep k = f r ep k.
Proof.
  intros Hne. unfold pop.
  destruct (reg_eqb r r0 && (ep =? ep0)) eqn:E; [|reflexivity].
  apply andb_true_iff in E. destruct E as [E1 E2].
  apply Z.eqb_eq in E2. subst ep.
  unfold reg_eqb in E1. apply Z.eqb_eq in E1.
  elim Hne. f_equal. destruct r, r0; try discriminate E1; reflexivity.
Qed.

Lemma pop_same (r : reg) (ep : Z) (f : reg -> Z -> nat -> Z) (k : nat) :
  pop r ep f r ep k = f r ep (S k).
Proof. unfold pop, reg_eqb. now rewrite !Z.eqb_refl. Qed.

(** ** Frame rules: what each primitive leaves alone *)

Section Frames.
Context (f : state -> state).

Lemma quiet_pvars `{!Quiet f} s : pvars (f s) = pvars s.
Proof. apply quiet. Qed.
Lemma quiet_head `{!Quiet f} s : head (f s) = head s.
Proof. pose proof (quiet s) as H. unfold pvars in H. now injection H. Qed.
Lemma quiet_USB_config `{!Quiet f} s : USB_config (f s) = USB_config s.
Proof. pose proof (quiet s) as H. unfold pvars in H. now injection H. Qed.
Lemma quiet_famous `{!Quiet f} s :
  do_send_famous_message (f s) = do_send_famous_message s.
Proof. pose proof (quiet s) as H. unfold pvars in H. now injection H. Qed.
Lemma quiet_char `{!Quiet f} s : do_send_char (f s) = do_send_char s.
Proof. pose proof (quiet s) as H. unfold pvars in H. now injection H. Qed.
Lemma quiet_usb_char `{!Quiet f} s : usb_char (f s) = usb_char s.
Proof. pose proof (quiet s) as H. unfold pvars in H. now injection H. Qed.
Lemma keeps_peek `{!KeepsSfr f} r ep k s : peek r ep k (f s) = peek r ep k s.
Proof. unfold peek. now rewrite keeps_sfr. Qed.

End Frames.

#[local] Instance rd_next_quiet r : Quiet (rd_next r). Proof. intros s; reflexivity. Qed.
#[local] Instance rd_next_ep r : KeepsEP (rd_next r). Proof. intros s; reflexivity. Qed.
#[local] Instance rd_next_trace r : KeepsTrace (rd_next r). Proof. intros s; reflexivity. Qed.
#[local] Instance wr_quiet r v : Quiet (wr r v). Proof. intros s; reflexivity. Qed.
#[local] Instance wr_ep r v : KeepsEP (wr r v). Proof. intros s; reflexivity. Qed.
#[local] Instance wr_sfr r v : KeepsSfr (wr r v). Proof. intros s; reflexivity. Qed.
#[local] Instance clear_bit_quiet r b : Quiet (clear_bit r b). Proof. intros s; reflexivity. Qed.
#[local] Instance clear_bit_ep r b : KeepsEP (clear_bit r b). Proof. intros s; reflexivity. Qed.
#[local] Instance set_bit_quiet r b : Quiet (set_bit r b). Proof. intros s; reflexivity. Qed.
#[local] Instance set_bit_ep r b : KeepsEP (set_bit r b). Proof. intros s; reflexivity. Qed.
#[local] Instance EP_select_quiet n : Quiet (EP_select n). Proof. intros s; reflexivity. Qed.
#[local] Instance EP_select_sfr n : KeepsSfr (EP_select n). Proof. intros s; reflexivity. Qed.
#[local] Instance EP_select_trace n : KeepsTrace (EP_select n). Proof. intros s; reflexivity. Qed.
#[local] Instance putchar_quiet c : Quiet (putchar c). Proof. intros s; reflexivity. Qed.
#[local] Instance putchar_ep c : KeepsEP (putchar c). Proof. intros s; reflexivity. Qed.
#[local] Instance putchar_sfr c : KeepsSfr (putchar c). Proof. intros s; reflexivity. Qed.

#[local] Instance send_reserved_bytes_quiet : Quiet send_reserved_bytes.
Proof. intros s; reflexivity. Qed.
#[local] Instance send_reserved_bytes_ep : KeepsEP send_reserved_bytes.
Proof. intros s; reflexivity. Qed.
#[local] Instance send_reserved_bytes_sfr : KeepsSfr send_reserved_bytes.
Proof. intros s; reflexivity. Qed.
#[local] Instance set_head_ep h : KeepsEP (set_head h). Proof. intros s; reflexivity. Qed.
#[local] Instance set_head_sfr h : KeepsSfr (set_head h). Proof. intros s; reflexivity. Qed.
#[local] Instance set_head_trace h : KeepsTrace (set_head h). Proof. intros s; reflexivity. Qed.
#[local] Instance set_USB_config_ep v : KeepsEP (set_USB_config v). Proof. intros s; reflexivity. Qed.
#[local] Instance set_USB_config_sfr v : KeepsSfr (set_USB_config v). Proof. intros s; reflexivity. Qed.
#[local] Instance set_USB_config_trace v : KeepsTrace (set_USB_config v). Proof. intros s; reflexivity. Qed.
#[local] Instance set_famous_ep b : KeepsEP (set_do_send_famous_message b). Proof. intros s; reflexivity. Qed.
#[local] Instance set_famous_sfr b : KeepsSfr (set_do_send_famous_message b). Proof. intros s; reflexivity. Qed.
#[local] Instance set_famous_trace b : KeepsTrace (set_do_send_famous_message b). Proof. intros s; reflexivity. Qed.
#[local] Instance set_char_ep b : KeepsEP (set_do_send_char b). Proof. intros s; reflexivity. Qed.
#[local] Instance set_char_sfr b : KeepsSfr (set_do_send_char b). Proof. intros s; reflexivity. Qed.
#[local] Instance set_char_trace b : KeepsTrace (set_do_send_char b). Proof. intros s; reflexivity. Qed.
#[local] Instance set_usb_char_ep c : KeepsEP (set_usb_char c). Proof. intros s; reflexivity. Qed.
#[local] Instance set_usb_char_sfr c : KeepsSfr (set_usb_char c). Proof. intros s; reflexivity. Qed.
#[local] Instance set_usb_char_trace c : KeepsTrace (set_usb_char c). Proof. intros s; reflexivity. Qed.

Lemma UENUM_EP_select n s : UENUM (EP_select n s) = Z.land n 7.
Proof. reflexivity. Qed.

Lemma peek_rd_next r0 r ep k s :
  peek r ep k (rd_next r0 s) =
  if reg_eqb r r0 && (ep =? UENUM s) then peek r ep (S k) s else peek r ep k s.
Proof. unfold peek, rd_next, pop. cbn [sfr set_sfr]. now destruct (_ && _). Qed.

Lemma peek_rd_next_same r ep k s :
  ep = UENUM s -> peek r ep k (rd_next r s) = peek r ep (S k) s.
Proof.
  intros ->. rewrite peek_rd_next. unfold reg_eqb. now rewrite !Z.eqb_refl.
Qed.

Lemma peek_rd_next_other r0 r ep k s :
  (r, ep) <> (r0, UENUM s) -> peek r ep k (rd_next r0 s) = peek r ep k s.
Proof. intros H. unfold peek, rd_next. cbn [sfr set_sfr]. now rewrite pop_other. Qed.

Lemma peek_clear_bit r0 b r ep k s :
  peek r ep k (clear_bit r0 b s) = peek r ep k (rd_next r0 s).
Proof. reflexivity. Qed.
Lemma peek_set_bit r0 b r ep k s :
  peek r ep k (set_bit r0 b s) = peek r ep k (rd_next r0 s).
Proof. reflexivity. Qed.

Lemma trace_wr r v s : trace (wr r v s) = (trace s ++ [Wr r (UENUM s) (u8 v)])%list.
Proof. reflexivity. Qed.
Lemma trace_putchar c s : trace (putchar c s) = (trace s ++ [Uart c])%list.
Proof. reflexivity. Qed.
Lemma trace_clear_bit r b s :
  trace (clear_bit r b s) =
  (trace s ++ [Wr r (UENUM s) (cleared (peek r (UENUM s) 0 s) b)])%list.
Proof. reflexivity. Qed.
Lemma trace_set_bit r b s :
  trace (set_bit r b s) =
  (trace s ++ [Wr r (UENUM s) (raised (peek r (UENUM s) 0 s) b)])%list.
Proof. reflexivity. Qed.
Lemma trace_send_reserved_bytes s :
  trace (send_reserved_bytes s) =
  (trace s ++ [Wr UEDATX (UENUM s) 0x80; Wr UEDATX (UENUM s) 0x00])%list.
Proof.
  unfold send_reserved_bytes. rewrite !trace_wr, <- app_assoc. reflexivity.
Qed.

Ltac tc := typeclasses eauto.

(** Push a projection through the operations that leave it alone, through
    the assignments to program variables and through endpoint selection. *)
Ltac frame :=
  repeat first
    [ rewrite quiet_pvars by tc
    | rewrite quiet_head by tc
    | rewrite quiet_USB_config by tc
    | rewrite quiet_famous by tc
    | rewrite quiet_char by tc
    | rewrite quiet_usb_char by tc
    | rewrite keeps_ep by tc
    | rewrite keeps_peek by tc
    | rewrite keeps_trace by tc
    | rewrite UENUM_EP_select
    | rewrite peek_clear_bit
    | rewrite peek_set_bit
    | progress change (Z.land 0 7) with 0
    | progress change (Z.land 1 7) with 1
    | progress change (Z.land 2 7) with 2
    | progress cbn [head USB_config do_send_famous_message do_send_char usb_char
                    set_head set_USB_config set_do_send_famous_message
                    set_do_send_char set_usb_char] ].

(** Reads of a concrete register on a concrete endpoint. *)
Ltac reads :=
  repeat (rewrite peek_rd_next; frame;
          cbn [reg_eqb reg_idx Z.eqb Pos.eqb andb]).

(** ** The bulk data relay *)

Section Relay.

Lemma bulk_write_PM_loop_spec (n : nat) : forall (addr : list Z) (s : state),
  (n <= List.length addr)%nat ->
  let s' := bulk_write_PM_loop n addr s in
  pvars s' = pvars s /\ UENUM s' = UENUM s /\ sfr s' = sfr s /\
  trace s' = (trace s ++ map (Wr UEDATX (UENUM s)) (map u8 (firstn n addr)))%list.
Proof.
  induction n as [|n IH]; intros addr s Hn; cbn [bulk_write_PM_loop].
  - cbn [firstn map]. now rewrite app_nil_r.
  - destruct addr as [|a addr]; cbn [List.length] in Hn; [lia|].
    cbn [tl pgm_read_byte hd firstn map].
    destruct (IH addr (wr UEDATX a s)) as (A & B & C & D); [lia|].
    cbv zeta in A, B, C, D |- *. rewrite A, B, C, D.
    rewrite trace_wr. frame. rewrite <- app_assoc.
    repeat split; reflexivity.
Qed.

(** The banner fits its flash object. *)
Lemma banner_in_flash : (Z.to_nat (u16 14) <= List.length famous_message)%nat.
Proof. change (14 <= 15)%nat. lia. Qed.

#[local] Instance bulk_write_PM_quiet : Quiet (bulk_write_PM famous_message 14).
Proof. intros s. apply bulk_write_PM_loop_spec, banner_in_flash. Qed.
#[local] Instance bulk_write_PM_ep : KeepsEP (bulk_write_PM famous_message 14).
Proof. intros s. apply bulk_write_PM_loop_spec, banner_in_flash. Qed.
#[local] Instance bulk_write_PM_sfr : KeepsSfr (bulk_write_PM famous_message 14).
Proof. intros s. apply bulk_write_PM_loop_spec, banner_in_flash. Qed.

Lemma trace_bulk_write_PM (s : state) :
  trace (bulk_write_PM famous_message 14 s) =
  (trace s ++ map (Wr UEDATX (UENUM s)) banner)%list.
Proof.
  unfold bulk_write_PM.
  rewrite (proj2 (proj2 (proj2 (bulk_write_PM_loop_spec _ _ s banner_in_flash)))).
  reflexivity.
Qed.

(** The outbound check when nothing is pending. *)
Lemma handle_outgoing_bytes_idle (s : state) :
  do_send_famous_message s = false -> do_send_char s = false ->
  handle_outgoing_bytes s = EP_select 1 s.
Proof.
  intros Hf Hc. unfold handle_outgoing_bytes. cbv zeta. frame.
  now rewrite Hf, Hc.
Qed.

(** The outbound check when the IN endpoint is not ready to transmit. *)
Lemma handle_outgoing_bytes_not_ready (s : state) :
  bit_is_set (peek UEINTX 1 0 s) TXINI = false ->
  let s' := handle_outgoing_bytes s in
  trace s' = trace s /\
  do_send_famous_message s' = false /\
  do_send_char s' = do_send_famous_message s && do_send_char s /\
  usb_char s' = usb_char s /\
  (forall r ep k, (r, ep) <> (UEINTX, 1) -> peek r ep k s' = peek r ep k s).
Proof.
  intros H. unfold handle_outgoing_bytes, rd. cbv beta iota zeta. frame.
  destruct (do_send_famous_message s) eqn:Hf; [|destruct (do_send_char s) eqn:Hc];
    frame; rewrite ?H; frame; rewrite ?Hf, ?Hc;
    (split; [reflexivity|]); (split; [reflexivity|]);
    (split; [reflexivity|]); (split; [reflexivity|]);
    intros r ep k Hne;
    try (rewrite peek_rd_next_other by (frame; exact Hne)); frame; reflexivity.
Qed.

(** The outbound check sending the echo. *)
Lemma handle_outgoing_bytes_echo (s : state) :
  do_send_famous_message s = false -> do_send_char s = true ->
  bit_is_set (peek UEINTX 1 0 s) TXINI = true ->
  let s' := handle_outgoing_bytes s in
  trace s' =
    (trace s ++
     [Wr UEINTX 1 (cleared (peek UEINTX 1 1 s) TXINI);
      Wr UEDATX 1 0x80; Wr UEDATX 1 0x00; Wr UEDATX 1 (u8 (usb_char s));
      Wr UEINTX 1 (cleared (peek UEINTX 1 2 s) FIFOCON)])%list /\
  do_send_famous_message s' = false /\ do_send_char s' = false /\
  (forall r ep k, (r, ep) <> (UEINTX, 1) -> peek r ep k s' = peek r ep k s).
Proof.
  intros Hf Hc H. unfold handle_outgoing_bytes, rd. cbv beta iota zeta.
  frame. rewrite Hf, Hc. frame. rewrite H.
  split; [|split; [|split]].
  - rewrite trace_clear_bit, trace_wr, trace_send_reserved_bytes, trace_clear_bit.
    frame. reads.
    repeat rewrite <- app_assoc. reflexivity.
  - frame. exact Hf.
  - frame. reflexivity.
  - intros r ep k Hne. frame.
    repeat (rewrite peek_rd_next_other by (frame; exact Hne); frame).
    reflexivity.
Qed.

(** The outbound check sending the banner. *)
Lemma handle_outgoing_bytes_banner (s : state) :
  do_send_famous_message s = true ->
  bit_is_set (peek UEINTX 1 0 s) TXINI = true ->
  let s' := handle_outgoing_bytes s in
  trace s' =
    (trace s ++
     [Wr UEINTX 1 (cleared (peek UEINTX 1 1 s) TXINI)] ++
     map (Wr UEDATX 1) ([0x80; 0x00] ++ banner) ++
     [Wr UEINTX 1 (cleared (peek UEINTX 1 2 s) FIFOCON)])%list /\
  do_send_famous_message s' = false /\ do_send_char s' = do_send_char s /\
  (forall r ep k, (r, ep) <> (UEINTX, 1) -> peek r ep k s' = peek r ep k s).
Proof.
  intros Hf H. unfold handle_outgoing_bytes, rd. cbv beta iota zeta.
  frame. rewrite Hf. frame. rewrite H.
  split; [|split; [|split]].
  - rewrite trace_clear_bit, trace_bulk_write_PM, trace_send_reserved_bytes,
      trace_clear_bit.
    frame. reads.
    rewrite map_app. repeat rewrite <- app_assoc. reflexivity.
  - frame. reflexivity.
  - frame. reflexivity.
  - intros r ep k Hne. frame.
    repeat (rewrite peek_rd_next_other by (frame; exact Hne); frame).
    reflexivity.
Qed.

(** The outbound check sending the banner: what it leaves for later. *)
Lemma handle_outgoing_bytes_banner_more (s : state) :
  do_send_famous_message s = true ->
  bit_is_set (peek UEINTX 1 0 s) TXINI = true ->
  let s' := handle_outgoing_bytes s in
  usb_char s' = usb_char s /\
  (forall k, peek UEINTX 1 k s' = peek UEINTX 1 (3 + k) s).
Proof.
  intros Hf H. unfold handle_outgoing_bytes, rd. cbv beta iota zeta.
  frame. rewrite Hf. frame. rewrite H.
  split; [frame; reflexivity|].
  intros k. frame. reads. reflexivity.
Qed.

Lemma handle_outgoing_bytes_famous (s : state) :
  do_send_famous_message (handle_outgoing_bytes s) = false.
Proof.
  unfold handle_outgoing_bytes, rd. cbv beta iota zeta. frame.
  destruct (do_send_famous_message s) eqn:Hf; [|destruct (do_send_char s) eqn:Hc];
    frame; try destruct (bit_is_set _ TXINI); frame; auto.
Qed.

(** The loop of the inbound check leaves the controller alone but for the
    data register of the selected endpoint. *)
Lemma read_chars_spec (n : nat) : forall s : state,
  let s' := read_chars n s in
  UENUM s' = UENUM s /\ trace s' = trace s /\
  (forall r ep k, (r, ep) <> (UEDATX, UENUM s) -> peek r ep k s' = peek r ep k s).
Proof.
  induction n as [|n IH]; intros s; cbn [read_chars]; [auto|].
  unfold rd. cbv beta iota zeta.
  match goal with
  | |- context [read_chars n ?t] =>
      destruct (IH t) as (A & B & C);
      assert (Hu : UENUM t = UENUM s) by (destruct (_ =? code "a"); frame; reflexivity);
      assert (Ht : trace t = trace s) by (destruct (_ =? code "a"); frame; reflexivity);
      assert (Hp : forall r ep k, (r, ep) <> (UEDATX, UENUM s) ->
                                  peek r ep k t = peek r ep k s)
        by (intros r ep k Hne; destruct (_ =? code "a"); frame;
            now rewrite peek_rd_next_other)
  end.
  cbv zeta in A, B, C. rewrite A, B, Hu, Ht.
  split; [reflexivity|]. split; [reflexivity|].
  intros r ep k Hne. rewrite C by (rewrite Hu; exact Hne). now apply Hp.
Qed.

(** The inbound check when the OUT endpoint holds no data. *)
Lemma handle_incoming_bytes_idle (s : state) :
  bit_is_set (peek UEINTX 2 0 s) RXOUTI = false ->
  handle_incoming_bytes s = rd_next UEINTX (EP_select 2 s).
Proof.
  intros H. unfold handle_incoming_bytes, rd. cbv beta iota zeta. frame.
  now rewrite H.
Qed.

(** The inbound check when the host delivered the single byte [c]. *)
Lemma handle_incoming_bytes_one (s : state) (c : Z) :
  bit_is_set (peek UEINTX 2 0 s) RXOUTI = true ->
  peek UEBCHX 2 0 s = 0 -> peek UEBCLX 2 0 s = 1 -> peek UEDATX 2 0 s = c ->
  let s' := handle_incoming_bytes s in
  trace s' =
    (trace s ++ [Wr UEINTX 2 (cleared (peek UEINTX 2 1 s) RXOUTI);
                 Wr UEINTX 2 (cleared (peek UEINTX 2 2 s) FIFOCON)])%list /\
  usb_char s' = c /\
  do_send_famous_message s' = (c =? code "a") || do_send_famous_message s /\
  do_send_char s' = negb (c =? code "a") || do_send_char s /\
  (forall r ep k, ep <> 2 -> peek r ep k s' = peek r ep k s) /\
  (forall k, peek UEINTX 2 k s' = peek UEINTX 2 (3 + k) s).
Proof.
  intros H1 H2 H3 H4. unfold handle_incoming_bytes, rd. cbv beta iota zeta.
  frame. rewrite H1. reads. rewrite H2, H3.
  change (Z.lor (Z.shiftl 0 8) 1) with 1. change (1 >? 0) with true.
  change (Z.to_nat 1) with 1%nat. cbn [read_chars].
  unfold rd. cbv beta iota zeta. frame. reads. rewrite H4.
  assert (Hne : forall (r r0 : reg) (ep : Z), ep <> 2 -> (r, ep) <> (r0, 2))
    by (intros r r0 ep Hep E; injection E; auto).
  destruct (c =? code "a"); cbn [orb negb].
  - split.
    { rewrite trace_clear_bit. frame. rewrite trace_clear_bit. frame. reads.
      now rewrite <- app_assoc. }
    split; [frame; reflexivity|]. split; [frame; reflexivity|].
    split; [frame; reflexivity|]. split.
    + intros r ep k Hep. frame.
      repeat (rewrite peek_rd_next_other by (frame; now apply Hne); frame).
      reflexivity.
    + intros k. frame. reads. reflexivity.
  - split.
    { rewrite trace_clear_bit. frame. rewrite trace_clear_bit. frame. reads.
      now rewrite <- app_assoc. }
    split; [frame; reflexivity|]. split; [frame; reflexivity|].
    split; [frame; reflexivity|]. split.
    + intros r ep k Hep. frame.
      repeat (rewrite peek_rd_next_other by (frame; now apply Hne); frame).
      reflexivity.
    + intros k. frame. reads. reflexivity.
Qed.

(** A pass of the relay with nothing pending and nothing delivered does
    nothing but consume one read of the OUT endpoint's flags. *)
Lemma relay_poll_idle (s : state) :
  do_send_famous_message s = false -> do_send_char s = false ->
  bit_is_set (peek UEINTX 2 0 s) RXOUTI = false ->
  relay_poll s = EP_select 1 (rd_next UEINTX (EP_select 2 s)).
Proof.
  intros Hf Hc H. unfold relay_poll.
  rewrite handle_incoming_bytes_idle by exact H.
  apply handle_outgoing_bytes_idle; frame; assumption.
Qed.

Lemma relay_polls_idle (n : nat) : forall s : state,
  do_send_famous_message s = false -> do_send_char s = false ->
  (forall k, bit_is_set (peek UEINTX 2 k s) RXOUTI = false) ->
  trace (relay_polls n s) = trace s.
Proof.
  induction n as [|n IH]; intros s Hf Hc H; [reflexivity|].
  cbn [relay_polls]. rewrite relay_poll_idle by auto.
  rewrite IH; frame; auto.
  intros k. reads. apply H.
Qed.

Lemma relay_polls_famous (n : nat) : forall s : state,
  do_send_famous_message (relay_polls (S n) s) = false.
Proof.
  induction n as [|n IH]; intros s.
  - cbn [relay_polls]. apply handle_outgoing_bytes_famous.
  - change (relay_polls (S (S n)) s) with (relay_polls (S n) (relay_poll s)).
    apply IH.
Qed.

(** C3: after every complete pass of the relay in the main loop (the
    inbound check followed by the outbound check), whatever the host
    delivered and from whatever state the pass started, the banner flag is
    down, so the banner flag and the echo flag are not both set: at most one
    item is pending.  This holds at the end of a pass only: between the two
    checks of one pass both flags can be up. *)
Theorem relay_at_most_one_pending (n : nat) (s : state) :
  let s' := relay_polls (S n) s in
  do_send_famous_message s' = false /\
  do_send_famous_message s' && do_send_char s' = false /\
  (pending_items s' <= 1)%nat.
Proof.
  cbv zeta. unfold pending_items. rewrite relay_polls_famous.
  split; [reflexivity|]. split; [reflexivity|].
  destruct (do_send_char _); cbn; lia.
Qed.

(** The two flags set at the same time: from power-on the host delivers
    the two bytes 'a' and 'b' in one packet (RXOUTI is bit 2, the byte
    count reads 2).  After the inbound check both flags are up and two
    items are pending. *)
Lemma both_flags_inside_a_pass :
  let s := handle_incoming_bytes
             (boot (mkHeader 0 0 0 0 0) 0
                (script [(UEINTX, 2, [4]); (UEBCLX, 2, [2]);
                         (UEDATX, 2, [97; 98])] 0)) in
  do_send_famous_message s = true /\ do_send_char s = true /\
  do_send_famous_message s && do_send_char s = true /\
  pending_items s = 2%nat.
Proof. vm_compute. repeat split; reflexivity. Qed.

(** C6: the host delivers the single byte 0x41 on the bulk OUT endpoint,
    no banner is pending, and the relay is polled (inbound check, then
    outbound check) with the bulk IN endpoint ready to transmit: between
    taking the endpoint and releasing the packet the program writes exactly
    the bytes 0x80, 0x00, 0x41 to the IN endpoint. *)
Theorem relay_echoes_A (s : state) :
  do_send_famous_message s = false ->
  bit_is_set (peek UEINTX 2 0 s) RXOUTI = true ->
  peek UEBCHX 2 0 s = 0 -> peek UEBCLX 2 0 s = 1 ->
  peek UEDATX 2 0 s = 0x41 ->
  bit_is_set (peek UEINTX 1 0 s) TXINI = true ->
  let s1 := handle_incoming_bytes s in
  let s2 := handle_outgoing_bytes s1 in
  trace s2 =
    (trace s1 ++
     [Wr UEINTX 1 (cleared (peek UEINTX 1 1 s) TXINI);
      Wr UEDATX 1 0x80; Wr UEDATX 1 0x00; Wr UEDATX 1 0x41;
      Wr UEINTX 1 (cleared (peek UEINTX 1 2 s) FIFOCON)])%list /\
  ep_data 1 (trace s2) = (ep_data 1 (trace s) ++ [0x80; 0x00; 0x41])%list.
Proof.
  intros Hf H1 H2 H3 H4 H5 s1 s2.
  destruct (handle_incoming_bytes_one s 0x41 H1 H2 H3 H4)
    as (Ht & Hu & Hfm & Hch & Hfr & _).
  fold s1 in Ht, Hu, Hfm, Hch, Hfr.
  rewrite Hf in Hfm. change (0x41 =? code "a") with false in Hfm, Hch.
  cbn [orb negb] in Hfm, Hch.
  assert (Hr : bit_is_set (peek UEINTX 1 0 s1) TXINI = true).
  { rewrite Hfr by lia. exact H5. }
  destruct (handle_outgoing_bytes_echo s1 Hfm Hch Hr) as (Ht2 & _).
  fold s2 in Ht2. rewrite Hu in Ht2. rewrite !Hfr in Ht2 by lia.
  change (u8 0x41) with 0x41 in Ht2.
  split; [exact Ht2|].
  rewrite Ht2, Ht, !ep_data_app. cbn [ep_data Z.eqb Pos.eqb].
  now rewrite app_nil_r.
Qed.

(** The scenario of C6 from power-on: one byte 0x41 on the OUT endpoint
    (RXOUTI is bit 2), IN endpoint ready (TXINI is bit 0). *)
Lemma relay_echoes_A_witness :
  let s := boot (mkHeader 0 0 0 0 0) 0
             (script [(UEINTX, 2, [4]); (UEBCLX, 2, [1]); (UEDATX, 2, [0x41]);
                      (UEINTX, 1, [1])] 0) in
  ep_data 1 (trace (handle_outgoing_bytes (handle_incoming_bytes s))) =
  [0x80; 0x00; 0x41].
Proof.
  intros s.
  exact (proj2 (relay_echoes_A s eq_refl eq_refl eq_refl eq_refl eq_refl eq_refl)).
Defined.

(** C7: the host delivers the byte 0x61 ('a'); with the bulk IN endpoint
    ready the next outbound check writes 0x80, 0x00 and the fourteen bytes
    of "Hello world!\r\n" as one packet.  The banner is sent once: the
    second outbound check never writes it again.  What the second check
    does depends on the echo flag alone.  With no echo pending when the 'a'
    arrived it writes nothing, alone or after an inbound check that finds
    no new data.  With an echo pending, the 'a' has replaced the character
    to echo, and the second check sends the packet 0x80 0x00 0x61 if the
    endpoint is ready, and nothing otherwise. *)
Theorem relay_banner_once (s : state) :
  bit_is_set (peek UEINTX 2 0 s) RXOUTI = true ->
  peek UEBCHX 2 0 s = 0 -> peek UEBCLX 2 0 s = 1 ->
  peek UEDATX 2 0 s = 0x61 ->
  bit_is_set (peek UEINTX 1 0 s) TXINI = true ->
  let s1 := handle_incoming_bytes s in
  let s2 := handle_outgoing_bytes s1 in
  let s3 := handle_outgoing_bytes s2 in
  trace s2 =
    (trace s1 ++
     [Wr UEINTX 1 (cleared (peek UEINTX 1 1 s) TXINI)] ++
     map (Wr UEDATX 1) ([0x80; 0x00] ++ banner) ++
     [Wr UEINTX 1 (cleared (peek UEINTX 1 2 s) FIFOCON)])%list /\
  ep_data 1 (trace s2) = (ep_data 1 (trace s) ++ [0x80; 0x00] ++ banner)%list /\
  banner = [72; 101; 108; 108; 111; 32; 119; 111; 114; 108; 100; 33; 13; 10] /\
  do_send_famous_message s2 = false /\
  (do_send_char s = false ->
   trace s3 = trace s2 /\
   (bit_is_set (peek UEINTX 2 3 s) RXOUTI = false ->
    trace (relay_poll s2) = trace s2)) /\
  (do_send_char s = true ->
   trace s3 =
     (trace s2 ++
      if bit_is_set (peek UEINTX 1 3 s) TXINI
      then [Wr UEINTX 1 (cleared (peek UEINTX 1 4 s) TXINI);
            Wr UEDATX 1 0x80; Wr UEDATX 1 0x00; Wr UEDATX 1 0x61;
            Wr UEINTX 1 (cleared (peek UEINTX 1 5 s) FIFOCON)]
      else [])%list).
Proof.
  intros H1 H2 H3 H4 H5 s1 s2 s3.
  destruct (handle_incoming_bytes_one s 0x61 H1 H2 H3 H4)
    as (Ht & Hu & Hfm & Hch & Hfr & Hin).
  fold s1 in Ht, Hu, Hfm, Hch, Hfr, Hin.
  change (0x61 =? code "a") with true in Hfm, Hch.
  cbn [orb negb] in Hfm, Hch.
  assert (Hr : bit_is_set (peek UEINTX 1 0 s1) TXINI = true).
  { rewrite Hfr by lia. exact H5. }
  destruct (handle_outgoing_bytes_banner s1 Hfm Hr) as (Ht2 & Hf2 & Hc2 & Hfr2).
  destruct (handle_outgoing_bytes_banner_more s1 Hfm Hr) as (Hu2 & Hnx).
  fold s2 in Ht2, Hf2, Hc2, Hfr2, Hu2, Hnx. rewrite Hch in Hc2.
  rewrite !Hfr in Ht2 by lia.
  assert (Hnx' : forall k, peek UEINTX 1 k s2 = peek UEINTX 1 (3 + k) s).
  { intros k. rewrite Hnx. apply Hfr. lia. }
  split; [exact Ht2|]. split.
  { rewrite Ht2, Ht, !ep_data_app, ep_data_map_Wr.
    cbn [ep_data Z.eqb Pos.eqb]. now rewrite !app_nil_r. }
  split; [reflexivity|]. split; [exact Hf2|]. split.
  - intros Hc. rewrite Hc in Hc2. split.
    { subst s3. rewrite handle_outgoing_bytes_idle by assumption. now frame. }
    intros Hno.
    rewrite relay_poll_idle; [now frame|exact Hf2|exact Hc2|].
    rewrite Hfr2 by congruence. rewrite Hin. exact Hno.
  - intros Hc. rewrite Hc in Hc2.
    destruct (bit_is_set (peek UEINTX 1 3 s) TXINI) eqn:H3'.
    + assert (Hr2 : bit_is_set (peek UEINTX 1 0 s2) TXINI = true)
        by (rewrite Hnx'; exact H3').
      destruct (handle_outgoing_bytes_echo s2 Hf2 Hc2 Hr2) as (Ht3 & _).
      fold s3 in Ht3. rewrite Ht3, !Hnx', Hu2, Hu. reflexivity.
    + assert (Hr2 : bit_is_set (peek UEINTX 1 0 s2) TXINI = false)
        by (rewrite Hnx'; exact H3').
      destruct (handle_outgoing_bytes_not_ready s2 Hr2) as (Ht3 & _).
      fold s3 in Ht3. rewrite Ht3. now rewrite app_nil_r.
Qed.

(** The scenario of C7 from power-on, no echo pending. *)
Lemma relay_banner_once_witness :
  let s := boot (mkHeader 0 0 0 0 0) 0
             (script [(UEINTX, 2, [4]); (UEBCLX, 2, [1]); (UEDATX, 2, [0x61]);
                      (UEINTX, 1, [1; 1; 1; 1])] 0) in
  let s2 := handle_outgoing_bytes (handle_incoming_bytes s) in
  ep_data 1 (trace s2) = ([0x80; 0x00] ++ banner)%list /\
  trace (relay_poll s2) = trace s2.
Proof.
  intros s s2.
  pose proof (relay_banner_once s eq_refl eq_refl eq_refl eq_refl eq_refl)
    as (_ & Hd & _ & _ & Hp & _).
  exact (conj Hd (proj2 (Hp eq_refl) eq_refl)).
Defined.

(** A second outbound check that does send something.  From power-on the
    host delivers the packet "ba": the first pass sends the banner and
    leaves the echo pending.  Then the host delivers the byte 'a': the
    second pass sends the banner again, as the next packet, and the outbound
    check after it, with no new input, sends 0x80 0x00 0x61. *)
Lemma banner_followed_by_pending_echo :
  let s0 := boot (mkHeader 0 0 0 0 0) 0
              (script [(UEINTX, 2, [4; 4; 4; 4; 4; 4]); (UEBCLX, 2, [2; 1]);
                       (UEDATX, 2, [98; 97; 97]);
                       (UEINTX, 1, [1; 1; 1; 1; 1; 1; 1; 1; 1])] 0) in
  let s := relay_poll s0 in
  let s1 := handle_incoming_bytes s in
  let s2 := handle_outgoing_bytes s1 in
  let s3 := handle_outgoing_bytes s2 in
  do_send_char s = true /\
  usb_char s1 = 0x61 /\
  ep_data 1 (trace s2) = (ep_data 1 (trace s) ++ [0x80; 0x00] ++ banner)%list /\
  ep_data 1 (trace s3) = (ep_data 1 (trace s2) ++ [0x80; 0x00; 0x61])%list /\
  trace s3 <> trace s2.
Proof.
  cbv zeta. split; [vm_compute; reflexivity|]. split; [vm_compute; reflexivity|].
  split; [vm_compute; reflexivity|]. split; [vm_compute; reflexivity|].
  vm_compute. discriminate.
Qed.

(** C10: the outbound check runs with an item pending while the bulk IN
    endpoint is not ready to transmit.  It writes nothing and clears the
    flag of the item it would have sent (the banner first, else the echo),
    so one item fewer is pending.  The item gets no second attempt: as long
    as the host delivers nothing new, later passes of the relay never write
    the banner, and write at most the echo that was pending behind it; when
    a single item was pending they write nothing at all. *)
Theorem pending_item_dropped_when_not_ready (s : state) :
  do_send_famous_message s = true \/ do_send_char s = true ->
  bit_is_set (peek UEINTX 1 0 s) TXINI = false ->
  let s' := handle_outgoing_bytes s in
  trace s' = trace s /\
  do_send_famous_message s' = false /\
  do_send_char s' = do_send_famous_message s && do_send_char s /\
  S (pending_items s') = pending_items s /\
  ((forall k, bit_is_set (peek UEINTX 2 k s) RXOUTI = false) ->
   forall n,
     (pending_items s = 1%nat -> trace (relay_polls n s') = trace s') /\
     (ep_data 1 (trace (relay_polls n s')) = ep_data 1 (trace s) \/
      ep_data 1 (trace (relay_polls n s')) =
        (ep_data 1 (trace s) ++ [0x80; 0x00; u8 (usb_char s)])%list)).
Proof.
  intros Hp H s'.
  destruct (handle_outgoing_bytes_not_ready s H) as (Ht & Hf & Hc & Hu & Hfr).
  fold s' in Ht, Hf, Hc, Hu, Hfr.
  split; [exact Ht|]. split; [exact Hf|]. split; [exact Hc|]. split.
  { unfold pending_items. rewrite Hf, Hc.
    destruct Hp as [Hp|Hp]; rewrite Hp;
      [destruct (do_send_char s)|destruct (do_send_famous_message s)]; reflexivity. }
  intros Hno n.
  assert (Hno' : forall k, bit_is_set (peek UEINTX 2 k s') RXOUTI = false).
  { intros k. rewrite Hfr by congruence. apply Hno. }
  destruct (do_send_famous_message s && do_send_char s) eqn:Hboth.
  - apply andb_true_iff in Hboth. destruct Hboth as [Hbf Hbc].
    split; [unfold pending_items; rewrite Hbf, Hbc; discriminate|].
    destruct n as [|n]; [left; cbn [relay_polls]; now rewrite Ht|].
    cbn [relay_polls]. unfold relay_poll.
    rewrite handle_incoming_bytes_idle by apply Hno'.
    set (t := rd_next UEINTX (EP_select 2 s')).
    assert (Htf : do_send_famous_message t = false) by (subst t; now frame).
    assert (Htc : do_send_char t = true) by (subst t; now frame).
    assert (Htt : trace t = trace s) by (subst t; now frame).
    assert (Htu : usb_char t = usb_char s) by (subst t; now frame).
    assert (Htno : forall k, bit_is_set (peek UEINTX 2 k t) RXOUTI = false).
    { intros k. subst t. reads. apply Hno'. }
    destruct (bit_is_set (peek UEINTX 1 0 t) TXINI) eqn:Hr.
    + destruct (handle_outgoing_bytes_echo t Htf Htc Hr) as (Ht2 & Hf2 & Hc2 & Hfr2).
      assert (E : trace (relay_polls n (handle_outgoing_bytes t)) =
                  trace (handle_outgoing_bytes t)).
      { apply relay_polls_idle; [exact Hf2|exact Hc2|].
        intros k. rewrite Hfr2 by congruence. apply Htno. }
      right. rewrite E, Ht2, ep_data_app. cbn [ep_data Z.eqb Pos.eqb].
      now rewrite Htt, Htu.
    + destruct (handle_outgoing_bytes_not_ready t Hr) as (Ht2 & Hf2 & Hc2 & _ & Hfr2).
      assert (E : trace (relay_polls n (handle_outgoing_bytes t)) =
                  trace (handle_outgoing_bytes t)).
      { apply relay_polls_idle; [exact Hf2| |].
        - rewrite Hc2, Htf. reflexivity.
        - intros k. rewrite Hfr2 by congruence. apply Htno. }
      left. now rewrite E, Ht2, Htt.
  - assert (E : trace (relay_polls n s') = trace s').
    { apply relay_polls_idle; [exact Hf|exact Hc|exact Hno']. }
    split; [intros _; exact E|]. left. now rewrite E, Ht.
Qed.

(** The scenario of C10: a banner is pending, the IN endpoint is never
    ready during the first check and ready ever after, and the host sends
    nothing more; the banner never reaches the endpoint. *)
Lemma pending_item_dropped_witness :
  let s := set_do_send_famous_message true
             (boot (mkHeader 0 0 0 0 0) 0 (script [(UEINTX, 1, [0])] 1)) in
  let s' := handle_outgoing_bytes s in
  do_send_famous_message s' = false /\
  trace (relay_polls 5 s') = trace s' /\ trace s' = [].
Proof.
  intros s s'.
  pose proof (pending_item_dropped_when_not_ready s (or_introl eq_refl) eq_refl)
    as (Ht & Hf & _ & _ & Hn).
  split; [exact Hf|]. split; [|exact Ht].
  exact (proj1 (Hn (fun k => eq_refl) 5%nat) eq_refl).
Defined.
End Relay.
(** ** Transfers on the control endpoint *)

Lemma print_spec (str : string) : forall s : state,
  pvars (print str s) = pvars s /\ UENUM (print str s) = UENUM s /\
  sfr (print str s) = sfr s /\
  trace (print str s) = (trace s ++ map Uart (list_ascii_of_string str))%list.
Proof.
  induction str as [|c str IH]; intros s; cbn [print list_ascii_of_string map].
  - now rewrite app_nil_r.
  - destruct (IH (putchar c s)) as (A & B & C & D). rewrite A, B, C, D.
    rewrite trace_putchar, <- app_assoc. repeat split; reflexivity.
Qed.

#[local] Instance print_quiet str : Quiet (print str).
Proof. intros s. apply print_spec. Qed.
#[local] Instance print_ep str : KeepsEP (print str).
Proof. intros s. apply print_spec. Qed.
#[local] Instance print_sfr str : KeepsSfr (print str).
Proof. intros s. apply print_spec. Qed.

Lemma trace_print (str : string) (s : state) :
  trace (print str s) = (trace s ++ map Uart (list_ascii_of_string str))%list.
Proof. apply print_spec. Qed.

Lemma firstn_skipn_firstn {A : Type} (a b : nat) (l : list A) :
  (firstn a l ++ firstn b (skipn a l))%list = firstn (a + b) l.
Proof.
  revert l. induction a as [|a IH]; intros l; [reflexivity|].
  destruct l as [|x l]; cbn [firstn skipn app Nat.add].
  - now rewrite firstn_nil.
  - now rewrite IH.
Qed.

Lemma ctrl_write_chunk_spec (n : nat) : forall (addr : list Z) (s : state),
  (n <= List.length addr)%nat ->
  let r := ctrl_write_chunk n addr s in
  fst r = skipn n addr /\
  pvars (snd r) = pvars s /\ UENUM (snd r) = UENUM s /\ sfr (snd r) = sfr s /\
  trace (snd r) =
    (trace s ++ map (Wr UEDATX (UENUM s)) (map u8 (firstn n addr)))%list.
Proof.
  induction n as [|n IH]; intros addr s Hn; cbn [ctrl_write_chunk].
  - cbn [fst snd firstn skipn map]. now rewrite app_nil_r.
  - destruct addr as [|a addr]; cbn [List.length] in Hn; [lia|].
    cbn [tl pgm_read_byte hd firstn skipn map].
    destruct (IH addr (EP_write8 a s)) as (A & B & C & D & E); [lia|].
    cbv zeta in A, B, C, D, E |- *. rewrite A, B, C, D, E.
    unfold EP_write8. rewrite trace_wr. frame. rewrite <- app_assoc.
    repeat split; reflexivity.
Qed.


(** One round of the loop of ctrl_write_PM, case by case. *)
Lemma ctrl_write_PM_round (fuel : nat) (addr : list Z) (len : Z) (s : state) :
  len <> 0 ->
  let bsize := peek UEBCLX (UENUM s) 0 s in
  let epintreg := peek UEINTX (UENUM s) 0 s in
  let s2 := rd_next UEINTX (rd_next UEBCLX s) in
  let ntx := if EP0_SIZE - bsize >? len then len else EP0_SIZE - bsize in
  let chunk := ctrl_write_chunk (Z.to_nat ntx) addr s2 in
  ctrl_write_PM (S fuel) addr len s =
    if EP0_SIZE >=? bsize then
      if bit_is_set epintreg RXSTPI then Ret 1 s2
      else if bit_is_set epintreg RXOUTI then Ret 0 s2
      else if bit_is_clear epintreg TXINI then ctrl_write_PM fuel addr len s2
      else if ntx >? 0 then
        ctrl_write_PM fuel (fst chunk) (len - ntx) (clear_bit UEINTX TXINI (snd chunk))
      else Halted (print "oops! Ep" s2)
    else Halted (print "oops! EP" s2).
Proof.
  intros E. apply Z.eqb_neq in E. cbv zeta. cbn [ctrl_write_PM]. rewrite E.
  unfold rd. cbv beta iota zeta. frame.
  rewrite (peek_rd_next_other UEBCLX UEINTX) by congruence.
  unfold bind at 1, oops at 1.
  destruct (EP0_SIZE >=? _); [|reflexivity].
  destruct (bit_is_set _ RXSTPI); [reflexivity|].
  destruct (bit_is_set _ RXOUTI); [reflexivity|].
  destruct (bit_is_clear _ TXINI); [reflexivity|].
  unfold bind at 1, oops at 1.
  destruct (_ >? 0); [|reflexivity].
  unfold bind at 1, liftv at 1.
  destruct (ctrl_write_chunk _ addr _) as [addr' s3]. reflexivity.
Qed.






Lemma ep_ready_shift (s t : state) :
  UENUM t = UENUM s ->
  (forall k, exists j, peek UEINTX (UENUM s) k t = peek UEINTX (UENUM s) j s) ->
  (forall k, exists j, peek UEBCLX (UENUM s) k t = peek UEBCLX (UENUM s) j s) ->
  ep_ready s -> ep_ready t.
Proof.
  intros Hu Hi Hb Hr k. rewrite Hu.
  destruct (Hi k) as [j ->]. destruct (Hb k) as [j' ->].
  destruct (Hr j) as (A & B & C & _). destruct (Hr j') as (_ & _ & _ & D).
  auto.
Qed.


(** ** Get Descriptor *)

Section Descriptors.
Context {K : usb_h}.

Lemma map_u8_le16 (l : list Z) : map u8 (flat_map le16 l) = flat_map le16 l.
Proof.
  induction l as [|x l IH]; [reflexivity|].
  cbn [flat_map le16 app map]. now rewrite !u8_idem, IH.
Qed.

Lemma devdesc_bytes : map u8 devdesc = devdesc /\ List.length devdesc = 18%nat.
Proof.
  split; [|reflexivity]. unfold devdesc, le16. cbn [map app].
  rewrite !u8_idem. reflexivity.
Qed.

Lemma devconf_bytes : map u8 devconf = devconf /\ List.length devconf = 32%nat.
Proof.
  split; [|reflexivity]. unfold devconf, le16. cbn [map app].
  rewrite !u8_idem. reflexivity.
Qed.

Lemma iLang_bytes : map u8 iLang = iLang /\ pgm_read_byte iLang = 4 /\
                    List.length iLang = 6%nat.
Proof.
  split; [|split; reflexivity]. unfold iLang, wide. cbn [map app].
  rewrite map_u8_le16, !u8_idem. reflexivity.
Qed.

Lemma DESCSTR_bytes (chars : list Z) : map u8 (DESCSTR chars) = DESCSTR chars.
Proof.
  unfold DESCSTR, wide. cbn [map app]. now rewrite map_u8_le16, !u8_idem.
Qed.

Lemma iProd_bytes : pgm_read_byte iProd = 28 /\ List.length iProd = 30%nat.
Proof. split; reflexivity. Qed.

Lemma iSerial_bytes : pgm_read_byte iSerial = 22 /\ List.length iSerial = 24%nat.
Proof. split; reflexivity. Qed.

(** Every descriptor the switch of USB_get_desc selects lies within its
    flash object, and its length fits the 8-bit [len]. *)
Lemma USB_get_desc_select_ok (h : usb_header) (addr : list Z) (len : Z) :
  USB_get_desc_select h = Some (addr, len) ->
  0 <= len <= Z.of_nat (List.length addr) /\ len < 256 /\ map u8 addr = addr.
Proof.
  unfold USB_get_desc_select.
  destruct (case_of _ [usb_desc_device]).
  { destruct (negb _); [discriminate|]. intros H. injection H as <- <-.
    destruct devdesc_bytes as [A B]. rewrite A, B. cbv. intuition congruence. }
  destruct (case_of _ [usb_desc_config]).
  { destruct (negb _); [discriminate|]. intros H. injection H as <- <-.
    destruct devconf_bytes as [A B]. rewrite A, B. cbv. intuition congruence. }
  destruct (case_of _ [usb_desc_string]); [|discriminate].
  destruct (_ =? 0).
  { intros H. cbv beta iota in H. injection H as <- <-.
    destruct iLang_bytes as (A & B & C).
    rewrite A, ?B, C. cbv. intuition congruence. }
  destruct (_ =? 1).
  { intros H. cbv beta iota in H. injection H as <- <-.
    destruct iProd_bytes as (B & C). rewrite ?B, C.
    unfold iProd. rewrite DESCSTR_bytes. cbv. intuition congruence. }
  destruct (_ =? 2); [|discriminate].
  intros H. cbv beta iota in H. injection H as <- <-.
  destruct iSerial_bytes as (B & C). rewrite ?B, C.
  unfold iSerial. rewrite DESCSTR_bytes. cbv. intuition congruence.
Qed.

Lemma case_of_one (x l : Z) : case_of x [l] = true -> x = l.
Proof.
  unfold case_of. cbn [existsb]. rewrite orb_false_r. apply Z.eqb_eq.
Qed.

(** What the switch selects is one of the five descriptors, with its own
    length. *)
Lemma USB_get_desc_select_requested (h : usb_header) (addr : list Z) (len : Z) :
  USB_get_desc_select h = Some (addr, len) -> descriptor_requested h addr len.
Proof.
  unfold USB_get_desc_select, descriptor_requested.
  destruct (case_of _ [usb_desc_device]) eqn:Td.
  { apply case_of_one in Td. destruct (_ =? 0) eqn:I; [|discriminate].
    apply Z.eqb_eq in I. intros H. injection H as <- <-. left. auto. }
  destruct (case_of _ [usb_desc_config]) eqn:Tc.
  { apply case_of_one in Tc. destruct (_ =? 0) eqn:I; [|discriminate].
    apply Z.eqb_eq in I. intros H. injection H as <- <-. right. left. auto. }
  destruct (case_of _ [usb_desc_string]) eqn:Ts; [|discriminate].
  apply case_of_one in Ts. right. right. split; [exact Ts|].
  destruct (_ =? 0) eqn:I0.
  { apply Z.eqb_eq in I0. cbv beta iota in H. injection H as <- <-. left. auto. }
  destruct (_ =? 1) eqn:I1.
  { apply Z.eqb_eq in I1. cbv beta iota in H. injection H as <- <-.
    right. left. auto. }
  destruct (_ =? 2) eqn:I2; [|discriminate].
  apply Z.eqb_eq in I2. cbv beta iota in H. injection H as <- <-.
  right. right. auto.
Qed.




End Descriptors.




(** ** The control dispatchers *)

Lemma putchars_spec (l : list ascii) : forall s : state,
  pvars (putchars l s) = pvars s /\ UENUM (putchars l s) = UENUM s /\
  sfr (putchars l s) = sfr s /\
  trace (putchars l s) = (trace s ++ map Uart l)%list.
Proof.
  induction l as [|c l IH]; intros s; cbn [putchars map].
  - now rewrite app_nil_r.
  - destruct (IH (putchar c s)) as (A & B & C & D). rewrite A, B, C, D.
    rewrite trace_putchar, <- app_assoc. repeat split; reflexivity.
Qed.

#[local] Instance put_hex_quiet i : Quiet (put_hex i).
Proof. intros s. apply putchars_spec. Qed.
#[local] Instance put_hex_ep i : KeepsEP (put_hex i).
Proof. intros s. apply putchars_spec. Qed.
#[local] Instance put_hex_sfr i : KeepsSfr (put_hex i).
Proof. intros s. apply putchars_spec. Qed.

Lemma trace_put_hex (i : Z) (s : state) :
  trace (put_hex i s) = (trace s ++ map Uart (hex4 i))%list.
Proof. apply putchars_spec. Qed.

#[local] Instance dump_quiet : Quiet dump_unsupported_request.
Proof. intros s. unfold dump_unsupported_request. now frame. Qed.
#[local] Instance dump_ep : KeepsEP dump_unsupported_request.
Proof. intros s. unfold dump_unsupported_request. now frame. Qed.
#[local] Instance dump_sfr : KeepsSfr dump_unsupported_request.
Proof.
  intros s. unfold dump_unsupported_request. cbv zeta.
  now rewrite !keeps_sfr by tc.
Qed.

Lemma trace_dump_unsupported_request (s : state) :
  trace (dump_unsupported_request s) = (trace s ++ map Uart (dump_text (head s)))%list.
Proof.
  unfold dump_unsupported_request, dump_text. cbv zeta.
  rewrite !trace_put_hex, trace_putchar. frame.
  cbn [map]. rewrite !map_app, <- !app_assoc. reflexivity.
Qed.

Lemma ep_data_stall_events (ep : Z) (s : state) : ep_data ep (stall_events s) = [].
Proof. reflexivity. Qed.

(** The stall request does raise STALLRQ, whatever UECONX held. *)
Lemma raised_bit (v bit : Z) :
  0 <= bit < 8 -> bit_is_set (raised v bit) bit = true.
Proof.
  intros Hb. unfold bit_is_set, raised, u8, _BV.
  apply negb_true_iff, Z.eqb_neq. intros H.
  assert (T : Z.testbit (Z.land ((Z.lor v (Z.shiftl 1 bit)) mod 256) (Z.shiftl 1 bit)) bit = true).
  { rewrite Z.land_spec. change 256 with (2 ^ 8).
    rewrite Z.mod_pow2_bits_low by lia.
    rewrite Z.lor_spec, Z.shiftl_spec by lia.
    rewrite Z.sub_diag. cbn [Z.testbit]. now rewrite orb_true_r. }
  rewrite H in T. now rewrite Z.bits_0 in T.
Qed.

(** The failing branch of control_complete. *)
Lemma control_complete_fail {K : usb_h} (fuel : nat) (s : state) :
  control_complete fuel 0 s = Ret tt (putchar "F" (set_bit UECONX STALLRQ s)).
Proof. reflexivity. Qed.

Lemma trace_stall (s : state) :
  trace (putchar "F" (set_bit UECONX STALLRQ s)) = (trace s ++ stall_events s)%list.
Proof.
  rewrite trace_putchar, trace_set_bit, <- app_assoc. reflexivity.
Qed.

Section Dispatch.
Context {K : usb_h}.

Lemma case_of_false (x : Z) (l : list Z) : ~ In x l -> case_of x l = false.
Proof.
  intros H. unfold case_of. apply not_true_is_false. intros E.
  apply existsb_exists in E. destruct E as (y & Hy & E).
  apply Z.eqb_eq in E. subst y. contradiction.
Qed.

Lemma case_of_true (x : Z) (l : list Z) : In x l -> case_of x l = true.
Proof.
  intros H. unfold case_of. apply existsb_exists. exists x.
  split; [exact H|apply Z.eqb_refl].
Qed.

(** A request type without the vendor bits is not the vendor type. *)
Lemma not_vendor_type (t d : Z) :
  USB_REQ_TYPE_VENDOR <> 0 ->
  Z.land t USB_REQ_TYPE_VENDOR = 0 ->
  (t =? Z.lor d USB_REQ_TYPE_VENDOR) = false.
Proof.
  intros Hv Ht. apply Z.eqb_neq. intros E. subst t.
  rewrite Z.land_comm, Z.lor_comm, Z.land_lor_distr_r in Ht.
  rewrite Z.land_diag in Ht. apply Z.lor_eq_0_iff in Ht. tauto.
Qed.

(** The first switch of either dispatcher on an opcode that is not
    implemented: nothing happens but, for an unknown opcode, the dump. *)
Lemma control_in_standard_unimplemented (fuel : nat) (s : state) :
  ~ In (bReq (head s)) implemented_requests ->
  Z.land (bmReqType (head s)) USB_REQ_TYPE_VENDOR = 0 ->
  exists s1, control_in_standard fuel s = Ret 0 s1 /\
             (s1 = s \/ s1 = dump_unsupported_request s).
Proof.
  intros Hni Hv. unfold implemented_requests in Hni. cbn [In] in Hni.
  unfold control_in_standard. cbv zeta.
  rewrite (case_of_false _ [usb_req_set_feature; usb_req_clear_feature])
    by (cbn [In]; tauto).
  rewrite (case_of_false _ [usb_req_get_status]) by (cbn [In]; tauto).
  rewrite (case_of_false _ [usb_req_set_address]) by (cbn [In]; tauto).
  rewrite (case_of_false _ [usb_req_get_desc]) by (cbn [In]; tauto).
  rewrite (case_of_false _ [usb_req_set_config]) by (cbn [In]; tauto).
  rewrite (case_of_false _ [usb_req_get_config]) by (cbn [In]; tauto).
  repeat (destruct (case_of _ _); [exists s; auto|]).
  rewrite Hv. cbn [Z.eqb]. eauto.
Qed.

Lemma control_out_standard_unimplemented (fuel : nat) (s : state) :
  ~ In (bReq (head s)) implemented_requests ->
  Z.land (bmReqType (head s)) USB_REQ_TYPE_VENDOR = 0 ->
  exists s1, control_out_standard fuel s = Ret (Some 0) s1 /\
             (s1 = s \/ s1 = dump_unsupported_request s).
Proof.
  intros Hni Hv. unfold implemented_requests in Hni. cbn [In] in Hni.
  unfold control_out_standard. cbv zeta.
  rewrite (case_of_false _ [usb_req_set_feature; usb_req_clear_feature])
    by (cbn [In]; tauto).
  rewrite (case_of_false _ [usb_req_get_status]) by (cbn [In]; tauto).
  rewrite (case_of_false _ [usb_req_set_address]) by (cbn [In]; tauto).
  rewrite (case_of_false _ [usb_req_get_desc]) by (cbn [In]; tauto).
  rewrite (case_of_false _ [usb_req_set_config]) by (cbn [In]; tauto).
  rewrite (case_of_false _ [usb_req_get_config]) by (cbn [In]; tauto).
  repeat (destruct (case_of _ _); [exists s; auto|]).
  rewrite Hv. cbn [Z.eqb]. eauto.
Qed.

(** C8: a standard request (no vendor bits in bmRequestType) whose opcode
    neither dispatcher implements, such as Set Interface, Get Interface, Set
    Descriptor or Synch Frame, in either direction: the dispatcher returns
    having requested a stall on the control endpoint; it writes no data byte
    and no flag register, only the diagnostic dump (for an opcode outside
    the switch) and the letter F. *)
Theorem unimplemented_standard_request_stalls (fuel : nat) (s : state) :
  USB_REQ_TYPE_VENDOR <> 0 ->
  Z.land (bmReqType (head s)) USB_REQ_TYPE_VENDOR = 0 ->
  ~ In (bReq (head s)) implemented_requests ->
  exists (s' : state) (diag : list ascii),
    control_dispatch fuel s = Ret tt s' /\
    trace s' = (trace s ++ map Uart diag ++ stall_events s)%list /\
    (diag = [] \/ diag = dump_text (head s)) /\
    (forall ep, ep_data ep (trace s') = ep_data ep (trace s)) /\
    bit_is_set (raised (peek UECONX (UENUM s) 0 s) STALLRQ) STALLRQ = true.
Proof.
  intros Hv Ht Hni.
  assert (Hend : forall s1, s1 = s \/ s1 = dump_unsupported_request s ->
    exists diag,
      trace (putchar "F" (set_bit UECONX STALLRQ s1)) =
        (trace s ++ map Uart diag ++ stall_events s)%list /\
      (diag = [] \/ diag = dump_text (head s))).
  { intros s1 [->| ->].
    - exists []. rewrite trace_stall. auto.
    - exists (dump_text (head s)). rewrite trace_stall.
      rewrite trace_dump_unsupported_request, <- app_assoc.
      unfold stall_events. frame. auto. }
  assert (Hfin : forall s1 diag,
    trace (putchar "F" (set_bit UECONX STALLRQ s1)) =
      (trace s ++ map Uart diag ++ stall_events s)%list ->
    forall ep, ep_data ep (trace (putchar "F" (set_bit UECONX STALLRQ s1))) =
               ep_data ep (trace s)).
  { intros s1 diag E ep.
    now rewrite E, !ep_data_app, ep_data_map_Uart, ep_data_stall_events, !app_nil_r. }
  unfold control_dispatch.
  destruct (negb (_ =? 0)).
  - destruct (control_in_standard_unimplemented fuel s Hni Ht) as (s1 & E1 & Hs1).
    assert (Hh : head s1 = head s) by (destruct Hs1 as [->| ->]; now frame).
    destruct (Hend s1 Hs1) as (diag & Etr & Hdiag).
    exists (putchar "F" (set_bit UECONX STALLRQ s1)), diag.
    split.
    { unfold usb_control_in, bind at 1. rewrite E1.
      unfold bind at 1, control_in_vendor. cbv zeta. rewrite Hh.
      rewrite not_vendor_type by assumption. apply control_complete_fail. }
    split; [exact Etr|]. split; [exact Hdiag|]. split; [now apply (Hfin s1 diag)|].
    apply raised_bit. unfold STALLRQ. lia.
  - destruct (control_out_standard_unimplemented fuel s Hni Ht) as (s1 & E1 & Hs1).
    assert (Hh : head s1 = head s) by (destruct Hs1 as [->| ->]; now frame).
    destruct (Hend s1 Hs1) as (diag & Etr & Hdiag).
    exists (putchar "F" (set_bit UECONX STALLRQ s1)), diag.
    split.
    { unfold usb_control_out, bind at 1. rewrite E1.
      unfold bind at 1, control_out_vendor. cbv zeta. rewrite Hh.
      rewrite not_vendor_type by assumption. apply control_complete_fail. }
    split; [exact Etr|]. split; [exact Hdiag|]. split; [now apply (Hfin s1 diag)|].
    apply raised_bit. unfold STALLRQ. lia.
Qed.
End Dispatch.

(** Set Interface (code 11) to the device, and Get Interface (code 10). *)
Lemma unimplemented_standard_request_stalls_witness :
  let s := boot (mkHeader 0x01 11 0 0 0) 0 (script [] 0) in
  exists s', control_dispatch (K := usb11) 4 s = Ret tt s' /\
             trace s' = [Wr UECONX 0 32; Uart "F"].
Proof.
  intros s.
  destruct (unimplemented_standard_request_stalls (K := usb11) 4 s)
    as (s' & diag & E & _).
  - discriminate.
  - reflexivity.
  - cbn. intuition discriminate.
  - exists s'. split; [exact E|].
    vm_compute in E. injection E as <-. reflexivity.
Defined.

Section VendorOut.
Context {K : usb_h}.

(** The first switch of usb_control_out on a request of the vendor OUT
    type: unless the opcode is Set or Clear Feature it leaves [ok] at 0 and
    does nothing. *)
Lemma control_out_standard_vendor (fuel : nat) (s : state) :
  let t := Z.lor USB_REQ_TYPE_OUT USB_REQ_TYPE_VENDOR in
  bmReqType (head s) = t ->
  t <> USB_REQ_TYPE_OUT -> t <> 0 ->
  ~ In (bReq (head s)) [usb_req_set_feature; usb_req_clear_feature] ->
  control_out_standard fuel s = Ret (Some 0) s.
Proof.
  intros t Ht Hout H0 Hnf.
  assert (Hv : USB_REQ_TYPE_VENDOR <> 0).
  { intros E. apply Hout. subst t. rewrite E. apply Z.lor_0_r. }
  assert (Hl : (Z.land (bmReqType (head s)) USB_REQ_TYPE_VENDOR =? 0) = false).
  { apply Z.eqb_neq. rewrite Ht. subst t.
    rewrite Z.land_comm, Z.lor_comm, Z.land_lor_distr_r, Z.land_diag.
    intros E. apply Z.lor_eq_0_iff in E. tauto. }
  unfold control_out_standard. cbv zeta.
  rewrite (case_of_false _ [usb_req_set_feature; usb_req_clear_feature]) by exact Hnf.
  rewrite Ht. fold t.
  rewrite (proj2 (Z.eqb_neq t USB_REQ_TYPE_OUT) Hout).
  rewrite (proj2 (Z.eqb_neq t 0) H0).
  rewrite <- Ht, Hl.
  repeat (destruct (case_of _ _); [reflexivity|]). reflexivity.
Qed.

(** C2: a control-OUT request of the vendor type whose opcode is none of
    the six recognised FTDI commands (and not the code of Set or Clear
    Feature, which the first switch accepts for any request type): the
    dispatcher prints the diagnostic dump and then requests a stall on the
    control endpoint.  It does not acknowledge the transfer: no write
    clears TXINI, so no zero-length status is sent. *)
Theorem unknown_vendor_out_request_stalls (fuel : nat) (s : state) :
  let t := Z.lor USB_REQ_TYPE_OUT USB_REQ_TYPE_VENDOR in
  bmReqType (head s) = t ->
  t <> USB_REQ_TYPE_OUT -> t <> 0 ->
  ~ In (bReq (head s)) ftdi_out_commands ->
  ~ In (bReq (head s)) [usb_req_set_feature; usb_req_clear_feature] ->
  exists s' : state,
    usb_control_out fuel s = Ret tt s' /\
    trace s' = (trace s ++ map Uart (dump_text (head s)) ++ stall_events s)%list /\
    bit_is_set (raised (peek UECONX (UENUM s) 0 s) STALLRQ) STALLRQ = true /\
    existsb (zero_length_status (UENUM s))
            (map Uart (dump_text (head s)) ++ stall_events s) = false.
Proof.
  intros t Ht Hout H0 Hnc Hnf.
  exists (putchar "F" (set_bit UECONX STALLRQ (dump_unsupported_request s))).
  split; [|split; [|split]].
  - unfold usb_control_out, bind at 1.
    rewrite (control_out_standard_vendor fuel s Ht Hout H0 Hnf).
    unfold bind at 1, control_out_vendor. cbv zeta.
    rewrite Ht. fold t. rewrite Z.eqb_refl.
    unfold ftdi_out_commands in Hnc. cbn [In] in Hnc.
    rewrite (case_of_false _ [FTDI_SIO_RESET]) by (cbn [In]; tauto).
    rewrite (case_of_false _ [FTDI_SIO_MODEM_CTRL; _; _; _; _]) by (cbn [In]; tauto).
    apply control_complete_fail.
  - rewrite trace_stall, trace_dump_unsupported_request, <- app_assoc.
    unfold stall_events. now frame.
  - apply raised_bit. unfold STALLRQ. lia.
  - rewrite existsb_app. apply orb_false_iff. split; [|reflexivity].
    induction (dump_text (head s)) as [|c l IH]; [reflexivity|exact IH].
Qed.
End VendorOut.

(** The vendor OUT request with the unknown opcode 0x55 is stalled, not
    acknowledged: the trace is the dump, the stall request (STALLRQ is bit
    5) and the letter F, with no write to the flag register UEINTX. *)
Lemma unknown_vendor_out_not_acknowledged :
  let s := boot (mkHeader 0x40 0x55 0 0 0) 0 (script [] 1) in
  ~ In (bReq (head s)) (ftdi_out_commands (K := usb11)) /\
  exists s',
    usb_control_out (K := usb11) 3 s = Ret tt s' /\
    trace s' =
      (map Uart (list_ascii_of_string "?0040005500000000") ++
       [Wr UECONX 0 33; Uart "F"])%list /\
    existsb (zero_length_status 0) (trace s') = false.
Proof.
  cbv zeta. split.
  - cbn. intuition discriminate.
  - eexists. split; [reflexivity|]. split; reflexivity.
Qed.

Lemma unknown_vendor_out_request_stalls_witness :
  let s := boot (mkHeader 0x40 0x55 0 0 0) 0 (script [] 1) in
  exists s',
    usb_control_out (K := usb11) 3 s = Ret tt s' /\
    trace s' = (map Uart (dump_text (head s)) ++ stall_events s)%list.
Proof.
  intros s.
  destruct (unknown_vendor_out_request_stalls (K := usb11) 3 s eq_refl)
    as (s' & E & Etr & _).
  - discriminate.
  - discriminate.
  - cbn. intuition discriminate.
  - cbn. intuition discriminate.
  - exists s'. split; [exact E|exact Etr].
Defined.

(** ** Polling loops and the status stage *)

(** A polling loop reads one register of the selected endpoint and nothing
    else; it returns as soon as a read shows the bit. *)
Lemma loop_until_bit_is_set_spec (fuel : nat) (r : reg) (bit : Z) : forall s : state,
  let o := loop_until_bit_is_set fuel r bit s in
  trace (final o) = trace s /\ pvars (final o) = pvars s /\
  UENUM (final o) = UENUM s /\
  (forall r' ep' k, (r', ep') <> (r, UENUM s) ->
                    peek r' ep' k (final o) = peek r' ep' k s) /\
  (forall k, (k < fuel)%nat -> bit_is_set (peek r (UENUM s) k s) bit = true ->
             exists s', o = Ret tt s').
Proof.
  induction fuel as [|fuel IH]; intros s; cbn [loop_until_bit_is_set].
  - cbn [final]. repeat split; try reflexivity. intros k Hk. lia.
  - unfold rd. cbv beta iota zeta. rewrite bit_is_clear_negb.
    destruct (bit_is_set (peek r (UENUM s) 0 s) bit) eqn:Hb; cbn [negb].
    + cbn [final]. frame. repeat split; try reflexivity.
      * intros r' ep' k Hne. now apply peek_rd_next_other.
      * intros k _ _. eauto.
    + destruct (IH (rd_next r s)) as (A & B & C & D & E).
      cbv zeta in A, B, C, D, E. rewrite A, B, C. frame.
      repeat split; try reflexivity.
      * intros r' ep' k Hne. rewrite D by (frame; exact Hne).
        now apply peek_rd_next_other.
      * intros k Hk Hbit. destruct k as [|k]; [congruence|].
        apply (E k); [lia|]. frame. now rewrite peek_rd_next_same.
Qed.

Lemma wait_status_spec (fuel : nat) : forall s : state,
  let o := wait_status fuel s in
  trace (final o) = trace s /\ pvars (final o) = pvars s /\
  UENUM (final o) = UENUM s.
Proof.
  induction fuel as [|fuel IH]; intros s; cbn [wait_status].
  - cbn [final]. auto.
  - unfold rd. cbv beta iota zeta.
    destruct (_ =? 0).
    + destruct (IH (rd_next UEINTX s)) as (A & B & C).
      cbv zeta in A, B, C. rewrite A, B, C. now frame.
    + cbn [final]. now frame.
Qed.

Section Complete.
Context {K : usb_h}.

(** The closing branch of a dispatcher writes flag and control registers
    and letters, never a data byte. *)
Lemma control_complete_no_data (fuel : nat) (ok : Z) (s : state) (ep : Z) :
  ep_data ep (trace (final (control_complete fuel ok s))) = ep_data ep (trace s).
Proof.
  unfold control_complete.
  destruct (negb (ok =? 0)).
  - destruct (negb (Z.land _ ReqType_DirD2H =? 0)).
    + unfold bind at 1 2.
      destruct (wait_status_spec fuel s) as (A & _ & _). cbv zeta in A.
      destruct (wait_status fuel s) as [sts s1|s1|s1]; cbn [final] in A |- *;
        try now rewrite A.
      destruct (_ =? 0); unfold bind, lift; cbn [final];
        rewrite !trace_putchar, ?trace_set_bit, ?trace_clear_bit;
        frame; rewrite ?trace_clear_bit, !ep_data_app, A; cbn [ep_data];
        now rewrite !app_nil_r.
    + unfold bind, lift. cbn [final].
      rewrite trace_putchar, trace_clear_bit, !ep_data_app. cbn [ep_data].
      now rewrite !app_nil_r.
  - unfold bind, lift. cbn [final].
    rewrite trace_putchar, trace_set_bit, !ep_data_app. cbn [ep_data].
    now rewrite !app_nil_r.
Qed.

(** What the closing branch adds to the trace. *)
Lemma control_complete_extends (fuel : nat) (ok : Z) (s : state) :
  exists post : list event,
    trace (final (control_complete fuel ok s)) = (trace s ++ post)%list /\
    forall ep, ep_data ep post = [].
Proof.
  assert (X : exists post : list event,
            trace (final (control_complete fuel ok s)) = (trace s ++ post)%list).
  { unfold control_complete.
    destruct (negb (ok =? 0)).
    - destruct (negb (Z.land _ ReqType_DirD2H =? 0)).
      + unfold bind at 1 2.
        destruct (wait_status_spec fuel s) as (A & _ & _). cbv zeta in A.
        destruct (wait_status fuel s) as [sts s1|s1|s1]; cbn [final] in A |- *;
          try (exists []; now rewrite A, app_nil_r).
        destruct (_ =? 0); unfold bind, lift; cbn [final];
          rewrite !trace_putchar, ?trace_set_bit, ?trace_clear_bit;
          frame; rewrite ?trace_clear_bit, A, <- ?app_assoc;
          eexists; reflexivity.
      + unfold bind, lift. cbn [final].
        rewrite trace_putchar, trace_clear_bit, <- ?app_assoc.
        eexists; reflexivity.
    - unfold bind, lift. cbn [final].
      rewrite trace_putchar, trace_set_bit, <- ?app_assoc.
      eexists; reflexivity. }
  destruct X as (post & X). exists post. split; [exact X|].
  intros ep. pose proof (control_complete_no_data fuel ok s ep) as N.
  rewrite X, ep_data_app in N.
  rewrite <- (app_nil_r (ep_data ep (trace s))) in N at 2.
  now apply app_inv_head in N.
Qed.

(** The first switch of usb_control_in on a request of the vendor IN type
    writes no data and reads no register: at most it prints the dump. *)
Lemma control_in_standard_vendor (fuel : nat) (s : state) :
  let t := Z.lor USB_REQ_TYPE_IN USB_REQ_TYPE_VENDOR in
  bmReqType (head s) = t ->
  ~ In t [USB_REQ_TYPE_IN;
          Z.lor USB_REQ_TYPE_IN USB_REQ_TYPE_INTERFACE;
          Z.lor USB_REQ_TYPE_IN USB_REQ_TYPE_ENDPOINT; 0x80; 0] ->
  exists ok s1, control_in_standard fuel s = Ret ok s1 /\
                (s1 = s \/ s1 = dump_unsupported_request s).
Proof.
  intros t Ht Hn. cbn [In] in Hn.
  unfold control_in_standard. cbv zeta. rewrite Ht. fold t.
  rewrite (case_of_false t [USB_REQ_TYPE_IN; _; _]) by (cbn [In]; intuition congruence).
  rewrite (proj2 (Z.eqb_neq t 0x80)) by intuition congruence.
  rewrite (proj2 (Z.eqb_neq t 0)) by intuition congruence.
  rewrite (proj2 (Z.eqb_neq t USB_REQ_TYPE_IN)) by intuition congruence.
  repeat (destruct (case_of _ _); [eauto|]).
  destruct (_ =? 0); eauto.
Qed.
(** With a vendor bit that is not zero the first switch prints nothing on
    such a request. *)
Lemma control_in_standard_vendor_silent (fuel : nat) (s : state) :
  let t := Z.lor USB_REQ_TYPE_IN USB_REQ_TYPE_VENDOR in
  bmReqType (head s) = t ->
  ~ In t [USB_REQ_TYPE_IN;
          Z.lor USB_REQ_TYPE_IN USB_REQ_TYPE_INTERFACE;
          Z.lor USB_REQ_TYPE_IN USB_REQ_TYPE_ENDPOINT; 0x80; 0] ->
  USB_REQ_TYPE_VENDOR <> 0 ->
  exists ok, control_in_standard fuel s = Ret ok s.
Proof.
  intros t Ht Hn Hv. cbn [In] in Hn.
  assert (Hl : (Z.land t USB_REQ_TYPE_VENDOR =? 0) = false).
  { apply Z.eqb_neq. subst t.
    rewrite Z.land_comm, Z.lor_comm, Z.land_lor_distr_r, Z.land_diag.
    intros E. apply Z.lor_eq_0_iff in E. tauto. }
  unfold control_in_standard. cbv zeta. rewrite Ht. fold t.
  rewrite (case_of_false t [USB_REQ_TYPE_IN; _; _]) by (cbn [In]; intuition congruence).
  rewrite (proj2 (Z.eqb_neq t 0x80)) by intuition congruence.
  rewrite (proj2 (Z.eqb_neq t 0)) by intuition congruence.
  rewrite (proj2 (Z.eqb_neq t USB_REQ_TYPE_IN)) by intuition congruence.
  rewrite Hl.
  repeat (destruct (case_of _ _); [eauto|]). eauto.
Qed.

(** The trace of a whole run of usb_control_in, from what its first two
    blocks did: the closing branch adds no data. *)
Lemma usb_control_in_trace (fuel : nat) (s s1 s2 : state) (ok0 ok : Z) :
  control_in_standard fuel s = Ret ok0 s1 ->
  control_in_vendor fuel ok0 s1 = Ret ok s2 ->
  exists post : list event,
    trace (final (usb_control_in fuel s)) = (trace s2 ++ post)%list /\
    forall ep, ep_data ep post = [].
Proof.
  intros E1 E2. unfold usb_control_in, bind at 1. rewrite E1.
  unfold bind at 1. rewrite E2. apply control_complete_extends.
Qed.
End Complete.

Section VendorIn.
Context {K : usb_h}.

(** Wait for the endpoint, write one byte, send the packet. *)
Lemma answer_one_byte (fuel : nat) (a : Z) (s : state) (k : nat) :
  (k < fuel)%nat -> bit_is_set (peek UEINTX (UENUM s) k s) TXINI = true ->
  exists s',
    (loop_until_bit_is_set fuel UEINTX TXINI ;;
     lift (EP_write8 a) ;;
     lift (clear_bit UEINTX TXINI) ;;
     ret 1) s = Ret 1 s' /\
    pvars s' = pvars s /\ UENUM s' = UENUM s /\
    ep_data (UENUM s) (trace s') = (ep_data (UENUM s) (trace s) ++ [u8 a])%list.
Proof.
  intros Hk Hb.
  destruct (loop_until_bit_is_set_spec fuel UEINTX TXINI s) as (A & B & C & _ & E).
  cbv zeta in A, B, C, E. destruct (E k Hk Hb) as [s1 Hs1].
  rewrite Hs1 in A, B, C. cbn [final] in A, B, C.
  exists (clear_bit UEINTX TXINI (EP_write8 a s1)).
  split; [unfold bind at 1; rewrite Hs1; reflexivity|].
  unfold EP_write8. frame. split; [exact B|]. split; [exact C|].
  rewrite trace_clear_bit, trace_wr, !ep_data_app, A, C. cbn [ep_data].
  now rewrite Z.eqb_refl, app_nil_r.
Qed.

(** Wait for the endpoint, write two bytes, send the packet. *)
Lemma answer_two_bytes (fuel : nat) (a b : Z) (s : state) (k : nat) :
  (k < fuel)%nat -> bit_is_set (peek UEINTX (UENUM s) k s) TXINI = true ->
  exists s',
    (loop_until_bit_is_set fuel UEINTX TXINI ;;
     lift (EP_write8 a) ;;
     lift (EP_write8 b) ;;
     lift (clear_bit UEINTX TXINI) ;;
     ret 1) s = Ret 1 s' /\
    pvars s' = pvars s /\ UENUM s' = UENUM s /\
    ep_data (UENUM s) (trace s') =
      (ep_data (UENUM s) (trace s) ++ [u8 a; u8 b])%list.
Proof.
  intros Hk Hb.
  destruct (loop_until_bit_is_set_spec fuel UEINTX TXINI s) as (A & B & C & _ & E).
  cbv zeta in A, B, C, E. destruct (E k Hk Hb) as [s1 Hs1].
  rewrite Hs1 in A, B, C. cbn [final] in A, B, C.
  exists (clear_bit UEINTX TXINI (EP_write8 b (EP_write8 a s1))).
  split; [unfold bind at 1; rewrite Hs1; reflexivity|].
  unfold EP_write8. frame. split; [exact B|]. split; [exact C|].
  rewrite trace_clear_bit, !trace_wr. frame. rewrite !ep_data_app, A, C.
  cbn [ep_data]. now rewrite Z.eqb_refl, app_nil_r, <- app_assoc.
Qed.

(** The same two answers with all they write: the data, then the flag
    register with TXINI cleared, which sends the packet. *)
Lemma answer_one_byte_sent (fuel : nat) (a : Z) (s : state) (k : nat) :
  (k < fuel)%nat -> bit_is_set (peek UEINTX (UENUM s) k s) TXINI = true ->
  exists s' v,
    (loop_until_bit_is_set fuel UEINTX TXINI ;;
     lift (EP_write8 a) ;;
     lift (clear_bit UEINTX TXINI) ;;
     ret 1) s = Ret 1 s' /\
    trace s' = (trace s ++ [Wr UEDATX (UENUM s) (u8 a); Wr UEINTX (UENUM s) v])%list /\
    bit_is_set v TXINI = false.
Proof.
  intros Hk Hb.
  destruct (loop_until_bit_is_set_spec fuel UEINTX TXINI s) as (A & B & C & _ & E).
  cbv zeta in A, B, C, E. destruct (E k Hk Hb) as [s1 Hs1].
  rewrite Hs1 in A, B, C. cbn [final] in A, B, C.
  exists (clear_bit UEINTX TXINI (EP_write8 a s1)).
  exists (cleared (peek UEINTX (UENUM s) 0 (EP_write8 a s1)) TXINI).
  split; [unfold bind at 1; rewrite Hs1; reflexivity|].
  split; [|apply cleared_bit; unfold TXINI; lia].
  unfold EP_write8. rewrite trace_clear_bit, trace_wr. frame.
  rewrite A, C, <- app_assoc. reflexivity.
Qed.

Lemma answer_two_bytes_sent (fuel : nat) (a b : Z) (s : state) (k : nat) :
  (k < fuel)%nat -> bit_is_set (peek UEINTX (UENUM s) k s) TXINI = true ->
  exists s' v,
    (loop_until_bit_is_set fuel UEINTX TXINI ;;
     lift (EP_write8 a) ;;
     lift (EP_write8 b) ;;
     lift (clear_bit UEINTX TXINI) ;;
     ret 1) s = Ret 1 s' /\
    trace s' =
      (trace s ++ [Wr UEDATX (UENUM s) (u8 a); Wr UEDATX (UENUM s) (u8 b);
                   Wr UEINTX (UENUM s) v])%list /\
    bit_is_set v TXINI = false.
Proof.
  intros Hk Hb.
  destruct (loop_until_bit_is_set_spec fuel UEINTX TXINI s) as (A & B & C & _ & E).
  cbv zeta in A, B, C, E. destruct (E k Hk Hb) as [s1 Hs1].
  rewrite Hs1 in A, B, C. cbn [final] in A, B, C.
  exists (clear_bit UEINTX TXINI (EP_write8 b (EP_write8 a s1))).
  exists (cleared (peek UEINTX (UENUM s) 0 (EP_write8 b (EP_write8 a s1))) TXINI).
  split; [unfold bind at 1; rewrite Hs1; reflexivity|].
  split; [|apply cleared_bit; unfold TXINI; lia].
  unfold EP_write8. rewrite trace_clear_bit, !trace_wr. frame.
  rewrite A, C, <- !app_assoc. reflexivity.
Qed.

(** The data a whole run of usb_control_in leaves on the endpoint, from
    what its first two blocks did. *)
Lemma usb_control_in_data (fuel : nat) (s s1 s2 : state) (ok0 ok : Z) (ep : Z) :
  control_in_standard fuel s = Ret ok0 s1 ->
  control_in_vendor fuel ok0 s1 = Ret ok s2 ->
  ep_data ep (trace (final (usb_control_in fuel s))) = ep_data ep (trace s2).
Proof.
  intros E1 E2. unfold usb_control_in, bind at 1. rewrite E1.
  unfold bind at 1. rewrite E2. apply control_complete_no_data.
Qed.

(** C9: a vendor IN request with a recognised opcode, once the control
    endpoint shows transmit-ready: the bytes written are the canned answer
    of the opcode and nothing else, whatever the device state: 0xFF 0xFF for
    Read EEPROM, 0x10 for Get Latency Timer, 0x00 for Get Modem Status.  The
    answer is a function of the opcode alone, so repeating a request gives
    the same bytes.  The answer is sent: right after its bytes the program
    writes the flag register with TXINI cleared, which releases the packet.
    Before the answer it can only have printed the diagnostic dump, and
    with a vendor bit that is not zero it prints nothing; what follows the
    answer, the status stage, writes no data. *)
Theorem vendor_in_request_canned (fuel : nat) (s : state) (resp : list Z) :
  let t := Z.lor USB_REQ_TYPE_IN USB_REQ_TYPE_VENDOR in
  bmReqType (head s) = t ->
  ~ In t [USB_REQ_TYPE_IN;
          Z.lor USB_REQ_TYPE_IN USB_REQ_TYPE_INTERFACE;
          Z.lor USB_REQ_TYPE_IN USB_REQ_TYPE_ENDPOINT; 0x80; 0] ->
  canned_response (bReq (head s)) = Some resp ->
  (exists k, (k < fuel)%nat /\
             bit_is_set (peek UEINTX (UENUM s) k s) TXINI = true) ->
  ep_data (UENUM s) (trace (final (usb_control_in fuel s))) =
    (ep_data (UENUM s) (trace s) ++ resp)%list /\
  canned_response FTDI_SIO_READ_EEPROM = Some [0xff; 0xff] /\
  (FTDI_SIO_GET_LATENCY_TIMER <> FTDI_SIO_READ_EEPROM ->
   canned_response FTDI_SIO_GET_LATENCY_TIMER = Some [0x10]) /\
  (FTDI_SIO_GET_MODEM_STATUS <> FTDI_SIO_READ_EEPROM ->
   FTDI_SIO_GET_MODEM_STATUS <> FTDI_SIO_GET_LATENCY_TIMER ->
   canned_response FTDI_SIO_GET_MODEM_STATUS = Some [0x00]) /\
  (exists (pre : list ascii) (v : Z) (post : list event),
     trace (final (usb_control_in fuel s)) =
       (trace s ++ map Uart pre ++ map (Wr UEDATX (UENUM s)) resp ++
        Wr UEINTX (UENUM s) v :: post)%list /\
     bit_is_set v TXINI = false /\
     (USB_REQ_TYPE_VENDOR <> 0 -> pre = []) /\
     (forall ep, ep_data ep post = [])).
Proof.
  intros t Ht Hn Hresp (k & Hk & Hb).
  destruct (control_in_standard_vendor fuel s Ht Hn) as (ok0 & s1 & E1 & Hs1).
  assert (Hh1 : head s1 = head s) by (destruct Hs1 as [->| ->]; now frame).
  assert (Hu1 : UENUM s1 = UENUM s) by (destruct Hs1 as [->| ->]; now frame).
  assert (Hpre : exists pre : list ascii,
            trace s1 = (trace s ++ map Uart pre)%list /\
            (USB_REQ_TYPE_VENDOR <> 0 -> pre = [])).
  { destruct Hs1 as [->| ->].
    - exists []. cbn [map]. now rewrite app_nil_r.
    - exists (dump_text (head s)). split; [apply trace_dump_unsupported_request|].
      intros Hv. exfalso.
      destruct (control_in_standard_vendor_silent fuel s Ht Hn Hv) as (ok' & E').
      rewrite E' in E1. injection E1 as _ E1.
      apply (f_equal trace) in E1.
      rewrite trace_dump_unsupported_request in E1.
      rewrite <- (app_nil_r (trace s)) in E1 at 1.
      apply app_inv_head in E1. discriminate E1. }
  assert (Hb1 : bit_is_set (peek UEINTX (UENUM s1) k s1) TXINI = true).
  { rewrite Hu1. destruct Hs1 as [->| ->]; [exact Hb|]. now frame. }
  assert (Hvend : exists s2 v, control_in_vendor fuel ok0 s1 = Ret 1 s2 /\
            trace s2 =
              (trace s1 ++ map (Wr UEDATX (UENUM s)) resp ++
               [Wr UEINTX (UENUM s) v])%list /\
            bit_is_set v TXINI = false).
  { unfold control_in_vendor. cbv zeta. rewrite Hh1, Ht. fold t.
    rewrite Z.eqb_refl. unfold canned_response in Hresp. unfold case_of.
    cbn [existsb]. rewrite !orb_false_r.
    destruct (_ =? FTDI_SIO_READ_EEPROM).
    { injection Hresp as <-.
      destruct (answer_two_bytes_sent fuel 0xff 0xff s1 k Hk Hb1) as (s2 & v & E & T & V).
      exists s2, v. rewrite Hu1 in T. auto. }
    destruct (_ =? FTDI_SIO_GET_LATENCY_TIMER).
    { injection Hresp as <-.
      destruct (answer_one_byte_sent fuel 0x10 s1 k Hk Hb1) as (s2 & v & E & T & V).
      exists s2, v. rewrite Hu1 in T. auto. }
    destruct (_ =? FTDI_SIO_GET_MODEM_STATUS); [|discriminate].
    injection Hresp as <-.
    destruct (answer_one_byte_sent fuel 0x00 s1 k Hk Hb1) as (s2 & v & E & T & V).
    exists s2, v. rewrite Hu1 in T. auto. }
  destruct Hvend as (s2 & v & E2 & T2 & V2).
  destruct Hpre as (pre & Tp & Np).
  destruct (usb_control_in_trace fuel s s1 s2 ok0 1 E1 E2) as (post & Tpost & Dpost).
  assert (Tall : trace (final (usb_control_in fuel s)) =
                 (trace s ++ map Uart pre ++ map (Wr UEDATX (UENUM s)) resp ++
                  Wr UEINTX (UENUM s) v :: post)%list).
  { rewrite Tpost, T2, Tp, <- !app_assoc. reflexivity. }
  split; [|split; [|split; [|split]]].
  - rewrite Tall, !ep_data_app, ep_data_map_Uart, ep_data_map_Wr.
    cbn [ep_data app]. now rewrite Dpost, app_nil_r.
  - unfold canned_response. now rewrite Z.eqb_refl.
  - intros H1. unfold canned_response.
    rewrite (proj2 (Z.eqb_neq _ _) H1). now rewrite Z.eqb_refl.
  - intros H1 H2. unfold canned_response.
    rewrite (proj2 (Z.eqb_neq _ _) H1), (proj2 (Z.eqb_neq _ _) H2).
    now rewrite Z.eqb_refl.
  - exists pre, v, post. auto.
Qed.
End VendorIn.

(** Read EEPROM (opcode 0x90), asked twice in a row with the endpoint
    ready: two bytes 0xFF each time, and the first answer is followed at
    once by a write of the flag register with TXINI cleared. *)
Lemma vendor_in_request_canned_witness :
  let s := boot (mkHeader 0xC0 0x90 0 0 2) 0 (script [] 5) in
  let s1 := final (usb_control_in (K := usb11) 3 s) in
  ep_data 0 (trace s1) = [0xff; 0xff] /\
  ep_data 0 (trace (final (usb_control_in (K := usb11) 3 s1))) =
    [0xff; 0xff; 0xff; 0xff] /\
  exists v post,
    trace s1 = (Wr UEDATX 0 0xff :: Wr UEDATX 0 0xff :: Wr UEINTX 0 v :: post)%list /\
    bit_is_set v TXINI = false.
Proof.
  intros s s1.
  assert (Hn : ~ In (Z.lor 0x80 0x40) [0x80; Z.lor 0x80 0x01; Z.lor 0x80 0x02; 0x80; 0])
    by (cbn; intuition discriminate).
  pose proof (vendor_in_request_canned (K := usb11) 3 s [0xff; 0xff] eq_refl Hn
                eq_refl (ex_intro _ 0%nat (conj (le_n_S _ _ (le_0_n 2)) eq_refl)))
    as (H1 & _ & _ & _ & (pre & v & post & T & V & Np & _)).
  pose proof (vendor_in_request_canned (K := usb11) 3 s1 [0xff; 0xff] eq_refl Hn
                eq_refl (ex_intro _ 0%nat (conj (le_n_S _ _ (le_0_n 2)) eq_refl)))
    as (H2 & _).
  assert (H1' : ep_data 0 (trace s1) = [0xff; 0xff]) by exact H1.
  assert (H2' : ep_data 0 (trace (final (usb_control_in (K := usb11) 3 s1))) =
                (ep_data 0 (trace s1) ++ [0xff; 0xff])%list) by exact H2.
  split; [exact H1'|]. split; [rewrite H2', H1'; reflexivity|].
  exists v, post. split; [|exact V].
  rewrite (Np ltac:(discriminate)) in T. exact T.
Defined.

(** ** Set Configuration and Get Configuration *)

Section Configuration.
Context {K : usb_h}.

(** Configuring one bulk endpoint whose configuration the controller
    accepts: control registers of that endpoint are written, no data. *)
Lemma setup_bulk_ep_ok (n cfg0 : Z) (s : state) :
  Z.land n 7 = n ->
  bit_is_set (peek UESTA0X n 0 s) CFGOK = true ->
  exists s', setup_bulk_ep n cfg0 s = Ret tt s' /\
             pvars s' = pvars s /\ UENUM s' = n /\
             (forall ep, ep_data ep (trace s') = ep_data ep (trace s)) /\
             (forall r ep k, ep <> n -> peek r ep k s' = peek r ep k s).
Proof.
  intros Hn Hok.
  set (s5 := wr UECFG1X 50 (wr UECFG0X cfg0 (set_bit UECONX EPEN
              (clear_bit UECFG1X ALLOC (clear_bit UECONX EPEN (EP_select n s)))))).
  assert (Hu : UENUM s5 = n) by (subst s5; frame; exact Hn).
  assert (Hp : forall r ep k, ep <> n -> peek r ep k s5 = peek r ep k s).
  { intros r ep k Hne. subst s5. frame.
    repeat (rewrite peek_rd_next_other by (frame; rewrite Hn; congruence); frame).
    reflexivity. }
  assert (Hst : peek UESTA0X n 0 s5 = peek UESTA0X n 0 s).
  { subst s5. frame.
    repeat (rewrite peek_rd_next_other by (frame; congruence); frame).
    reflexivity. }
  exists (rd_next UESTA0X s5).
  split; [|split; [|split; [|split]]].
  - unfold setup_bulk_ep, bind, lift, liftv, rd. cbv beta iota zeta.
    fold s5. rewrite Hu, Hst, bit_is_clear_negb, Hok. reflexivity.
  - subst s5. now frame.
  - frame. exact Hu.
  - intros ep. subst s5. frame.
    rewrite !trace_wr, trace_set_bit, !trace_clear_bit, !ep_data_app.
    cbn [ep_data]. now rewrite !app_nil_r.
  - intros r ep k Hne. rewrite peek_rd_next_other by (rewrite Hu; congruence).
    now apply Hp.
Qed.

Lemma setup_other_ep_ok (s : state) :
  bit_is_set (peek UESTA0X 1 0 s) CFGOK = true ->
  bit_is_set (peek UESTA0X 2 0 s) CFGOK = true ->
  exists s', setup_other_ep s = Ret tt s' /\
             pvars s' = pvars s /\ UENUM s' = 0 /\
             (forall ep, ep_data ep (trace s') = ep_data ep (trace s)).
Proof.
  intros H1 H2.
  destruct (setup_bulk_ep_ok 1 0x81 s eq_refl H1) as (s1 & E1 & V1 & _ & D1 & P1).
  assert (H2' : bit_is_set (peek UESTA0X 2 0 s1) CFGOK = true)
    by (rewrite P1 by discriminate; exact H2).
  destruct (setup_bulk_ep_ok 2 0x80 s1 eq_refl H2') as (s2 & E2 & V2 & _ & D2 & _).
  exists (EP_select 0 s2). split; [|split; [|split]].
  - unfold setup_other_ep, bind at 1. rewrite E1. unfold bind at 1. now rewrite E2.
  - frame. congruence.
  - now frame.
  - intros ep. frame. now rewrite D2, D1.
Qed.

Lemma NoDup_earlier (l1 l2 : list Z) (x : Z) :
  NoDup (l1 ++ x :: l2) -> ~ In x l1.
Proof.
  intros H Hin. apply NoDup_remove_2 in H. apply H, in_or_app. now left.
Qed.

(** Set Configuration: the value is stored as a byte and the transfer is
    acknowledged, provided the controller accepts both bulk endpoints. *)
Lemma set_configuration_ok (fuel : nat) (s : state) :
  NoDup switch_labels ->
  bmReqType (head s) = 0 -> bReq (head s) = usb_req_set_config ->
  bit_is_set (peek UESTA0X 1 0 s) CFGOK = true ->
  bit_is_set (peek UESTA0X 2 0 s) CFGOK = true ->
  exists s', usb_control_out fuel s = Ret tt s' /\
             USB_config s' = u8 (wValue (head s)) /\ UENUM s' = 0.
Proof.
  intros Hnd Ht Hr H1 H2.
  assert (N1 : ~ In usb_req_set_config [usb_req_set_feature; usb_req_clear_feature;
                 usb_req_get_status; usb_req_set_address; usb_req_get_desc])
    by exact (NoDup_earlier
                [usb_req_set_feature; usb_req_clear_feature; usb_req_get_status;
                 usb_req_set_address; usb_req_get_desc]
                [usb_req_get_config; usb_req_set_iface; usb_req_get_iface;
                 usb_req_set_desc; usb_req_synch_frame] usb_req_set_config Hnd).
  cbn [In] in N1.
  set (sa := set_USB_config (u8 (wValue (head s))) (putchar "S" s)).
  destruct (setup_other_ep_ok sa) as (sb & Eb & Vb & Ub & _);
    [subst sa; frame; exact H1|subst sa; frame; exact H2|].
  set (sc := putchar "s" sb).
  assert (E1 : control_out_standard fuel s = Ret (Some 1) sc).
  { unfold control_out_standard. cbv zeta. rewrite Hr, Ht.
    rewrite (case_of_false _ [usb_req_set_feature; usb_req_clear_feature])
      by (cbn [In]; tauto).
    rewrite (case_of_false _ [usb_req_get_status]) by (cbn [In]; tauto).
    rewrite (case_of_false _ [usb_req_set_address]) by (cbn [In]; tauto).
    rewrite (case_of_false _ [usb_req_get_desc]) by (cbn [In]; tauto).
    rewrite (case_of_true _ [usb_req_set_config]) by (cbn [In]; tauto).
    cbn [Z.eqb]. unfold bind at 1, lift at 1, bind at 1, USB_set_config.
    unfold bind at 1, lift at 1. frame. fold sa. rewrite Eb. reflexivity. }
  assert (Hc : USB_config sc = u8 (wValue (head s))).
  { subst sc. frame.
    assert (E : USB_config sb = USB_config sa)
      by (unfold pvars in Vb; now injection Vb).
    rewrite E. subst sa. now frame. }
  assert (Hh : bmReqType (head sc) = 0).
  { subst sc. frame.
    assert (E : head sb = head sa) by (unfold pvars in Vb; now injection Vb).
    rewrite E. subst sa. frame. exact Ht. }
  assert (Hu : UENUM sc = 0) by (subst sc; frame; exact Ub).
  assert (Hend : forall x, pvars x = pvars sc -> UENUM x = 0 ->
            exists s', control_complete fuel 1 x = Ret tt s' /\
                       USB_config s' = u8 (wValue (head s)) /\ UENUM s' = 0).
  { intros x Vx Ux.
    assert (Ex : head x = head sc) by (unfold pvars in Vx; now injection Vx).
    assert (Cx : USB_config x = USB_config sc) by (unfold pvars in Vx; now injection Vx).
    exists (putchar "C" (clear_bit UEINTX TXINI x)). split.
    - unfold control_complete. rewrite Ex, Hh. reflexivity.
    - frame. rewrite Cx, Hc, Ux. auto. }
  unfold usb_control_out, bind at 1. rewrite E1. unfold bind at 1.
  unfold control_out_vendor. cbv zeta.
  destruct (_ =? Z.lor _ _); [|now apply Hend].
  destruct (case_of _ [FTDI_SIO_RESET]); [now apply Hend|].
  destruct (case_of _ _); [now apply Hend|].
  apply Hend; now frame.
Qed.

(** Get Configuration: one byte, the stored value. *)
Lemma get_configuration_ok (fuel : nat) (s : state) :
  NoDup switch_labels ->
  USB_REQ_TYPE_IN <> Z.lor USB_REQ_TYPE_IN USB_REQ_TYPE_VENDOR ->
  bmReqType (head s) = USB_REQ_TYPE_IN -> bReq (head s) = usb_req_get_config ->
  (exists k, (k < fuel)%nat /\
             bit_is_set (peek UEINTX (UENUM s) k s) TXINI = true) ->
  ep_data (UENUM s) (trace (final (usb_control_in fuel s))) =
    (ep_data (UENUM s) (trace s) ++ [u8 (USB_config s)])%list.
Proof.
  intros Hnd Hv Ht Hr (k & Hk & Hb).
  assert (N1 : ~ In usb_req_get_config [usb_req_set_feature; usb_req_clear_feature;
                 usb_req_get_status; usb_req_set_address; usb_req_get_desc;
                 usb_req_set_config])
    by exact (NoDup_earlier
                [usb_req_set_feature; usb_req_clear_feature; usb_req_get_status;
                 usb_req_set_address; usb_req_get_desc; usb_req_set_config]
                [usb_req_set_iface; usb_req_get_iface;
                 usb_req_set_desc; usb_req_synch_frame] usb_req_get_config Hnd).
  cbn [In] in N1.
  destruct (answer_one_byte fuel (USB_config s) s k Hk Hb) as (s1 & E & V & U & D).
  assert (E1 : control_in_standard fuel s = Ret 1 s1).
  { unfold control_in_standard. cbv zeta. rewrite Hr, Ht.
    rewrite (case_of_false _ [usb_req_set_feature; usb_req_clear_feature])
      by (cbn [In]; tauto).
    rewrite (case_of_false _ [usb_req_get_status]) by (cbn [In]; tauto).
    rewrite (case_of_false _ [usb_req_set_address]) by (cbn [In]; tauto).
    rewrite (case_of_false _ [usb_req_get_desc]) by (cbn [In]; tauto).
    rewrite (case_of_false _ [usb_req_set_config]) by (cbn [In]; tauto).
    rewrite (case_of_true _ [usb_req_get_config]) by (cbn [In]; tauto).
    rewrite Z.eqb_refl. exact E. }
  assert (E2 : control_in_vendor fuel 1 s1 = Ret 1 s1).
  { unfold control_in_vendor. cbv zeta.
    assert (Eh : head s1 = head s) by (unfold pvars in V; now injection V).
    rewrite Eh, Ht. now rewrite (proj2 (Z.eqb_neq _ _) Hv). }
  now rewrite (usb_control_in_data fuel s s1 s1 1 1 _ E1 E2).
Qed.

(** Get Configuration sends its byte: the data write is followed by the
    write of the flag register that clears TXINI, and the status stage
    after it writes no data. *)
Lemma get_configuration_sent (fuel : nat) (s : state) :
  NoDup switch_labels ->
  USB_REQ_TYPE_IN <> Z.lor USB_REQ_TYPE_IN USB_REQ_TYPE_VENDOR ->
  bmReqType (head s) = USB_REQ_TYPE_IN -> bReq (head s) = usb_req_get_config ->
  (exists k, (k < fuel)%nat /\
             bit_is_set (peek UEINTX (UENUM s) k s) TXINI = true) ->
  exists (w : Z) (post : list event),
    trace (final (usb_control_in fuel s)) =
      (trace s ++ Wr UEDATX (UENUM s) (u8 (USB_config s)) ::
                  Wr UEINTX (UENUM s) w :: post)%list /\
    bit_is_set w TXINI = false /\
    (forall ep, ep_data ep post = []).
Proof.
  intros Hnd Hv Ht Hr (k & Hk & Hb).
  assert (N1 : ~ In usb_req_get_config [usb_req_set_feature; usb_req_clear_feature;
                 usb_req_get_status; usb_req_set_address; usb_req_get_desc;
                 usb_req_set_config])
    by exact (NoDup_earlier
                [usb_req_set_feature; usb_req_clear_feature; usb_req_get_status;
                 usb_req_set_address; usb_req_get_desc; usb_req_set_config]
                [usb_req_set_iface; usb_req_get_iface;
                 usb_req_set_desc; usb_req_synch_frame] usb_req_get_config Hnd).
  cbn [In] in N1.
  destruct (answer_one_byte fuel (USB_config s) s k Hk Hb) as (s1 & E & V & U & D).
  destruct (answer_one_byte_sent fuel (USB_config s) s k Hk Hb)
    as (s1' & w & E' & T & W).
  rewrite E in E'. injection E' as <-.
  assert (E1 : control_in_standard fuel s = Ret 1 s1).
  { unfold control_in_standard. cbv zeta. rewrite Hr, Ht.
    rewrite (case_of_false _ [usb_req_set_feature; usb_req_clear_feature])
      by (cbn [In]; tauto).
    rewrite (case_of_false _ [usb_req_get_status]) by (cbn [In]; tauto).
    rewrite (case_of_false _ [usb_req_set_address]) by (cbn [In]; tauto).
    rewrite (case_of_false _ [usb_req_get_desc]) by (cbn [In]; tauto).
    rewrite (case_of_false _ [usb_req_set_config]) by (cbn [In]; tauto).
    rewrite (case_of_true _ [usb_req_get_config]) by (cbn [In]; tauto).
    rewrite Z.eqb_refl. exact E. }
  assert (E2 : control_in_vendor fuel 1 s1 = Ret 1 s1).
  { unfold control_in_vendor. cbv zeta.
    assert (Eh : head s1 = head s) by (unfold pvars in V; now injection V).
    rewrite Eh, Ht. now rewrite (proj2 (Z.eqb_neq _ _) Hv). }
  destruct (usb_control_in_trace fuel s s1 s1 1 1 E1 E2) as (post & Tp & Dp).
  exists w, post. split; [|split; [exact W|exact Dp]].
  rewrite Tp, T, <- app_assoc. reflexivity.
Qed.

(** C4: Set Configuration with wValue = v, acknowledged, then Get
    Configuration: the byte returned is the low byte of v, which is v
    itself for every v below 256.  The byte is sent: the write of the byte
    to the data register is followed at once by the write of the flag
    register that clears TXINI, and nothing written after it is data. *)
Theorem set_then_get_configuration
    (fuel : nat) (s : state) (v i l v' i' l' : Z) :
  NoDup switch_labels ->
  USB_REQ_TYPE_IN <> Z.lor USB_REQ_TYPE_IN USB_REQ_TYPE_VENDOR ->
  bit_is_set (peek UESTA0X 1 0 s) CFGOK = true ->
  bit_is_set (peek UESTA0X 2 0 s) CFGOK = true ->
  exists s1,
    usb_control_out fuel (set_head (mkHeader 0 usb_req_set_config v i l) s)
      = Ret tt s1 /\
    ((exists k, (k < fuel)%nat /\ bit_is_set (peek UEINTX 0 k s1) TXINI = true) ->
     ep_data 0 (trace (final (usb_control_in fuel
                  (set_head (mkHeader USB_REQ_TYPE_IN usb_req_get_config v' i' l') s1))))
       = (ep_data 0 (trace s1) ++ [v mod 256])%list) /\
    (0 <= v < 256 -> v mod 256 = v) /\
    ((exists k, (k < fuel)%nat /\ bit_is_set (peek UEINTX 0 k s1) TXINI = true) ->
     exists (w : Z) (post : list event),
       trace (final (usb_control_in fuel
                (set_head (mkHeader USB_REQ_TYPE_IN usb_req_get_config v' i' l') s1)))
         = (trace s1 ++ Wr UEDATX 0 (v mod 256) :: Wr UEINTX 0 w :: post)%list /\
       bit_is_set w TXINI = false /\
       (forall ep, ep_data ep post = [])).
Proof.
  intros Hnd Hv H1 H2.
  destruct (set_configuration_ok fuel (set_head (mkHeader 0 usb_req_set_config v i l) s))
    as (s1 & E1 & C1 & U1); try assumption; try reflexivity.
  set (s2 := set_head (mkHeader USB_REQ_TYPE_IN usb_req_get_config v' i' l') s1).
  assert (U2 : UENUM s2 = 0) by (subst s2; frame; exact U1).
  assert (C2 : u8 (USB_config s2) = v mod 256).
  { subst s2. frame. rewrite C1. cbn [wValue head set_head].
    rewrite u8_idem. reflexivity. }
  assert (Hk2 : (exists k, (k < fuel)%nat /\
                           bit_is_set (peek UEINTX 0 k s1) TXINI = true) ->
                exists k, (k < fuel)%nat /\
                          bit_is_set (peek UEINTX (UENUM s2) k s2) TXINI = true).
  { intros (k & Hk & Hb). exists k. split; [exact Hk|].
    rewrite U2. subst s2. now frame. }
  exists s1. split; [exact E1|]. split; [|split].
  - intros Hk. fold s2.
    pose proof (get_configuration_ok fuel s2 Hnd Hv eq_refl eq_refl (Hk2 Hk)) as G.
    rewrite U2 in G. rewrite G, C2. subst s2. now frame.
  - intros Hr. now apply Z.mod_small.
  - intros Hk.
    destruct (get_configuration_sent fuel s2 Hnd Hv eq_refl eq_refl (Hk2 Hk))
      as (w & post & T & W & D).
    rewrite U2, C2 in T. exists w, post. fold s2.
    split; [|split; [exact W|exact D]].
    rewrite T. subst s2. now frame.
Qed.
End Configuration.

(** Set Configuration with wValue = 256 is acknowledged and stores 0: the
    following Get Configuration returns the byte 0, not 256. *)
Lemma configuration_256_reads_back_0 :
  let s := boot (mkHeader 0 0 0 0 0) 0 (script [] 255) in
  let o := usb_control_out (K := usb11) 3 (set_head (mkHeader 0 9 256 0 0) s) in
  let s1 := final o in
  returned o = true /\
  USB_config s1 = 0 /\
  ep_data 0 (trace (final (usb_control_in (K := usb11) 3
                             (set_head (mkHeader 0x80 8 0 0 1) s1)))) =
    (ep_data 0 (trace s1) ++ [0])%list /\
  [0] <> [256].
Proof.
  cbv zeta. split; [vm_compute; reflexivity|]. split; [vm_compute; reflexivity|].
  split; [vm_compute; reflexivity|discriminate].
Qed.

(** Configuration 1 set and read back, every controller read returning
    0xFF (CFGOK and TXINI up). *)
Lemma set_then_get_configuration_witness :
  let s := boot (mkHeader 0 0 0 0 0) 0 (script [] 255) in
  exists s1,
    usb_control_out (K := usb11) 3 (set_head (mkHeader 0 9 1 0 0) s) = Ret tt s1 /\
    ep_data 0 (trace (final (usb_control_in (K := usb11) 3
                               (set_head (mkHeader 0x80 8 0 0 1) s1)))) =
      (ep_data 0 (trace s1) ++ [1])%list.
Proof.
  intros s.
  assert (Hnd : NoDup (switch_labels (K := usb11))).
  { unfold switch_labels. cbn.
    repeat (apply NoDup_cons; [cbn; intuition discriminate|]). apply NoDup_nil. }
  destruct (set_then_get_configuration (K := usb11) 3 s 1 0 0 0 0 1 Hnd
              ltac:(discriminate) eq_refl eq_refl) as (s1 & E1 & G & _).
  exists s1. split; [exact E1|].
  apply G. exists 0%nat. split; [repeat constructor|].
  apply (f_equal final) in E1. cbn [final] in E1. rewrite <- E1.
  vm_compute. reflexivity.
Defined.

(** ** Invariants through the control path *)

Section Respects.
Context {K : usb_h}.
Variables (P : state -> Prop) (R : state -> state -> Prop).
Hypothesis HR : rules P R.

Lemma respects_at {A : Type} (m : M A) (s : state) :
  respects P R m -> P s ->
  R s (final (m s)) /\ (returned (m s) = true -> P (final (m s))).
Proof. intros H HP. exact (H s HP). Qed.

(** Continue from a state already reached. *)
Lemma respects_from {A : Type} (m : M A) (s t : state) :
  R s t -> P t -> respects P R m ->
  R s (final (m t)) /\ (returned (m t) = true -> P (final (m t))).
Proof.
  intros Hst Ht Hm. destruct (Hm t Ht) as [A1 A2].
  split; [exact (rule_trans HR _ _ _ Hst A1)|exact A2].
Qed.

Lemma respects_ret {A : Type} (a : A) : respects P R (ret a).
Proof. intros s HP. cbn [ret final returned]. split; [apply (rule_refl HR)|auto]. Qed.

Lemma respects_halt {A : Type} : respects P R (@halt A).
Proof.
  intros s HP. cbn [halt final returned]. split; [apply (rule_refl HR)|discriminate].
Qed.

Lemma respects_bind {A B : Type} (m : M A) (k : A -> M B) :
  respects P R m -> (forall a, respects P R (k a)) -> respects P R (bind m k).
Proof.
  intros Hm Hk s HP. unfold bind. destruct (Hm s HP) as [A1 A2].
  destruct (m s) as [a s1|s1|s1]; cbn [final returned] in A1, A2 |- *.
  - destruct (Hk a s1 (A2 eq_refl)) as [B1 B2].
    split; [exact (rule_trans HR _ _ _ A1 B1)|exact B2].
  - split; [exact A1|discriminate].
  - split; [exact A1|discriminate].
Qed.

Lemma respects_lift (f : state -> state) :
  (forall s, P s -> R s (f s) /\ P (f s)) -> respects P R (lift f).
Proof.
  intros Hf s HP. cbn [lift final returned]. destruct (Hf s HP). auto.
Qed.

(** The primitives built from reads, writes and characters. *)
Lemma step_clear_bit (r : reg) (b : Z) (s : state) :
  P s -> R s (clear_bit r b s) /\ P (clear_bit r b s).
Proof.
  intros HP.
  change (clear_bit r b s)
    with (wr r (Z.land (peek r (UENUM s) 0 s) (Z.lnot (_BV b))) (rd_next r s)).
  destruct (rule_rd HR r s HP) as [A1 A2].
  destruct (rule_wr HR r (Z.land (peek r (UENUM s) 0 s) (Z.lnot (_BV b))) _ A2)
    as [B1 B2].
  split; [exact (rule_trans HR _ _ _ A1 B1)|exact B2].
Qed.

Lemma step_set_bit (r : reg) (b : Z) (s : state) :
  P s -> R s (set_bit r b s) /\ P (set_bit r b s).
Proof.
  intros HP.
  change (set_bit r b s)
    with (wr r (Z.lor (peek r (UENUM s) 0 s) (_BV b)) (rd_next r s)).
  destruct (rule_rd HR r s HP) as [A1 A2].
  destruct (rule_wr HR r (Z.lor (peek r (UENUM s) 0 s) (_BV b)) _ A2) as [B1 B2].
  split; [exact (rule_trans HR _ _ _ A1 B1)|exact B2].
Qed.

Lemma step_putchars (l : list ascii) : forall s : state,
  P s -> R s (putchars l s) /\ P (putchars l s).
Proof.
  induction l as [|c l IH]; intros s HP; cbn [putchars].
  - split; [apply (rule_refl HR)|exact HP].
  - destruct (rule_putchar HR c s HP) as [A1 A2].
    destruct (IH _ A2) as [B1 B2].
    split; [exact (rule_trans HR _ _ _ A1 B1)|exact B2].
Qed.

Lemma step_print (str : string) : forall s : state,
  P s -> R s (print str s) /\ P (print str s).
Proof.
  induction str as [|c str IH]; intros s HP; cbn [print].
  - split; [apply (rule_refl HR)|exact HP].
  - destruct (rule_putchar HR c s HP) as [A1 A2].
    destruct (IH _ A2) as [B1 B2].
    split; [exact (rule_trans HR _ _ _ A1 B1)|exact B2].
Qed.

Lemma step_dump (s : state) :
  P s -> R s (dump_unsupported_request s) /\ P (dump_unsupported_request s).
Proof.
  intros HP. unfold dump_unsupported_request, put_hex. cbv zeta.
  destruct (rule_putchar HR "?" s HP) as [A1 A2].
  destruct (step_putchars (hex4 (bmReqType (head (putchar "?" s)))) _ A2) as [B1 B2].
  match goal with |- context [putchars (hex4 (bReq (head ?t))) ?t] =>
    destruct (step_putchars (hex4 (bReq (head t))) t B2) as [C1 C2] end.
  match goal with |- context [putchars (hex4 (Z.shiftr (wLength (head ?t)) 8)) ?t] =>
    destruct (step_putchars (hex4 (Z.shiftr (wLength (head t)) 8)) t C2) as [D1 D2] end.
  match goal with |- context [putchars (hex4 (wLength (head ?t))) ?t] =>
    destruct (step_putchars (hex4 (wLength (head t))) t D2) as [E1 E2] end.
  split; [|exact E2].
  exact (rule_trans HR _ _ _ A1
           (rule_trans HR _ _ _ B1 (rule_trans HR _ _ _ C1 (rule_trans HR _ _ _ D1 E1)))).
Qed.

Lemma respects_oops (a : bool) (v : string) : respects P R (oops a v).
Proof.
  intros s HP. unfold oops. destruct a; cbn [final returned].
  - split; [apply (rule_refl HR)|auto].
  - split; [apply step_print, HP|discriminate].
Qed.

Lemma respects_loop_until_bit_is_set (fuel : nat) (r : reg) (bit : Z) :
  respects P R (loop_until_bit_is_set fuel r bit).
Proof.
  induction fuel as [|fuel IH]; intros s HP; cbn [loop_until_bit_is_set].
  - cbn [final returned]. split; [apply (rule_refl HR)|discriminate].
  - unfold rd. cbv beta iota zeta.
    destruct (rule_rd HR r s HP) as [A1 A2].
    destruct (bit_is_clear _ bit).
    + apply respects_from; assumption.
    + cbn [final returned]. auto.
Qed.

Lemma respects_wait_status (fuel : nat) : respects P R (wait_status fuel).
Proof.
  induction fuel as [|fuel IH]; intros s HP; cbn [wait_status].
  - cbn [final returned]. split; [apply (rule_refl HR)|discriminate].
  - unfold rd. cbv beta iota zeta.
    destruct (rule_rd HR UEINTX s HP) as [A1 A2].
    destruct (_ =? 0).
    + apply respects_from; assumption.
    + cbn [final returned]. auto.
Qed.

Lemma step_ctrl_write_chunk (n : nat) : forall (addr : list Z) (s : state),
  P s -> R s (snd (ctrl_write_chunk n addr s)) /\ P (snd (ctrl_write_chunk n addr s)).
Proof.
  induction n as [|n IH]; intros addr s HP; cbn [ctrl_write_chunk].
  - cbn [snd]. split; [apply (rule_refl HR)|exact HP].
  - unfold EP_write8.
    destruct (rule_wr HR UEDATX (pgm_read_byte addr) s HP) as [A1 A2].
    destruct (IH (tl addr) _ A2) as [B1 B2].
    split; [exact (rule_trans HR _ _ _ A1 B1)|exact B2].
Qed.

Lemma respects_ctrl_write_PM (fuel : nat) : forall (addr : list Z) (len : Z),
  respects P R (ctrl_write_PM fuel addr len).
Proof.
  induction fuel as [|fuel IH]; intros addr len s HP.
  - cbn [ctrl_write_PM]. destruct (len =? 0); cbn [final returned];
      (split; [apply (rule_refl HR)|auto; discriminate]).
  - destruct (Z.eq_dec len 0) as [E|E].
    + subst len. cbn [ctrl_write_PM Z.eqb final returned].
      split; [apply (rule_refl HR)|auto].
    + rewrite ctrl_write_PM_round by exact E. cbv zeta.
      destruct (rule_rd HR UEBCLX s HP) as [A1 A2].
      destruct (rule_rd HR UEINTX _ A2) as [B1 B2].
      pose proof (rule_trans HR _ _ _ A1 B1) as C1.
      set (s2 := rd_next UEINTX (rd_next UEBCLX s)) in *.
      assert (Hdead : forall str,
        R s (final (@Halted Z (print str s2))) /\
        (returned (@Halted Z (print str s2)) = true ->
         P (final (@Halted Z (print str s2))))).
      { intros str. cbn [final returned]. destruct (step_print str s2 B2) as [D1 _].
        split; [exact (rule_trans HR _ _ _ C1 D1)|discriminate]. }
      destruct (EP0_SIZE >=? _); [|apply Hdead].
      destruct (bit_is_set _ RXSTPI); [cbn [final returned]; auto|].
      destruct (bit_is_set _ RXOUTI); [cbn [final returned]; auto|].
      destruct (bit_is_clear _ TXINI).
      { apply respects_from; [exact C1|exact B2|apply IH]. }
      destruct (_ >? 0); [|apply Hdead].
      match goal with |- context [ctrl_write_chunk ?n addr s2] =>
        destruct (step_ctrl_write_chunk n addr s2 B2) as [D1 D2];
        destruct (step_clear_bit UEINTX TXINI _ D2) as [E1 E2]
      end.
      apply respects_from; [|exact E2|apply IH].
      exact (rule_trans HR _ _ _ C1 (rule_trans HR _ _ _ D1 E1)).
Qed.

Lemma respects_USB_get_desc (fuel : nat) : respects P R (USB_get_desc fuel).
Proof.
  intros s HP. unfold USB_get_desc.
  destruct (USB_get_desc_select (head s)) as [[addr len]|].
  - apply respects_at; [|exact HP].
    apply respects_bind; [apply respects_ctrl_write_PM|intros r; apply respects_ret].
  - cbn [final returned]. split; [apply (rule_refl HR)|auto].
Qed.

Lemma respects_USB_set_address (fuel : nat) : respects P R (USB_set_address fuel).
Proof.
  intros s HP. unfold USB_set_address. apply respects_at; [|exact HP].
  repeat first
    [ apply respects_bind; [|intros ?]
    | apply respects_lift; intros ? ?;
        first [apply (rule_wr HR)|apply step_clear_bit]; assumption
    | apply respects_loop_until_bit_is_set ].
Qed.

Lemma respects_control_complete (fuel : nat) (ok : Z) :
  respects P R (control_complete fuel ok).
Proof.
  intros s HP. unfold control_complete. apply respects_at; [|exact HP].
  destruct (negb (ok =? 0)); [destruct (negb (_ =? 0))|].
  - apply respects_bind; [|intros ?; apply respects_lift, (rule_putchar HR)].
    apply respects_bind; [apply respects_wait_status|intros sts].
    destruct (_ =? 0);
      (apply respects_bind; [|intros ?]); apply respects_lift;
      first [apply step_set_bit|apply step_clear_bit|apply (rule_putchar HR)].
  - apply respects_bind; [|intros ?; apply respects_lift, (rule_putchar HR)].
    apply respects_lift, step_clear_bit.
  - apply respects_bind; [|intros ?; apply respects_lift, (rule_putchar HR)].
    apply respects_lift, step_set_bit.
Qed.

(** Wait for the endpoint, write bytes, send the packet. *)
Lemma respects_answer (fuel : nat) (l : list Z) :
  respects P R
    (loop_until_bit_is_set fuel UEINTX TXINI ;;
     fold_right (fun b m => lift (EP_write8 b) ;; m)
                (lift (clear_bit UEINTX TXINI) ;; ret 1) l).
Proof.
  apply respects_bind; [apply respects_loop_until_bit_is_set|intros _].
  induction l as [|b l IH]; cbn [fold_right].
  - apply respects_bind; [apply respects_lift, step_clear_bit|intros ?; apply respects_ret].
  - apply respects_bind; [apply respects_lift, (rule_wr HR)|intros ?; exact IH].
Qed.

Lemma respects_control_in_vendor (fuel : nat) (ok : Z) :
  respects P R (control_in_vendor fuel ok).
Proof.
  intros s HP. unfold control_in_vendor. cbv zeta.
  destruct (_ =? Z.lor _ _);
    [|cbn [final returned]; split; [apply (rule_refl HR)|auto]].
  destruct (case_of _ [FTDI_SIO_READ_EEPROM]).
  { exact (respects_answer fuel [0xff; 0xff] s HP). }
  destruct (case_of _ [FTDI_SIO_GET_LATENCY_TIMER]).
  { exact (respects_answer fuel [0x10] s HP). }
  destruct (case_of _ [FTDI_SIO_GET_MODEM_STATUS]).
  { exact (respects_answer fuel [0x00] s HP). }
  cbn [final returned]. destruct (step_dump s HP). auto.
Qed.

Lemma respects_control_out_vendor (ok : Z) : respects P R (control_out_vendor ok).
Proof.
  intros s HP. unfold control_out_vendor. cbv zeta.
  destruct (_ =? Z.lor _ _);
    [|cbn [final returned]; split; [apply (rule_refl HR)|auto]].
  destruct (case_of _ [FTDI_SIO_RESET]);
    [cbn [final returned]; split; [apply (rule_refl HR)|auto]|].
  destruct (case_of _ _);
    [cbn [final returned]; split; [apply (rule_refl HR)|auto]|].
  cbn [final returned]. destruct (step_dump s HP). auto.
Qed.

Lemma respects_rd (r : reg) : respects P R (liftv (rd r)).
Proof.
  intros s HP. unfold liftv, rd. cbn [final returned].
  destruct (rule_rd HR r s HP). auto.
Qed.

Lemma respects_EP_read16_le : respects P R (liftv EP_read16_le).
Proof.
  intros s HP. unfold liftv, EP_read16_le, rd. cbv beta iota zeta.
  cbn [final returned].
  destruct (rule_rd HR UEDATX s HP) as [A1 A2].
  destruct (rule_rd HR UEDATX _ A2) as [B1 B2].
  split; [exact (rule_trans HR _ _ _ A1 B1)|auto].
Qed.

(** The assignment of Set Configuration, where the request is one. *)
Hypothesis H_config : forall s, P s ->
  bReq (head s) = usb_req_set_config -> bmReqType (head s) = 0 ->
  R s (set_USB_config (u8 (wValue (head s))) s) /\
  P (set_USB_config (u8 (wValue (head s))) s).

Lemma respects_control_in_standard (fuel : nat) :
  respects P R (control_in_standard fuel).
Proof.
  intros s HP. unfold control_in_standard. cbv zeta.
  assert (Hret : forall a : Z, R s (final (Ret a s)) /\
                               (returned (Ret a s) = true -> P (final (Ret a s)))).
  { intros a. cbn [final returned]. split; [apply (rule_refl HR)|auto]. }
  destruct (case_of _ [usb_req_set_feature; usb_req_clear_feature]); [apply Hret|].
  destruct (case_of _ [usb_req_get_status]).
  { destruct (case_of _ _); [|apply Hret].
    exact (respects_answer fuel [Z.land 0 255; Z.land (Z.shiftr 0 8) 255] s HP). }
  destruct (case_of _ [usb_req_set_address]); [apply Hret|].
  destruct (case_of _ [usb_req_get_desc]).
  { destruct (_ =? 0x80); [|apply Hret]. apply respects_USB_get_desc, HP. }
  destruct (case_of _ [usb_req_set_config]) eqn:Ec.
  { apply case_of_one in Ec. destruct (_ =? 0) eqn:Et; [|apply Hret].
    apply Z.eqb_eq in Et. cbn [final returned].
    destruct (H_config s HP Ec Et). auto. }
  destruct (case_of _ [usb_req_get_config]).
  { destruct (_ =? USB_REQ_TYPE_IN); [|apply Hret].
    exact (respects_answer fuel [USB_config s] s HP). }
  repeat (destruct (case_of _ _)); try apply Hret.
  all: destruct (_ =? 0); [|apply Hret].
  all: cbn [final returned]; destruct (step_dump s HP); auto.
Qed.

Lemma respects_usb_control_in (fuel : nat) : respects P R (usb_control_in fuel).
Proof.
  unfold usb_control_in.
  apply respects_bind; [apply respects_control_in_standard|intros ok].
  apply respects_bind; [apply respects_control_in_vendor|intros ok'].
  apply respects_control_complete.
Qed.

(** Configuring the two bulk endpoints. *)
Hypothesis H_setup : respects P R setup_other_ep.

Lemma respects_USB_set_config (s : state) :
  P s -> bReq (head s) = usb_req_set_config -> bmReqType (head s) = 0 ->
  R s (final (USB_set_config s)) /\
  (returned (USB_set_config s) = true -> P (final (USB_set_config s))).
Proof.
  intros HP Ec Et. unfold USB_set_config, bind at 1, lift at 1.
  destruct (H_config s HP Ec Et) as [A1 A2].
  exact (respects_from setup_other_ep s _ A1 A2 H_setup).
Qed.

Lemma respects_control_out_standard (fuel : nat) :
  respects P R (control_out_standard fuel).
Proof.
  intros s HP. unfold control_out_standard. cbv zeta.
  assert (Hret : forall a : option Z, R s (final (Ret a s)) /\
                               (returned (Ret a s) = true -> P (final (Ret a s)))).
  { intros a. cbn [final returned]. split; [apply (rule_refl HR)|auto]. }
  destruct (case_of _ [usb_req_set_feature; usb_req_clear_feature]); [apply Hret|].
  destruct (case_of _ [usb_req_get_status]); [apply Hret|].
  destruct (case_of _ [usb_req_set_address]).
  { destruct (_ =? USB_REQ_TYPE_OUT); [|apply Hret].
    apply respects_at; [|exact HP].
    apply respects_bind; [apply respects_lift, (rule_putchar HR)|intros ?].
    apply respects_bind; [apply respects_USB_set_address|intros ?].
    apply respects_bind; [apply respects_lift, (rule_putchar HR)|intros ?].
    apply respects_ret. }
  destruct (case_of _ [usb_req_get_desc]); [apply Hret|].
  destruct (case_of _ [usb_req_set_config]) eqn:Ec.
  { apply case_of_one in Ec. destruct (_ =? 0) eqn:Et; [|apply Hret].
    apply Z.eqb_eq in Et.
    destruct (rule_putchar HR "S" s HP) as [A1 A2].
    destruct (respects_USB_set_config (putchar "S" s) A2 Ec Et) as [B1 B2].
    pose proof (rule_trans HR _ _ _ A1 B1) as C1.
    unfold bind, lift, ret.
    destruct (USB_set_config (putchar "S" s)) as [[] s3|s3|s3];
      cbn [final returned] in B1, B2, C1 |- *;
      [|split; [exact C1|intros H; discriminate H]..].
    destruct (rule_putchar HR "s" s3 (B2 eq_refl)) as [D1 D2].
    split; [exact (rule_trans HR _ _ _ C1 D1)|auto]. }
  repeat (destruct (case_of _ _)); try apply Hret.
  all: destruct (_ =? 0); [|apply Hret].
  all: cbn [final returned]; destruct (step_dump s HP); auto.
Qed.

Lemma respects_usb_control_out (fuel : nat) : respects P R (usb_control_out fuel).
Proof.
  unfold usb_control_out.
  apply respects_bind; [apply respects_control_out_standard|intros [ok|]].
  - apply respects_bind; [apply respects_control_out_vendor|intros ok'].
    apply respects_control_complete.
  - apply respects_ret.
Qed.

Lemma respects_control_dispatch (fuel : nat) :
  respects P R (control_dispatch fuel).
Proof.
  intros s HP. unfold control_dispatch.
  destruct (negb _); [apply respects_usb_control_in|apply respects_usb_control_out];
    exact HP.
Qed.

(** Storing the request. *)
Hypothesis H_head : forall h s, P s -> R s (set_head h s) /\ P (set_head h s).

Lemma respects_handle_CONTROL (fuel : nat) : respects P R (handle_CONTROL fuel).
Proof.
  unfold handle_CONTROL.
  apply respects_bind; [apply respects_rd|intros t].
  apply respects_bind; [apply respects_rd|intros r].
  apply respects_bind; [apply respects_EP_read16_le|intros v].
  apply respects_bind; [apply respects_EP_read16_le|intros i].
  apply respects_bind; [apply respects_EP_read16_le|intros l].
  apply respects_bind; [apply respects_lift, H_head|intros ?].
  apply respects_bind; [apply respects_lift, step_clear_bit|intros ?].
  apply respects_control_dispatch.
Qed.

End Respects.


(** ** Configuring an endpoint, whatever the controller answers *)

(** The writes that configure endpoint [n] with type [cfg0] in state [s]. *)
Lemma setup_bulk_ep_spec (n cfg0 : Z) (s : state) :
  Z.land n 7 = n ->
  let o := setup_bulk_ep n cfg0 s in
  let ok := bit_is_set (peek UESTA0X n 0 s) CFGOK in
  returned o = ok /\
  (ok = false -> o = Halted (final o)) /\
  pvars (final o) = pvars s /\ UENUM (final o) = n /\
  trace (final o) =
    (trace s ++
     [Wr UECONX n (cleared (peek UECONX n 0 s) EPEN);
      Wr UECFG1X n (cleared (peek UECFG1X n 0 s) ALLOC);
      Wr UECONX n (raised (peek UECONX n 1 s) EPEN);
      Wr UECFG0X n (u8 cfg0);
      Wr UECFG1X n 50] ++ (if ok then [] else [Uart "!"]))%list /\
  (forall r ep k, ep <> n -> peek r ep k (final o) = peek r ep k s).
Proof.
  intros Hn o ok.
  set (s5 := wr UECFG1X 50 (wr UECFG0X cfg0 (set_bit UECONX EPEN
              (clear_bit UECFG1X ALLOC (clear_bit UECONX EPEN (EP_select n s)))))).
  assert (Hu : UENUM s5 = n) by (subst s5; frame; exact Hn).
  assert (Hp : forall r ep k, ep <> n -> peek r ep k s5 = peek r ep k s).
  { intros r ep k Hne. subst s5. frame.
    repeat (rewrite peek_rd_next_other by (frame; rewrite Hn; congruence); frame).
    reflexivity. }
  assert (Hst : peek UESTA0X n 0 s5 = peek UESTA0X n 0 s).
  { subst s5. frame.
    repeat (rewrite peek_rd_next_other by (frame; congruence); frame).
    reflexivity. }
  assert (Ht : trace s5 =
    (trace s ++
     [Wr UECONX n (cleared (peek UECONX n 0 s) EPEN);
      Wr UECFG1X n (cleared (peek UECFG1X n 0 s) ALLOC);
      Wr UECONX n (raised (peek UECONX n 1 s) EPEN);
      Wr UECFG0X n (u8 cfg0);
      Wr UECFG1X n 50])%list).
  { subst s5. rewrite !trace_wr, trace_set_bit, !trace_clear_bit. frame.
    rewrite Hn. rewrite peek_rd_next_other by (frame; congruence).
    rewrite (peek_rd_next_other UECFG1X UECONX) by congruence. frame.
    rewrite peek_rd_next_same by (frame; now rewrite Hn).
    frame. rewrite <- !app_assoc. reflexivity. }
  assert (Ho : o = if ok then Ret tt (rd_next UESTA0X s5)
                   else Halted (putchar "!" (rd_next UESTA0X s5))).
  { subst o ok. unfold setup_bulk_ep, bind, lift, liftv, rd. cbv beta iota zeta.
    fold s5. rewrite Hu, Hst, bit_is_clear_negb.
    destruct (bit_is_set _ CFGOK); reflexivity. }
  rewrite Ho. destruct ok; cbn [final returned].
  - split; [reflexivity|]. split; [discriminate|]. frame.
    split; [subst s5; now frame|]. split; [exact Hu|]. split.
    + rewrite Ht, app_nil_r. reflexivity.
    + intros r ep k Hne. rewrite peek_rd_next_other by (rewrite Hu; congruence).
      now apply Hp.
  - split; [reflexivity|]. split; [reflexivity|]. frame.
    split; [subst s5; now frame|]. split; [exact Hu|]. split.
    + rewrite trace_putchar. frame. rewrite Ht, <- app_assoc. reflexivity.
    + intros r ep k Hne. frame.
      rewrite peek_rd_next_other by (rewrite Hu; congruence).
      now apply Hp.
Qed.

(** Configuring the bulk endpoints changes no variable, writes no data and,
    where it returns, leaves endpoint 0 selected. *)
Lemma setup_other_ep_any (s : state) :
  let o := setup_other_ep s in
  pvars (final o) = pvars s /\
  (exists tr, trace (final o) = (trace s ++ tr)%list /\
              forall ep, ep_data ep tr = []) /\
  (returned o = true -> UENUM (final o) = 0).
Proof.
  cbv zeta. unfold setup_other_ep, bind.
  destruct (setup_bulk_ep_spec 1 0x81 s eq_refl) as (R1 & _ & V1 & U1 & T1 & _).
  cbv zeta in R1, V1, U1, T1.
  destruct (setup_bulk_ep 1 0x81 s) as [[] s1|s1|s1]; cbn [final returned] in *.
  2, 3: split; [exact V1|]; split; [|intros H; discriminate H];
        eexists; split; [exact T1|];
        intros ep; destruct (bit_is_set _ CFGOK); reflexivity.
  destruct (setup_bulk_ep_spec 2 0x80 s1 eq_refl) as (R2 & _ & V2 & U2 & T2 & _).
  cbv zeta in R2, V2, U2, T2.
  assert (Hd : exists tr, trace (final (setup_bulk_ep 2 0x80 s1)) = (trace s ++ tr)%list /\
                          forall ep, ep_data ep tr = []).
  { eexists. split; [rewrite T2, T1, <- app_assoc; reflexivity|].
    intros ep. rewrite ep_data_app.
    destruct (bit_is_set _ CFGOK); destruct (bit_is_set _ CFGOK); reflexivity. }
  destruct (setup_bulk_ep 2 0x80 s1) as [[] s2|s2|s2]; cbn [final returned lift] in *.
  - frame. split; [congruence|]. split; [exact Hd|reflexivity].
  - split; [congruence|]. split; [exact Hd|intros H; discriminate H].
  - split; [congruence|]. split; [exact Hd|intros H; discriminate H].
Qed.

(** ** What control handling keeps *)

Section ControlInvariants.
Context {K : usb_h}.

Lemma control_step_of (s s' : state) :
  pvars s' = pvars s -> (exists tr, trace s' = (trace s ++ tr)%list) ->
  control_step s s'.
Proof.
  intros V T. unfold pvars in V. injection V as H1 H2 H3 H4 H5.
  unfold control_step, relay_vars. rewrite H1, H2, H3, H4, H5.
  split; [reflexivity|]. split; [reflexivity|]. split; [intros H; now elim H|exact T].
Qed.

Lemma control_step_rules : rules (fun _ => True) control_step.
Proof.
  constructor.
  - intros s. apply control_step_of; [reflexivity|]. exists []. now rewrite app_nil_r.
  - intros s t u (h1 & r1 & c1 & tr1 & T1) (h2 & r2 & c2 & tr2 & T2).
    split; [congruence|]. split; [congruence|]. split.
    + intros Hne.
      destruct (Z.eq_dec (USB_config u) (USB_config t)) as [E|E].
      * rewrite E in Hne |- *. exact (c1 Hne).
      * destruct (c2 E) as (A & B & C). rewrite h1 in A, B, C. auto.
    + exists (tr1 ++ tr2)%list. now rewrite T2, T1, app_assoc.
  - intros r s _. split; [|exact I]. apply control_step_of; [now frame|].
    exists []. frame. now rewrite app_nil_r.
  - intros r v s _. split; [|exact I]. apply control_step_of; [now frame|].
    eexists. apply trace_wr.
  - intros c s _. split; [|exact I]. apply control_step_of; [now frame|].
    eexists. apply trace_putchar.
Qed.

(** Acting on a request keeps it, keeps the relay's variables, touches the
    configuration value only for Set Configuration, and only adds to the
    trace. *)
Lemma control_dispatch_step (fuel : nat) (s : state) :
  control_step s (final (control_dispatch fuel s)).
Proof.
  refine (proj1 (respects_control_dispatch _ _ control_step_rules _ _ fuel s I)).
  - intros t _ Ec Et. split; [|exact I].
    unfold control_step, relay_vars. frame.
    split; [reflexivity|]. split; [reflexivity|]. split; [auto|].
    exists []. now rewrite app_nil_r.
  - intros t _. split; [|auto].
    destruct (setup_other_ep_any t) as (V & (tr & T & _) & _).
    apply control_step_of; [exact V|]. exists tr. exact T.
Qed.

Lemma relay_kept_rules : rules (fun s => UENUM s = 0) relay_kept.
Proof.
  constructor.
  - intros s. split; reflexivity.
  - intros s t u [r1 d1] [r2 d2]. split; [congruence|].
    intros ep Hep. now rewrite d2, d1.
  - intros r s Hu. split; [|now frame].
    split; [unfold relay_vars; now frame|]. intros ep _. now frame.
  - intros r v s Hu. split; [|now frame].
    split; [unfold relay_vars; now frame|]. intros ep Hep.
    rewrite trace_wr, ep_data_app, Hu.
    destruct r; cbn [ep_data]; rewrite ?app_nil_r; try reflexivity.
    rewrite (proj2 (Z.eqb_neq 0 ep)) by congruence. now rewrite app_nil_r.
  - intros c s Hu. split; [|now frame].
    split; [unfold relay_vars; now frame|]. intros ep _.
    rewrite trace_putchar, ep_data_app. cbn [ep_data]. now rewrite app_nil_r.
Qed.

Lemma handle_CONTROL_relay_kept (fuel : nat) :
  respects (fun s => UENUM s = 0) relay_kept (handle_CONTROL fuel).
Proof.
  apply (respects_handle_CONTROL _ _ relay_kept_rules).
  - intros t Hu _ _. split; [|now frame].
    split; [unfold relay_vars; now frame|]. intros ep _. now frame.
  - intros t Hu.
    destruct (setup_other_ep_any t) as (V & (tr & T & D) & U).
    cbv zeta in V, T, U. split; [|exact U].
    unfold pvars in V. injection V as _ _ H3 H4 H5.
    split; [unfold relay_vars; now rewrite H3, H4, H5|].
    intros ep _. now rewrite T, ep_data_app, D, app_nil_r.
  - intros h t Hu. split; [|now frame].
    split; [unfold relay_vars; now frame|]. intros ep _. now frame.
Qed.

(** X1: handling a control request, entered as the main loop does with
    endpoint 0 selected, never touches the relay: its two flags and its
    character stay as they were and no data byte is written to a bulk
    endpoint; where it returns, endpoint 0 is selected again. *)
Theorem handle_CONTROL_leaves_relay_alone (fuel : nat) (s : state) :
  UENUM s = 0 ->
  let o := handle_CONTROL fuel s in
  do_send_famous_message (final o) = do_send_famous_message s /\
  do_send_char (final o) = do_send_char s /\
  usb_char (final o) = usb_char s /\
  (forall ep, ep <> 0 -> ep_data ep (trace (final o)) = ep_data ep (trace s)) /\
  (returned o = true -> UENUM (final o) = 0).
Proof.
  intros Hu o. destruct (handle_CONTROL_relay_kept fuel s Hu) as [[V D] U].
  fold o in V, D, U. unfold relay_vars in V. injection V as H1 H2 H3.
  auto.
Qed.

Lemma pvars_rules :
  rules (fun s => bmReqType (head s) <> 0) (fun s s' => pvars s' = pvars s).
Proof.
  constructor.
  - reflexivity.
  - intros s t u A B. congruence.
  - intros r s H. now frame.
  - intros r v s H. now frame.
  - intros c s H. now frame.
Qed.

(** X2: a request with the direction bit IN changes none of the program's
    variables, whatever the request and whatever the controller answers: the
    Set Configuration case of usb_control_in asks for request type 0, which
    the dispatch on the direction bit never sends there. *)
Theorem control_read_changes_no_variable (fuel : nat) (s : state) :
  Z.land (bmReqType (head s)) USB_REQ_TYPE_IN <> 0 ->
  pvars (final (control_dispatch fuel s)) = pvars s.
Proof.
  intros Hin.
  assert (Hne : bmReqType (head s) <> 0).
  { intros E. rewrite E in Hin. now rewrite Z.land_0_l in Hin. }
  unfold control_dispatch.
  rewrite (proj2 (Z.eqb_neq _ 0) Hin). cbn [negb].
  refine (proj1 (respects_usb_control_in _ _ pvars_rules _ fuel s Hne)).
  intros t Ht _ E. contradiction.
Qed.

(** The eight reads of handle_CONTROL. *)
Lemma handle_CONTROL_reads (fuel : nat) (s : state) :
  let e := UENUM s in
  let s8 := rd_next UEDATX (rd_next UEDATX (rd_next UEDATX (rd_next UEDATX
            (rd_next UEDATX (rd_next UEDATX (rd_next UEDATX (rd_next UEDATX s))))))) in
  let h := mkHeader (peek UEDATX e 0 s) (peek UEDATX e 1 s)
             (Z.lor (Z.shiftl (peek UEDATX e 3 s) 8) (peek UEDATX e 2 s))
             (Z.lor (Z.shiftl (peek UEDATX e 5 s) 8) (peek UEDATX e 4 s))
             (Z.lor (Z.shiftl (peek UEDATX e 7 s) 8) (peek UEDATX e 6 s)) in
  handle_CONTROL fuel s =
    control_dispatch fuel (clear_bit UEINTX RXSTPI (set_head h s8)).
Proof.
  cbv zeta. unfold handle_CONTROL, bind, liftv, lift, EP_read8, EP_read16_le, rd.
  cbv beta iota zeta. frame.
  repeat (rewrite peek_rd_next_same by (frame; reflexivity)).
  reflexivity.
Qed.

(** A request acted on changes the configuration value only if it is Set
    Configuration. *)
Lemma control_dispatch_config (fuel : nat) (t : state) (c : Z) :
  USB_config t = c ->
  USB_config (final (control_dispatch fuel t)) <> c ->
  bmReqType (head (final (control_dispatch fuel t))) = 0 /\
  bReq (head (final (control_dispatch fuel t))) = usb_req_set_config /\
  USB_config (final (control_dispatch fuel t)) =
    u8 (wValue (head (final (control_dispatch fuel t)))).
Proof.
  intros E Hne. destruct (control_dispatch_step fuel t) as (Hh & _ & Hc & _).
  rewrite Hh. apply Hc. now rewrite E.
Qed.

(** X3: the configuration value changes only through Set Configuration:
    whenever handling a control request changes it, the request read from
    the endpoint has request type 0 and the code of Set Configuration, and
    the new value is the low byte of its wValue. *)
Theorem configuration_changes_only_by_set_config (fuel : nat) (s : state) :
  let o := handle_CONTROL fuel s in
  USB_config (final o) <> USB_config s ->
  bmReqType (head (final o)) = 0 /\
  bReq (head (final o)) = usb_req_set_config /\
  USB_config (final o) = u8 (wValue (head (final o))).
Proof.
  intros o. subst o. rewrite handle_CONTROL_reads.
  apply control_dispatch_config. reflexivity.
Qed.

End ControlInvariants.

(** ** Reading the SETUP packet *)

(** Two bytes read low byte first give back the 16-bit value they were
    split from. *)
Lemma le16_read_back (x : Z) :
  0 <= x < 65536 -> Z.lor (Z.shiftl (u8 (Z.shiftr x 8)) 8) (u8 x) = x.
Proof.
  intros Hx. unfold u8. change 256 with (2 ^ 8).
  apply Z.bits_inj'. intros n Hn.
  rewrite Z.lor_spec.
  destruct (Z.ltb_spec n 8) as [Hlt|Hge].
  - rewrite Z.shiftl_spec_low by lia.
    rewrite Z.mod_pow2_bits_low by lia. reflexivity.
  - rewrite Z.shiftl_spec by lia.
    rewrite (Z.mod_pow2_bits_high x) by lia. rewrite orb_false_r.
    destruct (Z.ltb_spec (n - 8) 8) as [Hlt'|Hge'].
    + rewrite Z.mod_pow2_bits_low by lia. rewrite Z.shiftr_spec by lia.
      f_equal. lia.
    + rewrite Z.mod_pow2_bits_high by lia.
      symmetry. destruct (Z.eq_dec x 0) as [->|Hx0]; [apply Z.bits_0|].
      apply Z.bits_above_log2; [lia|].
      apply Z.log2_lt_pow2; [lia|]. change (2 ^ 16) with 65536 in *.
      assert (2 ^ 16 <= 2 ^ n) by (apply Z.pow_le_mono_r; lia).
      change (2 ^ 16) with 65536 in *. lia.
Qed.

Section Setup.
Context {K : usb_h}.

(** X4: handle_CONTROL reads the request back from the wire: when the
    next eight bytes of the endpoint are those of a SETUP packet, the two
    8-bit fields followed by the three 16-bit fields low byte first, [head]
    holds exactly that request from then on, whatever the request leads to;
    and the first thing written is the acknowledgement of the SETUP, the
    flag register with RXSTPI cleared. *)
Theorem handle_CONTROL_reads_setup_packet (fuel : nat) (s : state) (h : usb_header) :
  header_ok h ->
  next_reads UEDATX (UENUM s) (setup_bytes h) s ->
  let o := handle_CONTROL fuel s in
  head (final o) = h /\
  exists v tr,
    trace (final o) = (trace s ++ Wr UEINTX (UENUM s) v :: tr)%list /\
    v = cleared (peek UEINTX (UENUM s) 0 s) RXSTPI /\
    bit_is_set v RXSTPI = false.
Proof.
  intros (Ht & Hr & Hv & Hi & Hl) Hnext o. subst o.
  rewrite handle_CONTROL_reads. cbv zeta.
  assert (E : forall k, (k < 8)%nat ->
                        peek UEDATX (UENUM s) k s = nth k (setup_bytes h) 0)
    by exact Hnext.
  rewrite (E 0%nat), (E 1%nat), (E 2%nat), (E 3%nat), (E 4%nat), (E 5%nat),
    (E 6%nat), (E 7%nat) by lia.
  cbn [setup_bytes le16 app nth].
  rewrite !le16_read_back by assumption.
  match goal with |- context [control_dispatch fuel ?t] =>
    destruct (control_dispatch_step fuel t) as (Hh & _ & _ & tr & Htr);
    assert (Tt : trace t =
      (trace s ++ [Wr UEINTX (UENUM s) (cleared (peek UEINTX (UENUM s) 0 s) RXSTPI)])%list);
    [|revert Hh Htr; rewrite Tt; generalize (final (control_dispatch fuel t))]
  end.
  { rewrite trace_clear_bit. frame.
    repeat (rewrite peek_rd_next_other by (frame; congruence)).
    reflexivity. }
  intros s' Hh Htr. split.
  - rewrite Hh. frame. now destruct h.
  - eexists. exists tr. split; [|split; [reflexivity|]].
    + rewrite Htr, <- app_assoc. reflexivity.
    + apply cleared_bit. unfold RXSTPI. lia.
Qed.

End Setup.

(** Get Descriptor, device, 18 bytes, as the host sends it. *)
Lemma handle_CONTROL_reads_setup_packet_witness :
  let s := boot (mkHeader 0 0 0 0 0) 0
                (script [(UEDATX, 0, [0x80; 6; 0; 1; 0; 0; 18; 0])] 0) in
  head (final (handle_CONTROL (K := usb11) 3 s)) = mkHeader 0x80 6 0x0100 0 18.
Proof.
  intros s.
  refine (proj1 (handle_CONTROL_reads_setup_packet (K := usb11) 3 s
                   (mkHeader 0x80 6 0x0100 0 18) _ _)).
  - unfold header_ok. cbn. lia.
  - intros k Hk. cbn in Hk.
    do 8 (destruct k as [|k]; [reflexivity|]). lia.
Defined.

(** A pending echo survives a Get Status request. *)
Lemma handle_CONTROL_leaves_relay_alone_witness :
  let s := set_usb_char 66 (set_do_send_char true
             (boot (mkHeader 0 0 0 0 0) 0
                   (script [(UEDATX, 0, [0x80; 0; 0; 0; 0; 0; 2; 0])] 255))) in
  let s' := final (handle_CONTROL (K := usb11) 3 s) in
  do_send_char s' = true /\ usb_char s' = 66.
Proof.
  intros s s'.
  destruct (handle_CONTROL_leaves_relay_alone (K := usb11) 3 s eq_refl)
    as (_ & Hc & Hu & _).
  split; [exact Hc|exact Hu].
Defined.

(** Set Configuration sent with the direction bit IN is not acted on. *)
Lemma control_read_changes_no_variable_witness :
  let s := boot (mkHeader 0x80 9 5 0 0) 0 (script [] 255) in
  pvars (final (control_dispatch (K := usb11) 3 s)) = pvars s.
Proof.
  intros s.
  apply (control_read_changes_no_variable (K := usb11) 3 s).
  cbn. discriminate.
Defined.

(** Set Configuration 1 as the host sends it, the controller accepting
    everything. *)
Lemma configuration_changes_only_by_set_config_witness :
  let s := boot (mkHeader 0 0 0 0 0) 0
                (script [(UEDATX, 0, [0; 9; 1; 0; 0; 0; 0; 0])] 255) in
  let s' := final (handle_CONTROL (K := usb11) 3 s) in
  USB_config s' = 1 /\ bReq (head s') = 9.
Proof.
  intros s s'.
  assert (Hne : USB_config s' <> USB_config s) by (vm_compute; discriminate).
  destruct (configuration_changes_only_by_set_config (K := usb11) 3 s Hne)
    as (_ & Hr & Hc).
  split; [|exact Hr].
  etransitivity; [exact Hc|]. vm_compute. reflexivity.
Defined.

(** ** The diagnostic dump *)

Lemma hex_value_digit (d : Z) : 0 <= d < 16 -> hex_value (hex_digit d) = Some d.
Proof.
  intros H.
  assert (E : d = 0 \/ d = 1 \/ d = 2 \/ d = 3 \/ d = 4 \/ d = 5 \/ d = 6 \/ d = 7 \/
              d = 8 \/ d = 9 \/ d = 10 \/ d = 11 \/ d = 12 \/ d = 13 \/ d = 14 \/
              d = 15) by lia.
  repeat (destruct E as [->|E]; [reflexivity|]). subst d. reflexivity.
Qed.

(** The four digits that printf("%04x") prints for a 16-bit value read
    back as that value. *)
Lemma hex_decode_digits (x : Z) :
  0 <= x < 65536 ->
  hex_decode [hex_digit (Z.shiftr x 12); hex_digit (Z.land (Z.shiftr x 8) 15);
              hex_digit (Z.land (Z.shiftr x 4) 15); hex_digit (Z.land x 15)] = Some x.
Proof.
  intros Hx. unfold hex_decode. cbn [hex_decode_from].
  change 15 with (Z.ones 4). rewrite !Z.land_ones, !Z.shiftr_div_pow2 by lia.
  change (2 ^ 12) with 4096. change (2 ^ 8) with 256. change (2 ^ 4) with 16.
  pose proof (Z.div_mod x 16 ltac:(lia)) as E0.
  pose proof (Z.mod_pos_bound x 16 ltac:(lia)) as B0.
  pose proof (Z.div_mod (x / 16) 16 ltac:(lia)) as E1.
  pose proof (Z.mod_pos_bound (x / 16) 16 ltac:(lia)) as B1.
  pose proof (Z.div_mod (x / 256) 16 ltac:(lia)) as E2.
  pose proof (Z.mod_pos_bound (x / 256) 16 ltac:(lia)) as B2.
  assert (D1 : x / 256 = x / 16 / 16) by (rewrite Z.div_div by lia; reflexivity).
  assert (D2 : x / 4096 = x / 256 / 16) by (rewrite Z.div_div by lia; reflexivity).
  assert (B3 : 0 <= x / 4096 < 16).
  { split; [apply Z.div_pos; lia|apply Z.div_lt_upper_bound; lia]. }
  rewrite hex_value_digit by exact B3.
  rewrite hex_value_digit by exact B2.
  rewrite hex_value_digit by exact B1.
  rewrite hex_value_digit by exact B0.
  f_equal. lia.
Qed.

(** X5: the dump of an unsupported request reads back: the seventeen
    characters printed are a question mark and four groups of four
    hexadecimal digits that decode to the request type, the request code,
    the high byte of wLength and wLength, each as a 16-bit value; nothing is
    written to the controller and no variable changes. *)
Theorem dump_unsupported_request_reads_back {K : usb_h} (s : state) :
  let s' := dump_unsupported_request s in
  exists d,
    trace s' = (trace s ++ map Uart d)%list /\
    List.length d = 17%nat /\
    dump_decode d =
      Some (u16 (bmReqType (head s)), u16 (bReq (head s)),
            u16 (Z.shiftr (wLength (head s)) 8), u16 (wLength (head s))) /\
    pvars s' = pvars s /\ UENUM s' = UENUM s /\ sfr s' = sfr s.
Proof.
  cbv zeta. exists (dump_text (head s)).
  split; [apply trace_dump_unsupported_request|].
  split; [reflexivity|]. split.
  - assert (B : forall x, 0 <= u16 x < 65536)
      by (intros x; unfold u16; apply Z.mod_pos_bound; lia).
    unfold dump_text, dump_decode, hex4. cbv zeta.
    cbn [app List.length firstn skipn Nat.eqb].
    change (code "?" =? code "?") with true. cbn [andb].
    rewrite !hex_decode_digits by apply B. reflexivity.
  - split; [now frame|]. split; [now frame|]. apply keeps_sfr.
Qed.

(** ** More on the relay *)

Section RelayMore.

#[local] Existing Instance bulk_write_PM_quiet.
#[local] Existing Instance bulk_write_PM_ep.
#[local] Existing Instance bulk_write_PM_sfr.

Lemma last_cons {A : Type} (c d : A) (cs : list A) : last (c :: cs) d = last cs c.
Proof.
  revert c d. induction cs as [|x cs IH]; intros c d; [reflexivity|].
  change (last (c :: x :: cs) d) with (last (x :: cs) d).
  now rewrite !IH.
Qed.

(** The loop of the inbound check over the characters [cs]: the last one
    stays in [usb_char], and each raises the flag of its kind. *)
Lemma read_chars_vars (cs : list Z) : forall s : state,
  next_reads UEDATX (UENUM s) cs s ->
  let s' := read_chars (List.length cs) s in
  usb_char s' = last cs (usb_char s) /\
  do_send_famous_message s' =
    existsb (fun c => c =? code "a") cs || do_send_famous_message s /\
  do_send_char s' =
    existsb (fun c => negb (c =? code "a")) cs || do_send_char s /\
  head s' = head s /\ USB_config s' = USB_config s.
Proof.
  induction cs as [|c cs IH]; intros s Hn; cbn [List.length read_chars].
  - cbn [last existsb orb]. auto.
  - unfold rd. cbv beta iota zeta.
    assert (Hc : peek UEDATX (UENUM s) 0 s = c) by (apply (Hn 0%nat); cbn; lia).
    rewrite Hc.
    match goal with |- context [read_chars _ ?t] => set (s1 := t) end.
    assert (Hu : UENUM s1 = UENUM s) by (subst s1; destruct (c =? code "a"); now frame).
    assert (Hn1 : next_reads UEDATX (UENUM s1) cs s1).
    { intros k Hk. rewrite Hu.
      assert (E : peek UEDATX (UENUM s) k s1 = peek UEDATX (UENUM s) (S k) s).
      { subst s1. destruct (c =? code "a"); frame; now rewrite peek_rd_next_same. }
      rewrite E. apply (Hn (S k)). cbn. lia. }
    destruct (IH s1 Hn1) as (A & B & C & D & E). cbv zeta in A, B, C, D, E.
    rewrite A, B, C, D, E, last_cons. cbn [existsb].
    subst s1. destruct (c =? code "a"); frame; cbn [negb orb];
      rewrite ?orb_true_r; auto.
Qed.

(** The inbound check on a delivered packet, before the count is known. *)
Lemma handle_incoming_bytes_active (s : state) :
  bit_is_set (peek UEINTX 2 0 s) RXOUTI = true ->
  let N := Z.lor (Z.shiftl (peek UEBCHX 2 0 s) 8) (peek UEBCLX 2 0 s) in
  let t := rd_next UEBCLX (rd_next UEBCHX
             (clear_bit UEINTX RXOUTI (rd_next UEINTX (EP_select 2 s)))) in
  handle_incoming_bytes s = clear_bit UEINTX FIFOCON (read_chars (Z.to_nat N) t).
Proof.
  intros H N t. unfold handle_incoming_bytes, rd. cbv beta iota zeta.
  frame. rewrite H. reads. fold N. fold t.
  destruct (N >? 0) eqn:G; [reflexivity|].
  rewrite Z.gtb_ltb in G. apply Z.ltb_ge in G.
  replace (Z.to_nat N) with 0%nat by lia. reflexivity.
Qed.

(** The state in which the loop of the inbound check starts. *)
Lemma incoming_loop_start (s : state) :
  let t := rd_next UEBCLX (rd_next UEBCHX
             (clear_bit UEINTX RXOUTI (rd_next UEINTX (EP_select 2 s)))) in
  UENUM t = 2 /\ pvars t = pvars s /\
  trace t = (trace s ++ [Wr UEINTX 2 (cleared (peek UEINTX 2 1 s) RXOUTI)])%list /\
  (forall r ep k, ep <> 2 -> peek r ep k t = peek r ep k s) /\
  (forall k, peek UEDATX 2 k t = peek UEDATX 2 k s) /\
  (forall k, peek UEINTX 2 k t = peek UEINTX 2 (2 + k) s).
Proof.
  cbv zeta.
  assert (Hne : forall (r r0 : reg) (ep : Z), ep <> 2 -> (r, ep) <> (r0, 2))
    by (intros r r0 ep Hep E; injection E; auto).
  split; [now frame|]. split; [now frame|]. split.
  { frame. rewrite trace_clear_bit. frame. reads. reflexivity. }
  split; [|split].
  - intros r ep k Hep. frame.
    repeat (rewrite peek_rd_next_other by (frame; now apply Hne); frame).
    reflexivity.
  - intros k. reads. reflexivity.
  - intros k. reads. reflexivity.
Qed.

(** The inbound check on a packet of the characters [cs]. *)
Lemma incoming_packet (s : state) (cs : list Z) :
  bit_is_set (peek UEINTX 2 0 s) RXOUTI = true ->
  Z.lor (Z.shiftl (peek UEBCHX 2 0 s) 8) (peek UEBCLX 2 0 s) =
    Z.of_nat (List.length cs) ->
  next_reads UEDATX 2 cs s ->
  let s' := handle_incoming_bytes s in
  usb_char s' = last cs (usb_char s) /\
  do_send_famous_message s' =
    existsb (fun c => c =? code "a") cs || do_send_famous_message s /\
  do_send_char s' =
    existsb (fun c => negb (c =? code "a")) cs || do_send_char s /\
  head s' = head s /\ USB_config s' = USB_config s /\
  trace s' =
    (trace s ++ [Wr UEINTX 2 (cleared (peek UEINTX 2 1 s) RXOUTI);
                 Wr UEINTX 2 (cleared (peek UEINTX 2 2 s) FIFOCON)])%list /\
  (forall r ep k, ep <> 2 -> peek r ep k s' = peek r ep k s) /\
  (forall k, peek UEINTX 2 k s' = peek UEINTX 2 (3 + k) s).
Proof.
  intros H HN Hn s'. subst s'.
  rewrite handle_incoming_bytes_active by exact H. cbv zeta.
  rewrite HN, Nat2Z.id.
  destruct (incoming_loop_start s) as (Tu & Tv & Tt & To & Td & Ti).
  cbv zeta in Tu, Tv, Tt, To, Td, Ti.
  set (t := rd_next UEBCLX (rd_next UEBCHX
              (clear_bit UEINTX RXOUTI (rd_next UEINTX (EP_select 2 s))))) in *.
  assert (Hnt : next_reads UEDATX (UENUM t) cs t).
  { intros k Hk. rewrite Tu, Td. now apply Hn. }
  destruct (read_chars_vars cs t Hnt) as (A & B & C & D & E).
  destruct (read_chars_spec (List.length cs) t) as (F & G & I).
  cbv zeta in A, B, C, D, E, F, G, I.
  assert (V1 : head t = head s) by reflexivity.
  assert (V2 : USB_config t = USB_config s) by reflexivity.
  assert (V3 : do_send_famous_message t = do_send_famous_message s) by reflexivity.
  assert (V4 : do_send_char t = do_send_char s) by reflexivity.
  assert (V5 : usb_char t = usb_char s) by reflexivity.
  frame. rewrite A, B, C, D, E, V1, V2, V3, V4, V5.
  do 5 (split; [reflexivity|]). split; [|split].
  - rewrite trace_clear_bit, F, G, Tt, Tu, <- app_assoc.
    rewrite I by (rewrite Tu; congruence). rewrite Ti. reflexivity.
  - intros r ep k Hep. rewrite peek_clear_bit.
    rewrite peek_rd_next_other by (rewrite F, Tu; congruence).
    rewrite I by (rewrite Tu; congruence). now apply To.
  - intros k. rewrite peek_clear_bit.
    rewrite peek_rd_next_same by (now rewrite F, Tu).
    rewrite I by (rewrite Tu; congruence). rewrite Ti. reflexivity.
Qed.

(** X6: the inbound check on a packet of any length: every character is
    read, the last one is the one kept in [usb_char] (the earlier ones are
    lost to the echo), the banner flag is raised when an 'a' is among them
    and the echo flag when any other character is; an empty packet changes
    no variable.  Either way the packet is acknowledged by clearing RXOUTI
    and then FIFOCON, and nothing else is written. *)
Theorem handle_incoming_bytes_keeps_last_char (s : state) (cs : list Z) :
  bit_is_set (peek UEINTX 2 0 s) RXOUTI = true ->
  Z.lor (Z.shiftl (peek UEBCHX 2 0 s) 8) (peek UEBCLX 2 0 s) =
    Z.of_nat (List.length cs) ->
  Z.of_nat (List.length cs) <= 32767 ->
  next_reads UEDATX 2 cs s ->
  let s' := handle_incoming_bytes s in
  usb_char s' = last cs (usb_char s) /\
  do_send_famous_message s' =
    existsb (fun c => c =? code "a") cs || do_send_famous_message s /\
  do_send_char s' =
    existsb (fun c => negb (c =? code "a")) cs || do_send_char s /\
  head s' = head s /\ USB_config s' = USB_config s /\
  trace s' =
    (trace s ++ [Wr UEINTX 2 (cleared (peek UEINTX 2 1 s) RXOUTI);
                 Wr UEINTX 2 (cleared (peek UEINTX 2 2 s) FIFOCON)])%list.
Proof.
  intros H HN _ Hn s'.
  destruct (incoming_packet s cs H HN Hn) as (A & B & C & D & E & F & _).
  auto 6.
Qed.

(** The packet "hi!": the exclamation mark is what will be echoed. *)
Lemma handle_incoming_bytes_keeps_last_char_witness :
  let s := boot (mkHeader 0 0 0 0 0) 0
             (script [(UEINTX, 2, [4]); (UEBCLX, 2, [3]);
                      (UEDATX, 2, [104; 105; 33])] 0) in
  let s' := handle_incoming_bytes s in
  usb_char s' = 33 /\ do_send_famous_message s' = false /\ do_send_char s' = true.
Proof.
  intros s s'.
  assert (Hn : next_reads UEDATX 2 [104; 105; 33] s).
  { intros k Hk. cbn in Hk. do 3 (destruct k as [|k]; [reflexivity|]). lia. }
  destruct (handle_incoming_bytes_keeps_last_char s [104; 105; 33]
              eq_refl eq_refl ltac:(cbn; lia) Hn) as (A & B & C & _).
  split; [exact A|]. split; [exact B|exact C].
Defined.

Lemma relay_trace_app (l1 l2 : list event) :
  relay_trace l1 -> relay_trace l2 -> relay_trace (l1 ++ l2).
Proof.
  intros H1 H2. induction H1 as [|a b rest Ha Hb _ IH|a b payload rest Ha Hb Hp _ IH].
  - exact H2.
  - cbn [app]. now apply relay_ack.
  - cbn [app]. rewrite <- app_assoc. cbn [app]. now apply relay_packet.
Qed.

Lemma handle_incoming_bytes_trace (s : state) :
  exists l, trace (handle_incoming_bytes s) = (trace s ++ l)%list /\ relay_trace l.
Proof.
  destruct (bit_is_set (peek UEINTX 2 0 s) RXOUTI) eqn:H.
  - rewrite handle_incoming_bytes_active by exact H. cbv zeta.
    destruct (incoming_loop_start s) as (Tu & _ & Tt & _).
    cbv zeta in Tu, Tt.
    match goal with |- context [read_chars ?n ?t] =>
      destruct (read_chars_spec n t) as (F & G & _) end.
    cbv zeta in F, G.
    eexists. split.
    + rewrite trace_clear_bit, F, G, Tt, Tu, <- app_assoc. reflexivity.
    + cbn [app]. apply relay_ack; [| |constructor];
        apply cleared_bit; unfold RXOUTI, FIFOCON; lia.
  - rewrite handle_incoming_bytes_idle by exact H.
    exists []. frame. split; [now rewrite app_nil_r|constructor].
Qed.

Lemma handle_outgoing_bytes_trace (s : state) :
  exists l, trace (handle_outgoing_bytes s) = (trace s ++ l)%list /\ relay_trace l.
Proof.
  assert (Hnone : trace (handle_outgoing_bytes s) = trace s ->
                  exists l, trace (handle_outgoing_bytes s) = (trace s ++ l)%list /\
                            relay_trace l).
  { intros E. exists []. split; [now rewrite app_nil_r|constructor]. }
  destruct (bit_is_set (peek UEINTX 1 0 s) TXINI) eqn:Hr;
    [|apply Hnone; now apply handle_outgoing_bytes_not_ready].
  destruct (do_send_famous_message s) eqn:Hf.
  - destruct (handle_outgoing_bytes_banner s Hf Hr) as (T & _).
    eexists. split; [exact T|].
    cbn [app]. apply relay_packet; [| |now left|constructor];
      apply cleared_bit; unfold TXINI, FIFOCON; lia.
  - destruct (do_send_char s) eqn:Hc.
    + destruct (handle_outgoing_bytes_echo s Hf Hc Hr) as (T & _).
      eexists. split; [exact T|].
      apply (relay_packet _ _ [u8 (usb_char s)] []); [| |right; eauto|constructor];
        apply cleared_bit; unfold TXINI, FIFOCON; lia.
    + apply Hnone. rewrite handle_outgoing_bytes_idle by assumption. now frame.
Qed.

(** X7: all the relay ever does to the controller, whatever the host
    delivers and whatever was pending: over any number of passes the trace
    grows by acknowledgements of OUT packets on endpoint 2 and by IN packets
    on endpoint 1, each made of the two reserved bytes 0x80 0x00 followed by
    the banner or by a single character.  No other register and no other
    endpoint is written, and nothing is printed. *)
Theorem relay_polls_trace (n : nat) : forall s : state,
  exists l, trace (relay_polls n s) = (trace s ++ l)%list /\ relay_trace l.
Proof.
  induction n as [|n IH]; intros s; cbn [relay_polls].
  - exists []. split; [now rewrite app_nil_r|constructor].
  - destruct (IH (relay_poll s)) as (l3 & T3 & R3).
    unfold relay_poll in T3 |- *.
    destruct (handle_outgoing_bytes_trace (handle_incoming_bytes s)) as (l2 & T2 & R2).
    destruct (handle_incoming_bytes_trace s) as (l1 & T1 & R1).
    exists (l1 ++ l2 ++ l3)%list. split.
    + rewrite T3, T2, T1, <- !app_assoc. reflexivity.
    + now repeat apply relay_trace_app.
Qed.

Lemma relay_poll_extends (s : state) :
  exists l, trace (relay_poll s) = (trace s ++ l)%list.
Proof.
  unfold relay_poll.
  destruct (handle_outgoing_bytes_trace (handle_incoming_bytes s)) as (l2 & T2 & _).
  destruct (handle_incoming_bytes_trace s) as (l1 & T1 & _).
  exists (l1 ++ l2)%list. now rewrite T2, T1, app_assoc.
Qed.

(** The data of a relay trace on the bulk IN endpoint is framed, and a
    relay trace holds no data for another endpoint. *)
Lemma relay_trace_framed (l : list event) :
  relay_trace l ->
  framed (ep_data 1 l) /\ forall ep, ep <> 1 -> ep_data ep l = [].
Proof.
  intros H. induction H as [|a b rest Ha Hb _ [IH1 IH2]
                             |a b payload rest Ha Hb Hp _ [IH1 IH2]].
  - split; [constructor|reflexivity].
  - split; [exact IH1|]. intros ep Hep. cbn [ep_data]. now apply IH2.
  - split.
    + cbn [ep_data]. rewrite ep_data_app, ep_data_map_Wr. cbn [ep_data app].
      destruct Hp as [->|[c ->]]; [now apply framed_banner|].
      cbn [app]. now apply framed_char.
    + intros ep Hep. cbn [ep_data]. rewrite ep_data_app. cbn [ep_data].
      rewrite (IH2 ep Hep), app_nil_r.
      assert (E : forall d, ep_data ep (map (Wr UEDATX 1) d) = []).
      { induction d as [|x d IHd]; [reflexivity|]. cbn [map ep_data].
        rewrite (proj2 (Z.eqb_neq 1 ep)) by congruence. exact IHd. }
      apply E.
Qed.

Lemma next_reads_bytes (r : reg) (ep : Z) (cs : list Z) (s : state) :
  next_reads r ep cs s -> Forall (fun c => 0 <= c < 256) cs.
Proof.
  intros Hn. apply Forall_forall. intros c Hc.
  destruct (In_nth cs c 0 Hc) as (k & Hk & <-).
  rewrite <- (Hn k Hk). apply u8_range.
Qed.

Lemma last_byte (cs : list Z) (d : Z) :
  Forall (fun c => 0 <= c < 256) cs -> cs <> [] -> 0 <= last cs d < 256.
Proof.
  intros H Hne. revert d. induction H as [|c cs Hc _ IH]; intros d; [congruence|].
  rewrite last_cons. destruct cs as [|x cs]; [exact Hc|].
  apply IH. discriminate.
Qed.

(** X8: a packet that holds an 'a' and another character leaves two items
    pending, and the relay sends them in two passes: the banner in the pass
    that received the packet, and in the next pass the echo of the last
    character of the packet, be it the 'a' itself. *)
Theorem relay_banner_then_echo (s : state) (cs : list Z) :
  bit_is_set (peek UEINTX 2 0 s) RXOUTI = true ->
  Z.lor (Z.shiftl (peek UEBCHX 2 0 s) 8) (peek UEBCLX 2 0 s) =
    Z.of_nat (List.length cs) ->
  Z.of_nat (List.length cs) <= 32767 ->
  next_reads UEDATX 2 cs s ->
  existsb (fun c => c =? code "a") cs = true ->
  existsb (fun c => negb (c =? code "a")) cs = true ->
  bit_is_set (peek UEINTX 1 0 s) TXINI = true ->
  bit_is_set (peek UEINTX 1 3 s) TXINI = true ->
  bit_is_set (peek UEINTX 2 3 s) RXOUTI = false ->
  let s1 := relay_polls 1 s in
  let s2 := relay_polls 2 s in
  ep_data 1 (trace s1) = (ep_data 1 (trace s) ++ [0x80; 0x00] ++ banner)%list /\
  pending_items s1 = 1%nat /\
  ep_data 1 (trace s2) =
    (ep_data 1 (trace s1) ++ [0x80; 0x00; last cs (usb_char s)])%list /\
  pending_items s2 = 0%nat.
Proof.
  intros H HN _ Hn Ha Hb Hr1 Hr2 Hno s1 s2.
  destruct (incoming_packet s cs H HN Hn) as (A & B & C & _ & _ & F & G & I).
  cbv zeta in A, B, C, F, G, I. rewrite Ha in B. rewrite Hb in C. cbn [orb] in B, C.
  set (t := handle_incoming_bytes s) in *.
  assert (Hrt : bit_is_set (peek UEINTX 1 0 t) TXINI = true)
    by (rewrite G by lia; exact Hr1).
  destruct (handle_outgoing_bytes_banner t B Hrt) as (T1 & F1 & C1 & P1).
  destruct (handle_outgoing_bytes_banner_more t B Hrt) as (U1 & I1).
  cbv zeta in T1, F1, C1, P1, U1, I1.
  assert (E1 : s1 = handle_outgoing_bytes t) by reflexivity.
  assert (D1 : ep_data 1 (trace s1) =
               (ep_data 1 (trace s) ++ [0x80; 0x00] ++ banner)%list).
  { rewrite E1, T1, F, !ep_data_app, ep_data_map_Wr. cbn [ep_data].
    now rewrite !app_nil_r. }
  split; [exact D1|]. split.
  { rewrite E1. unfold pending_items. now rewrite F1, C1, C. }
  assert (E2 : s2 = relay_poll s1) by reflexivity.
  assert (Hidle : bit_is_set (peek UEINTX 2 0 s1) RXOUTI = false).
  { rewrite E1, P1 by congruence. rewrite I. exact Hno. }
  rewrite E2. unfold relay_poll. rewrite handle_incoming_bytes_idle by exact Hidle.
  set (u := rd_next UEINTX (EP_select 2 s1)).
  assert (Uf : do_send_famous_message u = false) by (subst u; frame; now rewrite E1).
  assert (Uc : do_send_char u = true) by (subst u; frame; rewrite E1, C1; exact C).
  assert (Ur : bit_is_set (peek UEINTX 1 0 u) TXINI = true).
  { subst u. reads. rewrite E1, I1, G by lia. exact Hr2. }
  destruct (handle_outgoing_bytes_echo u Uf Uc Ur) as (T2 & F2 & C2 & _).
  cbv zeta in T2, F2, C2. split.
  - rewrite T2, ep_data_app. cbn [ep_data Z.eqb Pos.eqb].
    assert (Ut : trace u = trace s1) by (subst u; now frame).
    assert (Uu : usb_char u = last cs (usb_char s)).
    { subst u. frame. rewrite E1, U1. exact A. }
    rewrite Ut, Uu. f_equal. f_equal. f_equal. f_equal.
    apply u8_small, last_byte; [exact (next_reads_bytes _ _ _ _ Hn)|].
    intros ->. discriminate Ha.
  - unfold pending_items. now rewrite F2, C2.
Qed.

(** The packet "ba": the banner, then the echo of the 'a'. *)
Lemma relay_banner_then_echo_witness :
  let s := boot (mkHeader 0 0 0 0 0) 0
             (script [(UEINTX, 2, [4]); (UEBCLX, 2, [2]); (UEDATX, 2, [98; 97]);
                      (UEINTX, 1, [1; 1; 1; 1])] 0) in
  ep_data 1 (trace (relay_polls 1 s)) = ([0x80; 0x00] ++ banner)%list /\
  ep_data 1 (trace (relay_polls 2 s)) =
    ([0x80; 0x00] ++ banner ++ [0x80; 0x00; 97])%list.
Proof.
  intros s.
  assert (Hn : next_reads UEDATX 2 [98; 97] s).
  { intros k Hk. cbn in Hk. do 2 (destruct k as [|k]; [reflexivity|]). lia. }
  destruct (relay_banner_then_echo s [98; 97] eq_refl eq_refl ltac:(cbn; lia) Hn
              eq_refl eq_refl eq_refl eq_refl eq_refl) as (A & _ & B & _).
  split; [exact A|].
  etransitivity; [exact B|]. rewrite A. reflexivity.
Defined.

End RelayMore.

(** ** Configuring the endpoints *)

(** setupEP0 is the first half of setup_other_ep with endpoint 0 and the
    type CONTROL. *)
Lemma setupEP0_eq : setupEP0 = setup_bulk_ep 0 0.
Proof. unfold setupEP0, setup_bulk_ep. reflexivity. Qed.

(** X9: setupEP0, whichever endpoint was selected before: it selects
    endpoint 0, disables it and frees its memory, then enables it as a
    control endpoint of one 64-byte bank, five register writes in all, and
    reads the configuration status once.  It returns exactly when the
    controller reports CFGOK; otherwise it prints an exclamation mark and
    spins forever.  No variable of the program changes. *)
Theorem setupEP0_configures_endpoint_0 (s : state) :
  let o := setupEP0 s in
  let ok := bit_is_set (peek UESTA0X 0 0 s) CFGOK in
  returned o = ok /\
  (ok = false -> o = Halted (final o)) /\
  pvars (final o) = pvars s /\ UENUM (final o) = 0 /\
  trace (final o) =
    (trace s ++
     [Wr UECONX 0 (cleared (peek UECONX 0 0 s) EPEN);
      Wr UECFG1X 0 (cleared (peek UECFG1X 0 0 s) ALLOC);
      Wr UECONX 0 (raised (peek UECONX 0 1 s) EPEN);
      Wr UECFG0X 0 0;
      Wr UECFG1X 0 50] ++ (if ok then [] else [Uart "!"]))%list /\
  (forall r ep k, ep <> 0 -> peek r ep k (final o) = peek r ep k s).
Proof.
  rewrite setupEP0_eq. exact (setup_bulk_ep_spec 0 0 s eq_refl).
Qed.

Section SetConfigurationFails.
Context {K : usb_h}.

Lemma setup_other_ep_refused (s : state) :
  bit_is_set (peek UESTA0X 1 0 s) CFGOK && bit_is_set (peek UESTA0X 2 0 s) CFGOK
    = false ->
  exists st tr,
    setup_other_ep s = Halted st /\ pvars st = pvars s /\
    trace st = (trace s ++ tr ++ [Uart "!"])%list /\
    Forall (fun e => exists r n v, e = Wr r n v /\ (n = 1 \/ n = 2) /\
                                   r <> UEINTX /\ r <> UEDATX) tr.
Proof.
  intros Hbad.
  assert (Hwr : forall n a b c d e, n = 1 \/ n = 2 ->
    Forall (fun e => exists r n v, e = Wr r n v /\ (n = 1 \/ n = 2) /\
                                   r <> UEINTX /\ r <> UEDATX)
      [Wr UECONX n a; Wr UECFG1X n b; Wr UECONX n c; Wr UECFG0X n d; Wr UECFG1X n e]).
  { intros n a b c d e Hn.
    repeat (apply Forall_cons; [do 3 eexists; split; [reflexivity|];
                                split; [exact Hn|]; split; discriminate|]).
    apply Forall_nil. }
  destruct (setup_bulk_ep_spec 1 0x81 s eq_refl) as (R1 & H1 & V1 & _ & T1 & Q1).
  cbv zeta in R1, H1, V1, T1, Q1.
  unfold setup_other_ep, bind.
  destruct (bit_is_set (peek UESTA0X 1 0 s) CFGOK) eqn:B1.
  - cbn [andb] in Hbad.
    destruct (setup_bulk_ep 1 0x81 s) as [[] s1|s1|s1]; try discriminate R1.
    cbn [final] in V1, T1, Q1.
    destruct (setup_bulk_ep_spec 2 0x80 s1 eq_refl) as (R2 & H2 & V2 & _ & T2 & _).
    cbv zeta in R2, H2, V2, T2.
    rewrite Q1 in R2, H2 by discriminate. rewrite !Q1 in T2 by discriminate.
    rewrite Hbad in R2, H2, T2.
    rewrite (H2 eq_refl). cbn [app] in T1.
    exists (final (setup_bulk_ep 2 0x80 s1)).
    match type of T1 with _ = (_ ++ ?l1)%list =>
      match type of T2 with _ = (_ ++ ?l2 ++ _)%list => exists (l1 ++ l2)%list end
    end.
    split; [reflexivity|]. split; [congruence|]. split.
    + rewrite T2, T1, <- !app_assoc. reflexivity.
    + apply Forall_app. split; apply Hwr; auto.
  - rewrite (H1 eq_refl).
    exists (final (setup_bulk_ep 1 0x81 s)).
    match type of T1 with _ = (_ ++ ?l1 ++ _)%list => exists l1 end.
    split; [reflexivity|]. split; [exact V1|]. split.
    + exact T1.
    + apply Hwr. auto.
Qed.

(** X10: Set Configuration when the controller refuses a bulk endpoint: the
    configuration value is stored all the same, the program prints S, writes
    configuration registers of endpoints 1 and 2 only, prints an exclamation
    mark (putchar('1!') keeps the low byte of the two-character constant)
    and spins forever: the request is neither acknowledged nor stalled. *)
Theorem set_configuration_hangs_on_refused_endpoint (fuel : nat) (s : state) :
  NoDup switch_labels ->
  bmReqType (head s) = 0 -> bReq (head s) = usb_req_set_config ->
  bit_is_set (peek UESTA0X 1 0 s) CFGOK && bit_is_set (peek UESTA0X 2 0 s) CFGOK
    = false ->
  let o := usb_control_out fuel s in
  o = Halted (final o) /\
  USB_config (final o) = u8 (wValue (head s)) /\
  exists tr,
    trace (final o) = (trace s ++ [Uart "S"] ++ tr ++ [Uart "!"])%list /\
    Forall (fun e => exists r n v, e = Wr r n v /\ (n = 1 \/ n = 2) /\
                                   r <> UEINTX /\ r <> UEDATX) tr.
Proof.
  intros Hnd Ht Hr Hbad o.
  assert (N1 : ~ In usb_req_set_config [usb_req_set_feature; usb_req_clear_feature;
                 usb_req_get_status; usb_req_set_address; usb_req_get_desc])
    by exact (NoDup_earlier
                [usb_req_set_feature; usb_req_clear_feature; usb_req_get_status;
                 usb_req_set_address; usb_req_get_desc]
                [usb_req_get_config; usb_req_set_iface; usb_req_get_iface;
                 usb_req_set_desc; usb_req_synch_frame] usb_req_set_config Hnd).
  cbn [In] in N1.
  set (sa := set_USB_config (u8 (wValue (head s))) (putchar "S" s)).
  destruct (setup_other_ep_refused sa) as (st & tr & Eb & Vb & Tb & Fb).
  { subst sa. frame. exact Hbad. }
  assert (E1 : control_out_standard fuel s = Halted st).
  { unfold control_out_standard. cbv zeta. rewrite Hr, Ht.
    rewrite (case_of_false _ [usb_req_set_feature; usb_req_clear_feature])
      by (cbn [In]; tauto).
    rewrite (case_of_false _ [usb_req_get_status]) by (cbn [In]; tauto).
    rewrite (case_of_false _ [usb_req_set_address]) by (cbn [In]; tauto).
    rewrite (case_of_false _ [usb_req_get_desc]) by (cbn [In]; tauto).
    rewrite (case_of_true _ [usb_req_set_config]) by (cbn [In]; tauto).
    cbn [Z.eqb]. unfold bind at 1, lift at 1, bind at 1, USB_set_config.
    unfold bind at 1, lift at 1. frame. fold sa. rewrite Eb. reflexivity. }
  assert (Ho : o = Halted st).
  { subst o. unfold usb_control_out, bind at 1. now rewrite E1. }
  rewrite Ho. cbn [final]. split; [reflexivity|]. split.
  - unfold pvars in Vb. injection Vb as _ E _ _ _. rewrite E. subst sa. now frame.
  - exists tr. split; [|exact Fb].
    rewrite Tb. subst sa. frame. rewrite trace_putchar, <- !app_assoc. reflexivity.
Qed.

End SetConfigurationFails.

(** Set Configuration 1 with a controller that refuses endpoint 1: the
    value 1 is stored, S and ! are printed, and the program hangs. *)
Lemma set_configuration_hangs_on_refused_endpoint_witness :
  let s := boot (mkHeader 0 9 1 0 0) 0 (script [] 0) in
  let o := usb_control_out (K := usb11) 3 s in
  returned o = false /\ USB_config (final o) = 1.
Proof.
  intros s o.
  assert (Hnd : NoDup (switch_labels (K := usb11))).
  { unfold switch_labels. cbn.
    repeat (apply NoDup_cons; [cbn; intuition discriminate|]). apply NoDup_nil. }
  destruct (set_configuration_hangs_on_refused_endpoint (K := usb11) 3 s Hnd
              eq_refl eq_refl eq_refl) as (E & C & _).
  fold o in E, C. split; [rewrite E; reflexivity|exact C].
Defined.

(** ** Set Address *)

Lemma lor_high_bit (x : Z) : 0 <= x < 128 -> Z.lor 128 x = 128 + x.
Proof.
  intros Hx.
  assert (E : Z.land 128 x = 0).
  { apply Z.bits_inj'. intros n Hn. rewrite Z.land_spec, Z.bits_0.
    destruct (Z.eq_dec n 7) as [->|Hne].
    - rewrite <- (Z.mod_small x (2 ^ 7)) by (change (2 ^ 7) with 128; lia).
      rewrite Z.mod_pow2_bits_high by lia. apply andb_false_r.
    - change 128 with (2 ^ 7). rewrite Z.pow2_bits_false by lia. reflexivity. }
  rewrite <- Z.lxor_lor by exact E. symmetry. now apply Z.add_nocarry_lxor.
Qed.

(** A polling loop whose bit never comes up runs out of any fuel. *)
Lemma loop_until_bit_is_set_stuck (fuel : nat) (r : reg) (bit : Z) : forall s : state,
  (forall k, bit_is_set (peek r (UENUM s) k s) bit = false) ->
  returned (loop_until_bit_is_set fuel r bit s) = false.
Proof.
  induction fuel as [|fuel IH]; intros s H; cbn [loop_until_bit_is_set].
  - reflexivity.
  - unfold rd. cbv beta iota zeta. rewrite bit_is_clear_negb, H. cbn [negb].
    apply IH. intros k. frame. rewrite peek_rd_next_same by reflexivity. apply H.
Qed.

Section SetAddress.
Context {K : usb_h}.

(** The Set Address branch of usb_control_out, up to its polling loop. *)
Lemma set_address_unfold (fuel : nat) (s : state) :
  NoDup switch_labels ->
  bmReqType (head s) = USB_REQ_TYPE_OUT -> bReq (head s) = usb_req_set_address ->
  let w := wValue (head s) in
  let s3 := clear_bit UEINTX TXINI (wr UDADDR (Z.land w 0x7f) (putchar "A" s)) in
  usb_control_out fuel s =
    match loop_until_bit_is_set fuel UEINTX TXINI s3 with
    | Ret _ s4 =>
        Ret tt (putchar "a" (clear_bit UEINTX TXINI
                  (wr UDADDR (Z.lor (_BV ADDEN) (Z.land w 0x7f)) s4)))
    | Busy s4 => Busy s4
    | Halted s4 => Halted s4
    end.
Proof.
  intros Hnd Ht Hr w s3.
  assert (N1 : ~ In usb_req_set_address [usb_req_set_feature; usb_req_clear_feature;
                 usb_req_get_status])
    by exact (NoDup_earlier
                [usb_req_set_feature; usb_req_clear_feature; usb_req_get_status]
                [usb_req_get_desc; usb_req_set_config;
                 usb_req_get_config; usb_req_set_iface; usb_req_get_iface;
                 usb_req_set_desc; usb_req_synch_frame] usb_req_set_address Hnd).
  cbn [In] in N1.
  unfold usb_control_out, bind at 1.
  unfold control_out_standard. cbv zeta. rewrite Hr, Ht.
  rewrite (case_of_false _ [usb_req_set_feature; usb_req_clear_feature])
    by (cbn [In]; tauto).
  rewrite (case_of_false _ [usb_req_get_status]) by (cbn [In]; tauto).
  rewrite (case_of_true _ [usb_req_set_address]) by (cbn [In]; tauto).
  rewrite Z.eqb_refl.
  unfold bind at 1, lift at 1. unfold bind at 1, USB_set_address.
  unfold bind at 1, lift at 1. unfold bind at 1, lift at 1. unfold bind at 1.
  frame. fold w. fold s3.
  destruct (loop_until_bit_is_set fuel UEINTX TXINI s3) as [[] s4|s4|s4];
    reflexivity.
Qed.

(** X11: Set Address, once the controller has sent the zero-length reply:
    the program prints A, writes the 7-bit address wValue mod 128 to UDADDR
    without the enable bit, releases the reply by clearing TXINI, waits for
    TXINI to come back, writes the address again with the enable bit ADDEN
    (128) added, clears TXINI once more and prints a.  It returns at once:
    no status handling follows, no stall, no letter C or F, and no variable
    changes. *)
Theorem set_address_sequence (fuel : nat) (s : state) :
  NoDup switch_labels ->
  bmReqType (head s) = USB_REQ_TYPE_OUT -> bReq (head s) = usb_req_set_address ->
  (exists k, (k < fuel)%nat /\
             bit_is_set (peek UEINTX (UENUM s) (S k) s) TXINI = true) ->
  let a := wValue (head s) mod 128 in
  exists s' v1 v2,
    usb_control_out fuel s = Ret tt s' /\
    trace s' =
      (trace s ++
       [Uart "A"; Wr UDADDR (UENUM s) a; Wr UEINTX (UENUM s) v1;
        Wr UDADDR (UENUM s) (128 + a); Wr UEINTX (UENUM s) v2; Uart "a"])%list /\
    bit_is_set v1 TXINI = false /\ bit_is_set v2 TXINI = false /\
    pvars s' = pvars s /\ UENUM s' = UENUM s.
Proof.
  intros Hnd Ht Hr (k & Hk & Hb) a.
  rewrite set_address_unfold by assumption. cbv zeta.
  set (w := wValue (head s)) in *.
  assert (Ha : 0 <= a < 128) by (subst a; apply Z.mod_pos_bound; lia).
  assert (Ea : Z.land w 0x7f = a).
  { subst a. change 0x7f with (Z.ones 7). now rewrite Z.land_ones by lia. }
  rewrite Ea. change (_BV ADDEN) with 128. rewrite lor_high_bit by exact Ha.
  set (s3 := clear_bit UEINTX TXINI (wr UDADDR a (putchar "A" s))).
  assert (U3 : UENUM s3 = UENUM s) by (subst s3; now frame).
  assert (T3 : trace s3 =
    (trace s ++ [Uart "A"; Wr UDADDR (UENUM s) a;
                 Wr UEINTX (UENUM s) (cleared (peek UEINTX (UENUM s) 0 s) TXINI)])%list).
  { subst s3. rewrite trace_clear_bit, trace_wr, trace_putchar. frame.
    rewrite (u8_small a) by lia. rewrite <- !app_assoc. reflexivity. }
  destruct (loop_until_bit_is_set_spec fuel UEINTX TXINI s3) as (A & B & C & _ & E).
  cbv zeta in A, B, C, E.
  destruct (E k Hk) as [s4 Hs4].
  { rewrite U3. subst s3. frame. rewrite peek_rd_next_same by now frame.
    frame. exact Hb. }
  rewrite Hs4 in A, B, C |- *. cbn [final] in A, B, C.
  eexists. eexists. eexists. split; [reflexivity|].
  split; [|split; [|split; [|split]]].
  - rewrite trace_putchar, trace_clear_bit, trace_wr. frame.
    rewrite A, C, T3, U3, (u8_small (128 + a)) by lia.
    rewrite <- !app_assoc. reflexivity.
  - apply cleared_bit. unfold TXINI. lia.
  - apply cleared_bit. unfold TXINI. lia.
  - frame. rewrite B. subst s3. now frame.
  - frame. rewrite C. exact U3.
Qed.

(** X12: Set Address with a controller that never reports the reply sent:
    the program waits forever.  Whatever the fuel, it has not returned, and
    all it did is print A, write the address without the enable bit and
    clear TXINI once: the address is never enabled. *)
Theorem set_address_waits_for_the_reply (fuel : nat) (s : state) :
  NoDup switch_labels ->
  bmReqType (head s) = USB_REQ_TYPE_OUT -> bReq (head s) = usb_req_set_address ->
  (forall k, bit_is_set (peek UEINTX (UENUM s) (S k) s) TXINI = false) ->
  let o := usb_control_out fuel s in
  returned o = false /\
  trace (final o) =
    (trace s ++
     [Uart "A"; Wr UDADDR (UENUM s) (wValue (head s) mod 128);
      Wr UEINTX (UENUM s) (cleared (peek UEINTX (UENUM s) 0 s) TXINI)])%list.
Proof.
  intros Hnd Ht Hr Hb o. subst o.
  rewrite set_address_unfold by assumption. cbv zeta.
  set (a := wValue (head s) mod 128).
  assert (Ha : 0 <= a < 128) by (subst a; apply Z.mod_pos_bound; lia).
  assert (Ea : Z.land (wValue (head s)) 0x7f = a).
  { subst a. change 0x7f with (Z.ones 7). now rewrite Z.land_ones by lia. }
  rewrite Ea.
  set (s3 := clear_bit UEINTX TXINI (wr UDADDR a (putchar "A" s))).
  assert (U3 : UENUM s3 = UENUM s) by (subst s3; now frame).
  assert (T3 : trace s3 =
    (trace s ++ [Uart "A"; Wr UDADDR (UENUM s) a;
                 Wr UEINTX (UENUM s) (cleared (peek UEINTX (UENUM s) 0 s) TXINI)])%list).
  { subst s3. rewrite trace_clear_bit, trace_wr, trace_putchar. frame.
    rewrite (u8_small a) by lia. rewrite <- !app_assoc. reflexivity. }
  destruct (loop_until_bit_is_set_spec fuel UEINTX TXINI s3) as (A & _).
  cbv zeta in A.
  assert (S3 : returned (loop_until_bit_is_set fuel UEINTX TXINI s3) = false).
  { apply loop_until_bit_is_set_stuck. intros k. rewrite U3. subst s3. frame.
    rewrite peek_rd_next_same by now frame. frame. apply Hb. }
  destruct (loop_until_bit_is_set fuel UEINTX TXINI s3) as [[] s4|s4|s4];
    cbn [returned final] in *; try discriminate S3;
    (split; [reflexivity|]); rewrite A; exact T3.
Qed.

End SetAddress.

Lemma usb11_labels : NoDup (switch_labels (K := usb11)).
Proof.
  unfold switch_labels. cbn.
  repeat (apply NoDup_cons; [cbn; intuition discriminate|]). apply NoDup_nil.
Qed.

(** Set Address 5 with the reply sent at the second poll: address register
    5, then 133. *)
Lemma set_address_sequence_witness :
  let s := boot (mkHeader 0 5 5 0 0) 0 (script [(UEINTX, 0, [1; 0; 1; 1])] 0) in
  exists s' v1 v2,
    usb_control_out (K := usb11) 3 s = Ret tt s' /\
    trace s' =
      [Uart "A"; Wr UDADDR 0 5; Wr UEINTX 0 v1;
       Wr UDADDR 0 133; Wr UEINTX 0 v2; Uart "a"].
Proof.
  intros s.
  destruct (set_address_sequence (K := usb11) 3 s usb11_labels eq_refl eq_refl)
    as (s' & v1 & v2 & E & T & _).
  - exists 1%nat. split; [lia|reflexivity].
  - exists s', v1, v2. split; [exact E|exact T].
Defined.

(** Set Address 5 with a controller whose TXINI stays down. *)
Lemma set_address_waits_for_the_reply_witness :
  let s := boot (mkHeader 0 5 5 0 0) 0 (script [] 0) in
  returned (usb_control_out (K := usb11) 1000 s) = false.
Proof.
  intros s.
  exact (proj1 (set_address_waits_for_the_reply (K := usb11) 1000 s usb11_labels
                  eq_refl eq_refl (fun k => eq_refl))).
Defined.

(** ** Get Status and Get Descriptor *)

Section StandardIn.
Context {K : usb_h}.

(** Wait for the endpoint, write a 16-bit zero, send the packet. *)
Lemma answer_status (fuel : nat) (s : state) (k : nat) :
  (k < fuel)%nat -> bit_is_set (peek UEINTX (UENUM s) k s) TXINI = true ->
  exists s',
    (loop_until_bit_is_set fuel UEINTX TXINI ;;
     lift (EP_write16_le 0) ;;
     lift (clear_bit UEINTX TXINI) ;;
     ret 1) s = Ret 1 s' /\
    pvars s' = pvars s /\ UENUM s' = UENUM s /\
    ep_data (UENUM s) (trace s') = (ep_data (UENUM s) (trace s) ++ [0; 0])%list.
Proof.
  intros Hk Hb.
  destruct (loop_until_bit_is_set_spec fuel UEINTX TXINI s) as (A & B & C & _ & E).
  cbv zeta in A, B, C, E. destruct (E k Hk Hb) as [s1 Hs1].
  rewrite Hs1 in A, B, C. cbn [final] in A, B, C.
  exists (clear_bit UEINTX TXINI (EP_write16_le 0 s1)).
  split; [unfold bind at 1; rewrite Hs1; reflexivity|].
  unfold EP_write16_le. cbv zeta. frame. split; [exact B|]. split; [exact C|].
  rewrite trace_clear_bit, !trace_wr. frame. rewrite !ep_data_app, A, C.
  cbn [ep_data]. now rewrite Z.eqb_refl, app_nil_r, <- app_assoc.
Qed.

(** X13: Get Status addressed to the device, an interface or an endpoint,
    once the control endpoint shows transmit-ready: the answer is the two
    bytes 0x00 0x00 whatever the recipient and whatever the state of the
    device; no other data byte is written. *)
Theorem get_status_answers_zero (fuel : nat) (s : state) :
  NoDup switch_labels ->
  bReq (head s) = usb_req_get_status ->
  In (bmReqType (head s))
     [USB_REQ_TYPE_IN; Z.lor USB_REQ_TYPE_IN USB_REQ_TYPE_INTERFACE;
      Z.lor USB_REQ_TYPE_IN USB_REQ_TYPE_ENDPOINT] ->
  bmReqType (head s) <> Z.lor USB_REQ_TYPE_IN USB_REQ_TYPE_VENDOR ->
  (exists k, (k < fuel)%nat /\
             bit_is_set (peek UEINTX (UENUM s) k s) TXINI = true) ->
  ep_data (UENUM s) (trace (final (usb_control_in fuel s))) =
    (ep_data (UENUM s) (trace s) ++ [0; 0])%list.
Proof.
  intros Hnd Hr Ht Hv (k & Hk & Hb).
  assert (N1 : ~ In usb_req_get_status [usb_req_set_feature; usb_req_clear_feature])
    by exact (NoDup_earlier
                [usb_req_set_feature; usb_req_clear_feature]
                [usb_req_set_address; usb_req_get_desc; usb_req_set_config;
                 usb_req_get_config; usb_req_set_iface; usb_req_get_iface;
                 usb_req_set_desc; usb_req_synch_frame] usb_req_get_status Hnd).
  cbn [In] in N1.
  destruct (answer_status fuel s k Hk Hb) as (s1 & E & V & U & D).
  assert (E1 : control_in_standard fuel s = Ret 1 s1).
  { unfold control_in_standard. cbv zeta. rewrite Hr.
    rewrite (case_of_false _ [usb_req_set_feature; usb_req_clear_feature])
      by (cbn [In]; tauto).
    rewrite (case_of_true _ [usb_req_get_status]) by (cbn [In]; tauto).
    rewrite (case_of_true _ [USB_REQ_TYPE_IN; _; _]) by exact Ht.
    exact E. }
  assert (E2 : control_in_vendor fuel 1 s1 = Ret 1 s1).
  { unfold control_in_vendor. cbv zeta.
    assert (Eh : head s1 = head s) by (unfold pvars in V; now injection V).
    rewrite Eh. now rewrite (proj2 (Z.eqb_neq _ _) Hv). }
  now rewrite (usb_control_in_data fuel s s1 s1 1 1 _ E1 E2).
Qed.

(** The first switch of usb_control_in on Get Descriptor of type 0x80. *)
Lemma control_in_standard_get_desc (fuel : nat) (s : state) :
  NoDup switch_labels ->
  bReq (head s) = usb_req_get_desc -> bmReqType (head s) = 0x80 ->
  control_in_standard fuel s = USB_get_desc fuel s.
Proof.
  intros Hnd Hr Ht.
  assert (N1 : ~ In usb_req_get_desc [usb_req_set_feature; usb_req_clear_feature;
                 usb_req_get_status; usb_req_set_address])
    by exact (NoDup_earlier
                [usb_req_set_feature; usb_req_clear_feature; usb_req_get_status;
                 usb_req_set_address]
                [usb_req_set_config;
                 usb_req_get_config; usb_req_set_iface; usb_req_get_iface;
                 usb_req_set_desc; usb_req_synch_frame] usb_req_get_desc Hnd).
  cbn [In] in N1.
  unfold control_in_standard. cbv zeta. rewrite Hr, Ht.
  rewrite (case_of_false _ [usb_req_set_feature; usb_req_clear_feature])
    by (cbn [In]; tauto).
  rewrite (case_of_false _ [usb_req_get_status]) by (cbn [In]; tauto).
  rewrite (case_of_false _ [usb_req_set_address]) by (cbn [In]; tauto).
  rewrite (case_of_true _ [usb_req_get_desc]) by (cbn [In]; tauto).
  reflexivity.
Qed.

(** A Get Descriptor request that USB_get_desc answers with 0 in state
    [s1], having written no data, ends in a stall. *)
Lemma get_desc_refused (fuel : nat) (s s1 : state) :
  NoDup switch_labels ->
  bReq (head s) = usb_req_get_desc -> bmReqType (head s) = 0x80 ->
  0x80 <> Z.lor USB_REQ_TYPE_IN USB_REQ_TYPE_VENDOR ->
  USB_get_desc fuel s = Ret 0 s1 -> head s1 = head s ->
  usb_control_in fuel s = Ret tt (putchar "F" (set_bit UECONX STALLRQ s1)).
Proof.
  intros Hnd Hr Ht Hv E Hh.
  unfold usb_control_in, bind at 1.
  rewrite control_in_standard_get_desc, E by assumption.
  unfold bind at 1, control_in_vendor. cbv zeta. rewrite Hh, Ht.
  rewrite (proj2 (Z.eqb_neq _ _) Hv). apply control_complete_fail.
Qed.

(** X14: Get Descriptor for anything but the device descriptor, the
    configuration descriptor and the strings 0 to 2 -- another descriptor
    type, a device or configuration index other than 0, a string index above
    2 -- is refused at once: no register is read, no data is written, and
    the request ends with the stall request on the control endpoint and the
    letter F. *)
Theorem get_descriptor_unknown_stalls (fuel : nat) (s : state) :
  NoDup switch_labels ->
  bReq (head s) = usb_req_get_desc -> bmReqType (head s) = 0x80 ->
  0x80 <> Z.lor USB_REQ_TYPE_IN USB_REQ_TYPE_VENDOR ->
  ~ (exists addr len, descriptor_requested (head s) addr len) ->
  exists s',
    usb_control_in fuel s = Ret tt s' /\
    trace s' = (trace s ++ stall_events s)%list /\
    pvars s' = pvars s /\
    (forall ep, ep_data ep (trace s') = ep_data ep (trace s)).
Proof.
  intros Hnd Hr Ht Hv Hno.
  assert (E : USB_get_desc fuel s = Ret 0 s).
  { unfold USB_get_desc.
    destruct (USB_get_desc_select (head s)) as [[addr len]|] eqn:S; [|reflexivity].
    elim Hno. exists addr, len. now apply USB_get_desc_select_requested. }
  eexists. split; [exact (get_desc_refused fuel s s Hnd Hr Ht Hv E eq_refl)|].
  split; [apply trace_stall|]. split; [now frame|].
  intros ep. now rewrite trace_stall, ep_data_app, ep_data_stall_events, app_nil_r.
Qed.

(** X15: Get Descriptor overtaken by a new SETUP: when the flag register
    shows RXSTPI at the first poll, ctrl_write_PM gives up before writing a
    byte, USB_get_desc reports failure, and the request ends with the stall
    request and the letter F.  RXSTPI is not cleared, so the new SETUP is
    still pending for the next turn of the main loop. *)
Theorem get_descriptor_aborted_by_setup (fuel : nat) (s : state)
    (addr : list Z) (len : Z) :
  NoDup switch_labels ->
  bReq (head s) = usb_req_get_desc -> bmReqType (head s) = 0x80 ->
  0x80 <> Z.lor USB_REQ_TYPE_IN USB_REQ_TYPE_VENDOR ->
  USB_get_desc_select (head s) = Some (addr, len) ->
  0 < wLength (head s) ->
  peek UEBCLX (UENUM s) 0 s <= EP0_SIZE ->
  bit_is_set (peek UEINTX (UENUM s) 0 s) RXSTPI = true ->
  exists s',
    usb_control_in (S fuel) s = Ret tt s' /\
    trace s' =
      (trace s ++ [Wr UECONX (UENUM s) (raised (peek UECONX (UENUM s) 0 s) STALLRQ);
                   Uart "F"])%list /\
    pvars s' = pvars s.
Proof.
  intros Hnd Hr Ht Hv Hsel Hw Hb Hstp.
  set (s2 := rd_next UEINTX (rd_next UEBCLX s)).
  assert (Hlen : 0 < len).
  { destruct (USB_get_desc_select_requested _ _ _ Hsel)
      as [(_ & _ & _ & ->)|[(_ & _ & _ & ->)|
          (_ & [(_ & _ & ->)|[(_ & _ & ->)|(_ & _ & ->)]])]]; lia. }
  destruct (USB_get_desc_select_ok _ _ _ Hsel) as (_ & Hlt & _).
  assert (E : USB_get_desc (S fuel) s = Ret 0 s2).
  { unfold USB_get_desc. rewrite Hsel.
    set (len' := if len >? wLength (head s) then u8 (wLength (head s)) else len).
    assert (Hl' : len' <> 0).
    { subst len'. destruct (len >? wLength (head s)) eqn:G; [|lia].
      apply Z.gtb_lt in G. rewrite u8_small by lia. lia. }
    unfold bind at 1. rewrite ctrl_write_PM_round by exact Hl'. cbv zeta.
    rewrite (proj2 (Z.geb_le _ _) Hb), Hstp. reflexivity. }
  eexists. split; [apply (get_desc_refused (S fuel) s s2 Hnd Hr Ht Hv E)|].
  - subst s2. now frame.
  - split; [|subst s2; now frame].
    rewrite trace_putchar, trace_set_bit. subst s2. frame.
    rewrite !peek_rd_next_other by (frame; congruence).
    rewrite <- app_assoc. reflexivity.
Qed.

End StandardIn.

(** Get Status of an endpoint, the controller ready. *)
Lemma get_status_answers_zero_witness :
  let s := boot (mkHeader 0x82 0 0 1 2) 0 (script [] 255) in
  ep_data 0 (trace (final (usb_control_in (K := usb11) 3 s))) = [0; 0].
Proof.
  intros s.
  refine (get_status_answers_zero (K := usb11) 3 s usb11_labels eq_refl _ _ _).
  - cbn. auto.
  - cbn. discriminate.
  - exists 0%nat. split; [lia|reflexivity].
Defined.

(** Get Descriptor for string 3, which the device does not have. *)
Lemma get_descriptor_unknown_stalls_witness :
  let s := boot (mkHeader 0x80 6 0x0303 0x0409 255) 0 (script [] 1) in
  exists s',
    usb_control_in (K := usb11) 3 s = Ret tt s' /\
    trace s' = [Wr UECONX 0 33; Uart "F"].
Proof.
  intros s.
  destruct (get_descriptor_unknown_stalls (K := usb11) 3 s usb11_labels
              eq_refl eq_refl) as (s' & E & T & _).
  - cbn. discriminate.
  - intros (addr & len & H). unfold descriptor_requested in H. cbn in H.
    intuition discriminate.
  - exists s'. split; [exact E|exact T].
Defined.

(** Get Descriptor, device, with RXSTPI (bit 3) up at the first poll. *)
Lemma get_descriptor_aborted_by_setup_witness :
  let s := boot (mkHeader 0x80 6 0x0100 0 18) 0 (script [(UEINTX, 0, [9])] 0) in
  exists s',
    usb_control_in (K := usb11) 3 s = Ret tt s' /\
    trace s' = [Wr UECONX 0 32; Uart "F"].
Proof.
  intros s.
  destruct (get_descriptor_aborted_by_setup (K := usb11) 2 s
              (devdesc (K := usb11)) 18 usb11_labels eq_refl eq_refl)
    as (s' & E & T & _).
  - cbn. discriminate.
  - reflexivity.
  - cbn. lia.
  - vm_compute. discriminate.
  - reflexivity.
  - exists s'. split; [exact E|exact T].
Defined.

(** ** The status stage of a control read *)

Lemma status_mask (v : Z) :
  (Z.land v (Z.lor (_BV RXSTPI) (_BV RXOUTI)) =? 0) =
  negb (bit_is_set v RXSTPI || bit_is_set v RXOUTI).
Proof.
  unfold bit_is_set. rewrite Z.land_lor_distr_r.
  destruct (Z.land v (_BV RXSTPI) =? 0) eqn:A;
    destruct (Z.land v (_BV RXOUTI) =? 0) eqn:B; cbn [negb orb].
  - apply Z.eqb_eq in A, B. rewrite A, B. reflexivity.
  - apply Z.eqb_neq. intros E. apply Z.lor_eq_0_iff in E.
    apply Z.eqb_neq in B. tauto.
  - apply Z.eqb_neq. intros E. apply Z.lor_eq_0_iff in E.
    apply Z.eqb_neq in A. tauto.
  - apply Z.eqb_neq. intros E. apply Z.lor_eq_0_iff in E.
    apply Z.eqb_neq in A. tauto.
Qed.

(** The 8-bit [ok] that the status wait computes from the flags it read. *)
Lemma status_ok (v : Z) :
  (u8 (Z.land v (_BV RXOUTI)) =? 0) = negb (bit_is_set v RXOUTI).
Proof.
  unfold bit_is_set, u8. rewrite negb_involutive.
  change 256 with (2 ^ 8). rewrite <- Z.land_ones by lia.
  rewrite <- Z.land_assoc. reflexivity.
Qed.

(** The status wait returns the first flags that show RXSTPI or RXOUTI. *)
Lemma wait_status_returns (fuel : nat) : forall (s : state) (k : nat),
  (k < fuel)%nat ->
  (forall j, (j < k)%nat ->
     bit_is_set (peek UEINTX (UENUM s) j s) RXSTPI = false /\
     bit_is_set (peek UEINTX (UENUM s) j s) RXOUTI = false) ->
  bit_is_set (peek UEINTX (UENUM s) k s) RXSTPI = true \/
  bit_is_set (peek UEINTX (UENUM s) k s) RXOUTI = true ->
  exists s',
    wait_status fuel s = Ret (peek UEINTX (UENUM s) k s) s' /\
    trace s' = trace s /\ pvars s' = pvars s /\ UENUM s' = UENUM s /\
    (forall j, peek UEINTX (UENUM s) j s' = peek UEINTX (UENUM s) (S k + j) s) /\
    (forall r ep j, (r, ep) <> (UEINTX, UENUM s) -> peek r ep j s' = peek r ep j s).
Proof.
  induction fuel as [|fuel IH]; intros s k Hk Hlow Hup; [lia|].
  cbn [wait_status]. unfold rd. cbv beta iota zeta. rewrite status_mask.
  destruct k as [|k].
  - assert (E : bit_is_set (peek UEINTX (UENUM s) 0 s) RXSTPI
                || bit_is_set (peek UEINTX (UENUM s) 0 s) RXOUTI = true)
      by (apply orb_true_iff; exact Hup).
    rewrite E. cbn [negb]. eexists. split; [reflexivity|]. frame.
    split; [reflexivity|]. split; [reflexivity|]. split; [reflexivity|]. split.
    + intros j. now rewrite peek_rd_next_same.
    + intros r ep j Hne. now rewrite peek_rd_next_other.
  - destruct (Hlow 0%nat ltac:(lia)) as [A B]. rewrite A, B. cbn [orb negb].
    destruct (IH (rd_next UEINTX s) k ltac:(lia)) as (s' & E & T & V & U & P & Q).
    + intros j Hj. frame. rewrite peek_rd_next_same by reflexivity.
      apply Hlow. lia.
    + frame. rewrite peek_rd_next_same by reflexivity. exact Hup.
    + revert E T V U P Q. frame. rewrite peek_rd_next_same by reflexivity.
      intros E T V U P Q.
      exists s'. split; [exact E|]. split; [exact T|]. split; [exact V|].
      split; [exact U|]. split.
      * intros j. rewrite P, peek_rd_next_same by reflexivity. reflexivity.
      * intros r ep j Hne. rewrite Q by exact Hne. now rewrite peek_rd_next_other.
Qed.

Section StatusStage.
Context {K : usb_h}.

(** X16: the end of an accepted control read.  The program polls the flag
    register until RXOUTI or RXSTPI shows.  If RXOUTI shows, the host's
    status packet, it clears RXOUTI, then TXINI, and prints C.  If only
    RXSTPI shows, a new SETUP in place of the status, it requests a stall,
    prints S and C, and leaves the flag register alone, so the new SETUP is
    still pending. *)
Theorem control_read_status_stage (fuel : nat) (ok : Z) (s : state) (k : nat) :
  ok <> 0 ->
  Z.land (bmReqType (head s)) ReqType_DirD2H <> 0 ->
  (k < fuel)%nat ->
  (forall j, (j < k)%nat ->
     bit_is_set (peek UEINTX (UENUM s) j s) RXSTPI = false /\
     bit_is_set (peek UEINTX (UENUM s) j s) RXOUTI = false) ->
  bit_is_set (peek UEINTX (UENUM s) k s) RXSTPI = true \/
  bit_is_set (peek UEINTX (UENUM s) k s) RXOUTI = true ->
  exists s',
    control_complete fuel ok s = Ret tt s' /\ pvars s' = pvars s /\
    trace s' =
      (trace s ++
       if bit_is_set (peek UEINTX (UENUM s) k s) RXOUTI
       then [Wr UEINTX (UENUM s) (cleared (peek UEINTX (UENUM s) (1 + k) s) RXOUTI);
             Wr UEINTX (UENUM s) (cleared (peek UEINTX (UENUM s) (2 + k) s) TXINI);
             Uart "C"]
       else [Wr UECONX (UENUM s) (raised (peek UECONX (UENUM s) 0 s) STALLRQ);
             Uart "S"; Uart "C"])%list.
Proof.
  intros Hok Hd Hk Hlow Hup.
  destruct (wait_status_returns fuel s k Hk Hlow Hup) as (s1 & E & T & V & U & P & Q).
  unfold control_complete.
  rewrite (proj2 (Z.eqb_neq _ _) Hok), (proj2 (Z.eqb_neq _ _) Hd). cbn [negb].
  unfold bind at 1 2. rewrite E. rewrite status_ok.
  destruct (bit_is_set (peek UEINTX (UENUM s) k s) RXOUTI); cbn [negb].
  - eexists. split; [reflexivity|]. frame. split; [exact V|].
    rewrite trace_putchar, !trace_clear_bit. frame.
    rewrite peek_rd_next_same by reflexivity.
    rewrite T, U, !P, <- !app_assoc.
    replace (S k + 0)%nat with (1 + k)%nat by lia.
    replace (S k + 1)%nat with (2 + k)%nat by lia. reflexivity.
  - eexists. split; [reflexivity|]. frame. split; [exact V|].
    rewrite !trace_putchar, trace_set_bit. frame.
    rewrite T, U, Q by congruence. rewrite <- !app_assoc. reflexivity.
Qed.

End StatusStage.

(** A control read whose status stage is overtaken by a SETUP (RXSTPI is
    bit 3) at the third poll: stall request, S, C. *)
Lemma control_read_status_stage_witness :
  let s := boot (mkHeader 0x80 8 0 0 1) 0 (script [(UEINTX, 0, [1; 1; 9])] 0) in
  exists s',
    control_complete (K := usb11) 5 1 s = Ret tt s' /\
    trace s' = [Wr UECONX 0 32; Uart "S"; Uart "C"].
Proof.
  intros s.
  destruct (control_read_status_stage (K := usb11) 5 1 s 2) as (s' & E & _ & T).
  - discriminate.
  - cbn. discriminate.
  - lia.
  - intros j Hj. destruct j as [|[|j]]; [split; reflexivity|split; reflexivity|lia].
  - left. reflexivity.
  - exists s'. split; [exact E|exact T].
Defined.

(** ** Packets of a control transfer *)

(** X17: ctrl_write_PM cuts a transfer into packets of the endpoint size.
    With the control endpoint ready for every packet, its bank empty and
    the host quiet, the function returns 0, and what it did is, packet
    after packet, write the data bytes and clear TXINI: the packets
    together are the first [len] bytes of the flash object, every packet
    but the last holds EP0_SIZE = 64 bytes, the last holds between 1 and 64,
    and for a length of 0 there is no packet at all.  In particular no
    zero-length packet follows a transfer whose length is a multiple of
    64. *)
Theorem ctrl_write_PM_packets (fuel : nat) :
  forall (addr : list Z) (len : Z) (s : state),
  0 <= len <= Z.of_nat (List.length addr) ->
  (Z.to_nat len <= fuel)%nat ->
  ep_ready s ->
  (forall k, peek UEBCLX (UENUM s) k s = 0) ->
  exists s' ps tr,
    ctrl_write_PM fuel addr len s = Ret 0 s' /\
    trace s' = (trace s ++ tr)%list /\
    packet_trace (UENUM s) ps tr /\
    List.concat ps = map u8 (firstn (Z.to_nat len) addr) /\
    full_but_last (Z.to_nat EP0_SIZE) ps /\
    (len = 0 -> ps = []).
Proof.
  induction fuel as [|fuel IH]; intros addr len s Hlen Hfuel Hr Hz;
    destruct (Z.eq_dec len 0) as [E|E].
  1, 3: subst len; exists s, [], []; cbn [ctrl_write_PM Z.eqb Z.to_nat firstn map List.concat];
        rewrite app_nil_r;
        (split; [reflexivity|]); (split; [reflexivity|]);
        (split; [constructor|]); (split; [reflexivity|]); split; [exact I|reflexivity].
  - lia.
  - rewrite ctrl_write_PM_round by exact E. cbv zeta.
    destruct (Hr 0%nat) as (Htx & Hstp & Hout & _).
    rewrite (Hz 0%nat). change (EP0_SIZE >=? 0) with true. cbv iota.
    rewrite Hstp, Hout, bit_is_clear_negb, Htx. cbn [negb].
    change (EP0_SIZE - 0) with 64.
    set (ntx := if 64 >? len then len else 64).
    assert (Hntx : 0 < ntx <= len /\ ntx <= 64 /\ (ntx < len -> ntx = 64)).
    { subst ntx. destruct (64 >? len) eqn:G; [apply Z.gtb_lt in G; lia|].
      rewrite Z.gtb_ltb in G. apply Z.ltb_ge in G. lia. }
    assert (G2 : (ntx >? 0) = true) by (apply Z.gtb_lt; lia).
    rewrite G2.
    set (s2 := rd_next UEINTX (rd_next UEBCLX s)).
    assert (Hfit : (Z.to_nat ntx <= List.length addr)%nat) by lia.
    destruct (ctrl_write_chunk_spec (Z.to_nat ntx) addr s2 Hfit)
      as (Ca & Cv & Cu & Cs & Ct).
    cbv zeta in Ca, Cv, Cu, Cs, Ct.
    destruct (ctrl_write_chunk (Z.to_nat ntx) addr s2) as [addr' s3].
    cbn [fst snd] in Ca, Cv, Cu, Cs, Ct |- *. subst addr'.
    assert (Hu2 : UENUM s2 = UENUM s) by (subst s2; now frame).
    assert (Ht2 : trace s2 = trace s) by (subst s2; now frame).
    set (s4 := clear_bit UEINTX TXINI s3).
    assert (Hu4 : UENUM s4 = UENUM s) by (subst s4; frame; congruence).
    assert (Hr4 : ep_ready s4).
    { revert Hr. apply ep_ready_shift.
      * exact Hu4.
      * intros k. exists (S (S k)). subst s4. frame.
        rewrite peek_rd_next_same by congruence.
        unfold peek. rewrite Cs. fold (peek UEINTX (UENUM s) (S k) s2).
        subst s2. rewrite peek_rd_next_same by now frame.
        rewrite peek_rd_next_other; [reflexivity|congruence].
      * intros k. exists (S k). subst s4. frame.
        rewrite peek_rd_next_other by congruence.
        unfold peek. rewrite Cs. fold (peek UEBCLX (UENUM s) k s2).
        subst s2. rewrite peek_rd_next_other by congruence.
        rewrite peek_rd_next_same; reflexivity. }
    assert (Hz4 : forall k, peek UEBCLX (UENUM s4) k s4 = 0).
    { intros k. rewrite Hu4. subst s4. frame.
      rewrite peek_rd_next_other by congruence.
      unfold peek. rewrite Cs. fold (peek UEBCLX (UENUM s) k s2).
      subst s2. rewrite peek_rd_next_other by congruence.
      rewrite peek_rd_next_same by reflexivity. apply Hz. }
    destruct (IH (skipn (Z.to_nat ntx) addr) (len - ntx) s4)
      as (s' & ps & tr & Er & Tr & Pr & Cr & Fr & Nr);
      [rewrite length_skipn; lia|lia|exact Hr4|exact Hz4|].
    set (p := map u8 (firstn (Z.to_nat ntx) addr)).
    assert (Lp : List.length p = Z.to_nat ntx).
    { subst p. rewrite length_map, length_firstn. lia. }
    exists s', (p :: ps).
    exists (map (Wr UEDATX (UENUM s)) p ++
            Wr UEINTX (UENUM s) (cleared (peek UEINTX (UENUM s3) 0 s3) TXINI) :: tr)%list.
    split; [exact Er|]. split.
    { rewrite Tr. subst s4. rewrite trace_clear_bit, Ct, Ht2, Hu2, Cu, Hu2.
      rewrite <- !app_assoc. reflexivity. }
    split.
    { apply packets_cons; [apply cleared_bit; unfold TXINI; lia|].
      rewrite <- Hu4. exact Pr. }
    split.
    { cbn [List.concat]. rewrite Cr. subst p. rewrite <- map_app, firstn_skipn_firstn.
      do 2 f_equal. lia. }
    split; [|intros; contradiction].
    cbn [full_but_last]. destruct ps as [|q ps'].
    + rewrite Lp. change (Z.to_nat EP0_SIZE) with 64%nat. lia.
    + split; [|exact Fr]. rewrite Lp.
      assert (len - ntx <> 0) by (intros E0; specialize (Nr E0); discriminate Nr).
      destruct Hntx as (Hb & _ & H64). rewrite H64 by lia. reflexivity.
Qed.

(** A 100-byte transfer goes out as a packet of 64 and a packet of 36. *)
Lemma ctrl_write_PM_packets_witness :
  let s := boot (mkHeader 0 0 0 0 0) 0
             (fun r _ _ => match r with UEINTX => 1 | _ => 0 end) in
  exists s' p1 p2 tr,
    ctrl_write_PM 100 (repeat 7 100) 100 s = Ret 0 s' /\
    trace s' = tr /\ packet_trace 0 [p1; p2] tr /\
    List.length p1 = 64%nat /\ List.length p2 = 36%nat.
Proof.
  intros s.
  destruct (ctrl_write_PM_packets 100 (repeat 7 100) 100 s)
    as (s' & ps & tr & E & T & P & C & F & _).
  - cbn. lia.
  - cbn. lia.
  - intros k. repeat split; reflexivity.
  - intros k. reflexivity.
  - apply (f_equal (@List.length Z)) in C.
    rewrite length_map, length_firstn, repeat_length in C.
    change (Nat.min (Z.to_nat 100) 100) with 100%nat in C.
    change (Z.to_nat EP0_SIZE) with 64%nat in F.
    destruct ps as [|p1 [|p2 [|p3 ps]]]; cbn [List.concat full_but_last] in C, F;
      rewrite ?length_app, ?app_nil_r in C; cbn [List.length] in C.
    + discriminate C.
    + lia.
    + exists s', p1, p2, tr. split; [exact E|]. split; [exact T|].
      split; [exact P|]. lia.
    + exfalso. destruct F as (F1 & F2 & F3).
      destruct ps as [|p4 ps]; [|destruct F3 as (F3 & _)]; lia.
Defined.

(** ** Error exits and the bulk write *)

(** X18: ctrl_write_PM treats a full bank as a fatal error.  When the byte
    count of the control endpoint is at or above EP0_SIZE while the flags
    show transmit-ready and a quiet host, the function never returns: it
    prints "oops! EP" if the count exceeds the endpoint size and "oops! Ep"
    if it equals it, writes nothing to the controller, and spins. *)
Theorem ctrl_write_PM_oops (fuel : nat) (addr : list Z) (len : Z) (s : state) :
  len <> 0 ->
  EP0_SIZE <= peek UEBCLX (UENUM s) 0 s ->
  bit_is_set (peek UEINTX (UENUM s) 0 s) RXSTPI = false ->
  bit_is_set (peek UEINTX (UENUM s) 0 s) RXOUTI = false ->
  bit_is_set (peek UEINTX (UENUM s) 0 s) TXINI = true ->
  let o := ctrl_write_PM (S fuel) addr len s in
  o = Halted (final o) /\
  trace (final o) =
    (trace s ++
     map Uart (list_ascii_of_string
                 (if EP0_SIZE <? peek UEBCLX (UENUM s) 0 s then "oops! EP"
                  else "oops! Ep")))%list /\
  pvars (final o) = pvars s.
Proof.
  intros E Hb Hstp Hout Htx o. subst o.
  rewrite ctrl_write_PM_round by exact E. cbv zeta.
  rewrite Hstp, Hout, bit_is_clear_negb, Htx. cbn [negb].
  destruct (EP0_SIZE <? peek UEBCLX (UENUM s) 0 s) eqn:G.
  - apply Z.ltb_lt in G.
    assert (G' : (EP0_SIZE >=? peek UEBCLX (UENUM s) 0 s) = false).
    { rewrite Z.geb_leb. apply Z.leb_gt. exact G. }
    rewrite G'. cbn [final]. split; [reflexivity|].
    destruct (print_spec "oops! EP" (rd_next UEINTX (rd_next UEBCLX s)))
      as (A & _ & _ & D).
    rewrite D, A. split; reflexivity.
  - apply Z.ltb_ge in G.
    assert (Eb : peek UEBCLX (UENUM s) 0 s = EP0_SIZE) by lia.
    rewrite Eb. change (EP0_SIZE >=? EP0_SIZE) with true. cbv iota.
    rewrite Z.sub_diag.
    assert (G2 : ((if 0 >? len then len else 0) >? 0) = false).
    { destruct (0 >? len) eqn:G3; [|reflexivity].
      apply Z.gtb_lt in G3. rewrite Z.gtb_ltb. apply Z.ltb_ge. lia. }
    rewrite G2. cbn [final]. split; [reflexivity|].
    destruct (print_spec "oops! Ep" (rd_next UEINTX (rd_next UEBCLX s)))
      as (A & _ & _ & D).
    rewrite D, A. split; reflexivity.
Qed.

(** The bank reports 64 bytes while TXINI is up. *)
Lemma ctrl_write_PM_oops_witness :
  let s := boot (mkHeader 0 0 0 0 0) 0 (script [(UEBCLX, 0, [64])] 1) in
  let o := ctrl_write_PM 5 [1; 2; 3] 3 s in
  returned o = false /\
  trace (final o) = map Uart (list_ascii_of_string "oops! Ep").
Proof.
  intros s o.
  destruct (ctrl_write_PM_oops 4 [1; 2; 3] 3 s) as (A & B & _);
    try reflexivity; try discriminate.
  fold o in A, B. split; [rewrite A; reflexivity|exact B].
Defined.

(** X19: bulk_write_PM writes exactly the first [len] bytes of the flash
    object to the data register of the selected endpoint, in order, and
    does nothing else: it reads no register, so neither the transmit-ready
    flag nor the 64 bytes that a bank holds limit what it writes. *)
Theorem bulk_write_PM_writes_len_bytes (addr : list Z) (len : Z) (s : state) :
  0 <= len <= Z.of_nat (List.length addr) -> len < 65536 ->
  let s' := bulk_write_PM addr len s in
  trace s' =
    (trace s ++ map (Wr UEDATX (UENUM s)) (map u8 (firstn (Z.to_nat len) addr)))%list /\
  pvars s' = pvars s /\ UENUM s' = UENUM s /\ sfr s' = sfr s.
Proof.
  intros Hlen Hmax s'. subst s'. unfold bulk_write_PM.
  assert (E : u16 len = len) by (unfold u16; apply Z.mod_small; lia).
  rewrite E.
  destruct (bulk_write_PM_loop_spec (Z.to_nat len) addr s) as (A & B & C & D);
    [lia|]. auto.
Qed.

(** A hundred bytes go out in one piece. *)
Lemma bulk_write_PM_writes_len_bytes_witness :
  let s := boot (mkHeader 0 0 0 0 0) 1 (script [] 0) in
  ep_data 1 (trace (bulk_write_PM (repeat 7 100) 100 s)) = repeat 7 100.
Proof.
  intros s.
  destruct (bulk_write_PM_writes_len_bytes (repeat 7 100) 100 s) as (A & _).
  - cbn. lia.
  - lia.
  - rewrite A. vm_compute. reflexivity.
Defined.

(** ** The main loop *)

Lemma framed_app (d1 d2 : list Z) : framed d1 -> framed d2 -> framed (d1 ++ d2).
Proof.
  intros H1 H2. induction H1 as [|rest _ IH|c rest _ IH].
  - exact H2.
  - cbn [app]. rewrite <- app_assoc. now apply framed_banner.
  - cbn [app]. now apply framed_char.
Qed.

(** What a pass of the relay adds to the data of the bulk endpoints. *)
Lemma relay_poll_data (s : state) :
  (exists d, ep_data 1 (trace (relay_poll s)) = (ep_data 1 (trace s) ++ d)%list /\
             framed d) /\
  ep_data 2 (trace (relay_poll s)) = ep_data 2 (trace s) /\
  ep_data 0 (trace (relay_poll s)) = ep_data 0 (trace s).
Proof.
  unfold relay_poll.
  destruct (handle_incoming_bytes_trace s) as (l1 & T1 & R1).
  destruct (handle_outgoing_bytes_trace (handle_incoming_bytes s)) as (l2 & T2 & R2).
  pose proof (relay_trace_framed _ (relay_trace_app _ _ R1 R2)) as [F N].
  rewrite T2, T1, <- app_assoc, !(ep_data_app _ (trace s)).
  rewrite (N 2), (N 0), !app_nil_r by discriminate.
  split; [|auto]. eexists. split; [reflexivity|exact F].
Qed.

Section MainLoopFacts.
Context {K : usb_h}.

(** One turn of the loop, by whether a SETUP packet is waiting. *)
Lemma main_loop_usb_unfold (fuel : nat) (s : state) :
  let s1 := rd_next UEINTX (EP_select 0 s) in
  main_loop_usb fuel s =
    if bit_is_set (peek UEINTX 0 0 s) RXSTPI then
      match handle_CONTROL fuel s1 with
      | Ret _ s2 => Ret tt (relay_poll s2)
      | Busy s2 => Busy s2
      | Halted s2 => Halted s2
      end
    else Ret tt (relay_poll s1).
Proof.
  cbv zeta. unfold main_loop_usb.
  unfold bind at 1, lift at 1. unfold bind at 1, liftv at 1, rd.
  frame. unfold bind at 1.
  change (negb (Z.land (peek UEINTX 0 0 s) (Z.shiftl 1 RXSTPI) =? 0))
    with (bit_is_set (peek UEINTX 0 0 s) RXSTPI).
  destruct (bit_is_set (peek UEINTX 0 0 s) RXSTPI).
  - destruct (handle_CONTROL fuel _) as [[] s2|s2|s2]; reflexivity.
  - reflexivity.
Qed.

Lemma main_loop_usb_data (fuel : nat) (s : state) :
  let s' := final (main_loop_usb fuel s) in
  (exists d, ep_data 1 (trace s') = (ep_data 1 (trace s) ++ d)%list /\ framed d) /\
  ep_data 2 (trace s') = ep_data 2 (trace s).
Proof.
  cbv zeta. rewrite main_loop_usb_unfold. cbv zeta.
  set (s1 := rd_next UEINTX (EP_select 0 s)).
  assert (T1 : trace s1 = trace s) by (subst s1; now frame).
  destruct (bit_is_set (peek UEINTX 0 0 s) RXSTPI).
  - destruct (handle_CONTROL_relay_kept fuel s1) as [[_ D] _];
      [subst s1; now frame|].
    rewrite T1 in D.
    destruct (handle_CONTROL fuel s1) as [[] s2|s2|s2]; cbn [final] in D |- *.
    + destruct (relay_poll_data s2) as ((d & E & F) & E2 & _).
      rewrite E, E2, !D by discriminate. split; [|reflexivity].
      exists d. auto.
    + rewrite !D by discriminate. split; [|reflexivity].
      exists []. split; [now rewrite app_nil_r|constructor].
    + rewrite !D by discriminate. split; [|reflexivity].
      exists []. split; [now rewrite app_nil_r|constructor].
  - cbn [final]. destruct (relay_poll_data s1) as ((d & E & F) & E2 & _).
    rewrite E, E2, T1. split; [|reflexivity]. exists d. auto.
Qed.

(** X20: everything the device ever puts on the bulk IN endpoint is framed.
    Over any number of turns of the main loop, whatever control requests
    arrive, whatever the host sends and whatever the controller answers, the
    bytes written to the data register of endpoint 1 form a sequence of
    packets that each start with the two reserved bytes 0x80 0x00 and then
    hold the banner or a single character; and no byte is ever written to
    the data register of the bulk OUT endpoint. *)
Theorem bulk_in_stream_is_framed (fuel : nat) (n : nat) : forall s : state,
  let s' := final (main_loop_passes fuel n s) in
  (exists d, ep_data 1 (trace s') = (ep_data 1 (trace s) ++ d)%list /\ framed d) /\
  ep_data 2 (trace s') = ep_data 2 (trace s).
Proof.
  induction n as [|n IH]; intros s; cbn [main_loop_passes].
  - cbn [ret final]. split; [|reflexivity].
    exists []. split; [now rewrite app_nil_r|constructor].
  - cbv zeta. unfold bind.
    destruct (main_loop_usb_data fuel s) as ((d1 & E1 & F1) & G1).
    cbv zeta in E1, G1.
    destruct (main_loop_usb fuel s) as [[] s1|s1|s1]; cbn [final] in E1, G1 |- *.
    + destruct (IH s1) as ((d2 & E2 & F2) & G2). cbv zeta in E2, G2.
      rewrite E2, G2, E1, G1, <- app_assoc. split; [|reflexivity].
      exists (d1 ++ d2)%list. split; [reflexivity|now apply framed_app].
    + rewrite G1. split; [|reflexivity]. exists d1. auto.
    + rewrite G1. split; [|reflexivity]. exists d1. auto.
Qed.

(** X21: an idle device is silent.  With no SETUP packet arriving, no OUT
    packet delivered and nothing pending, any number of turns of the main
    loop return having written no register and printed nothing, and no
    variable has changed. *)
Theorem idle_main_loop_is_silent (fuel : nat) (n : nat) : forall s : state,
  do_send_famous_message s = false -> do_send_char s = false ->
  (forall k, bit_is_set (peek UEINTX 0 k s) RXSTPI = false) ->
  (forall k, bit_is_set (peek UEINTX 2 k s) RXOUTI = false) ->
  exists s',
    main_loop_passes fuel n s = Ret tt s' /\
    trace s' = trace s /\ pvars s' = pvars s.
Proof.
  induction n as [|n IH]; intros s Hf Hc H0 H2; cbn [main_loop_passes].
  - exists s. auto.
  - unfold bind. rewrite main_loop_usb_unfold. cbv zeta. rewrite H0.
    set (s1 := rd_next UEINTX (EP_select 0 s)).
    assert (E : relay_poll s1 = EP_select 1 (rd_next UEINTX (EP_select 2 s1))).
    { apply relay_poll_idle; subst s1; frame; auto. reads. apply H2. }
    rewrite E.
    destruct (IH (EP_select 1 (rd_next UEINTX (EP_select 2 s1))))
      as (s' & E' & T' & V').
    + subst s1. now frame.
    + subst s1. now frame.
    + intros k. subst s1. reads. apply H0.
    + intros k. subst s1. reads. apply H2.
    + exists s'. split; [exact E'|]. split.
      * rewrite T'. subst s1. now frame.
      * rewrite V'. subst s1. now frame.
Qed.

End MainLoopFacts.

(** A hundred idle turns. *)
Lemma idle_main_loop_is_silent_witness :
  let s := boot (mkHeader 0 0 0 0 0) 0 (script [] 0) in
  exists s', main_loop_passes (K := usb11) 3 100 s = Ret tt s' /\ trace s' = [].
Proof.
  intros s.
  destruct (idle_main_loop_is_silent (K := usb11) 3 100 s eq_refl eq_refl
              (fun k => eq_refl) (fun k => eq_refl)) as (s' & E & T & _).
  exists s'. split; [exact E|exact T].
Defined.

(** ** Start-up, the interrupt handler and the main loop *)

(** The board-level primitives leave the engine alone. *)
Lemma usb_dor r m b : usb (dor r m b) = usb b.
Proof. reflexivity. Qed.
Lemma usb_dand r m b : usb (dand r m b) = usb b.
Proof. reflexivity. Qed.
Lemma usb_dwr r v b : usb (dwr r v b) = usb b.
Proof. reflexivity. Qed.

Lemma interrupts_dor r m b : interrupts (dor r m b) = interrupts b.
Proof. reflexivity. Qed.
Lemma interrupts_dand r m b : interrupts (dand r m b) = interrupts b.
Proof. reflexivity. Qed.
Lemma interrupts_dwr r v b : interrupts (dwr r v b) = interrupts b.
Proof. reflexivity. Qed.

Lemma dtrace_dwr r v b :
  dtrace (dwr r v b) =
  (dtrace b ++ [DWr (List.length (trace (usb b))) r (UENUM (usb b)) (u8 v)])%list.
Proof. reflexivity. Qed.
Lemma dtrace_dor r m b :
  dtrace (dor r m b) =
  (dtrace b ++ [DWr (List.length (trace (usb b))) r (UENUM (usb b))
                    (u8 (Z.lor (dpeek r 0 b) m))])%list.
Proof. reflexivity. Qed.
Lemma dtrace_dand r m b :
  dtrace (dand r m b) =
  (dtrace b ++ [DWr (List.length (trace (usb b))) r (UENUM (usb b))
                    (u8 (Z.land (dpeek r 0 b) m))])%list.
Proof. reflexivity. Qed.

(** The loop that disables the endpoints [i], [i+1], ... *)
Lemma disable_endpoints_spec (n : nat) : forall (i : Z) (s : state),
  0 <= UENUM s < 8 -> 0 < i -> i + Z.of_nat n <= 8 ->
  let s' := disable_endpoints n i s in
  pvars s' = pvars s /\
  UENUM s' = (if Nat.eqb n 0 then UENUM s else i + Z.of_nat n - 1) /\
  trace s' =
    (trace s ++
     map (fun j => Wr UECONX j (cleared (peek UECONX j 0 s) EPEN))
         (map (fun k => i + Z.of_nat k) (seq 0 n)))%list /\
  (forall r ep k, r <> UECONX -> peek r ep k s' = peek r ep k s) /\
  (forall ep k, ep < i -> peek UECONX ep k s' = peek UECONX ep k s).
Proof.
  induction n as [|n IH]; intros i s Hu Hi Hn; cbn [disable_endpoints].
  - cbn [Nat.eqb seq map]. rewrite app_nil_r. auto.
  - cbv zeta.
    assert (Ei : u8 (Z.lor (Z.land (UENUM s) 0xF8) i) = i).
    { assert (E0 : Z.land (UENUM s) 0xF8 = 0).
      { apply Z.bits_inj'. intros m Hm. rewrite Z.land_spec, Z.bits_0.
        destruct (Z.ltb_spec m 3).
        - replace (Z.testbit 0xF8 m) with false; [apply andb_false_r|].
          assert (m = 0 \/ m = 1 \/ m = 2) as [->|[->| ->]] by lia; reflexivity.
        - rewrite <- (Z.mod_small (UENUM s) (2 ^ 3)) by (change (2 ^ 3) with 8; lia).
          now rewrite Z.mod_pow2_bits_high by lia. }
      rewrite E0, Z.lor_0_l. apply u8_small. lia. }
    rewrite Ei.
    set (s1 := clear_bit UECONX EPEN (set_UENUM i s)).
    assert (U1 : UENUM s1 = i) by reflexivity.
    destruct (IH (i + 1) s1) as (V & U & T & P & Q); [rewrite U1; lia|lia|lia|].
    cbv zeta in V, U, T, P, Q.
    split; [rewrite V; reflexivity|]. split.
    { rewrite U, U1. cbn [Nat.eqb]. destruct n; cbn [Nat.eqb]; lia. }
    split.
    { rewrite T. subst s1. rewrite trace_clear_bit.
      cbn [UENUM set_UENUM trace]. rewrite <- app_assoc. f_equal.
      cbn [seq map app]. rewrite Z.add_0_r. f_equal.
      rewrite <- seq_shift, !map_map. apply map_ext_in. intros k _.
      rewrite peek_clear_bit.
      rewrite peek_rd_next_other.
      - replace (i + 1 + Z.of_nat k) with (i + Z.of_nat (S k)) by lia. reflexivity.
      - cbn [UENUM set_UENUM]. intros E. injection E. lia. }
    split.
    { intros r ep k Hr. rewrite P by exact Hr. subst s1. rewrite peek_clear_bit.
      rewrite peek_rd_next_other by congruence. reflexivity. }
    { intros ep k Hep. rewrite Q by lia. subst s1. rewrite peek_clear_bit.
      rewrite peek_rd_next_other; [reflexivity|].
      cbn [UENUM set_UENUM]. intros E. injection E. lia. }
Qed.

Lemma dtrace_with_us u b : dtrace (with_us u b) = dtrace b.
Proof. reflexivity. Qed.
Lemma usb_with_us u b : usb (with_us u b) = usb b.
Proof. reflexivity. Qed.
Lemma us_with_us u b : us (with_us u b) = u.
Proof. reflexivity. Qed.
Lemma loop_ctr_with_us u b : loop_ctr (with_us u b) = loop_ctr b.
Proof. reflexivity. Qed.
Lemma usb_with_usb s b : usb (with_usb s b) = s.
Proof. reflexivity. Qed.

Lemma bit_test (v bit : Z) :
  (Z.land v (Z.shiftl 1 bit) =? 0) = negb (bit_is_set v bit).
Proof. unfold bit_is_set, _BV. now rewrite negb_involutive. Qed.

(** The wait for the PLL. *)
Lemma wait_PLL_lock_spec (fuel : nat) : forall b : board,
  let o := wait_PLL_lock fuel b in
  usb (bfinal o) = usb b /\ dtrace (bfinal o) = dtrace b /\
  interrupts (bfinal o) = interrupts b /\
  (forall k, (k < fuel)%nat -> bit_is_set (dpeek PLLCSR k b) PLOCK = true ->
             breturned o = true) /\
  ((forall k, bit_is_set (dpeek PLLCSR k b) PLOCK = false) -> breturned o = false).
Proof.
  induction fuel as [|fuel IH]; intros b; cbn [wait_PLL_lock].
  - cbn [bfinal breturned]. repeat split; try reflexivity. intros k Hk. lia.
  - unfold drd. cbv beta iota zeta.
    rewrite bit_test.
    destruct (bit_is_set (dpeek PLLCSR 0 b) PLOCK) eqn:Hb; cbn [negb].
    + cbn [bfinal breturned]. repeat split; try reflexivity.
      intros H. now rewrite H in Hb.
    + destruct (IH (drd_next PLLCSR b)) as (A & B & C & D & E).
      cbv zeta in A, B, C, D, E. rewrite A, B, C.
      repeat split; try reflexivity.
      * intros k Hk Hbit. destruct k as [|k]; [congruence|].
        apply (D k); [lia|exact Hbit].
      * intros H. apply E. intros k. exact (H (S k)).
Qed.

Lemma early_refl (b : board) : early_writes (usb b) b b.
Proof.
  split; [reflexivity|]. split; [reflexivity|].
  exists []. split; [now rewrite app_nil_r|constructor].
Qed.

Lemma early_trans (s : state) (b1 b2 b3 : board) :
  early_writes s b1 b2 -> early_writes s b2 b3 -> early_writes s b1 b3.
Proof.
  intros (A1 & A2 & l1 & T1 & F1) (_ & B2 & l2 & T2 & F2).
  split; [exact A1|]. split; [exact B2|].
  exists (l1 ++ l2)%list. split; [now rewrite T2, T1, app_assoc|].
  apply Forall_app. auto.
Qed.

Lemma early_one (s : state) (b b' : board) (r : dreg) (v : Z) :
  usb b = s -> usb b' = s ->
  dtrace b' = (dtrace b ++ [DWr (List.length (trace s)) r (UENUM s) v])%list ->
  early_writes s b b'.
Proof.
  intros A B T. split; [exact A|]. split; [exact B|].
  eexists. split; [exact T|]. constructor; [auto|constructor].
Qed.

Lemma early_dor s r m b0 b : early_writes s b0 b -> early_writes s b0 (dor r m b).
Proof.
  intros H. eapply early_trans; [exact H|]. destruct H as (_ & U & _).
  eapply early_one; [exact U|rewrite usb_dor; exact U|].
  rewrite dtrace_dor, U. reflexivity.
Qed.
Lemma early_dand s r m b0 b : early_writes s b0 b -> early_writes s b0 (dand r m b).
Proof.
  intros H. eapply early_trans; [exact H|]. destruct H as (_ & U & _).
  eapply early_one; [exact U|rewrite usb_dand; exact U|].
  rewrite dtrace_dand, U. reflexivity.
Qed.
Lemma early_dwr s r v b0 b : early_writes s b0 b -> early_writes s b0 (dwr r v b).
Proof.
  intros H. eapply early_trans; [exact H|]. destruct H as (_ & U & _).
  eapply early_one; [exact U|rewrite usb_dwr; exact U|].
  rewrite dtrace_dwr, U. reflexivity.
Qed.
Lemma early_interrupts s i b0 b :
  early_writes s b0 b -> early_writes s b0 (with_interrupts i b).
Proof.
  intros (A & B & dl & T & F). split; [exact A|]. split; [exact B|].
  exists dl. split; [exact T|exact F].
Qed.

Ltac early :=
  repeat match goal with
         | |- early_writes _ _ (dor _ _ _) => apply early_dor
         | |- early_writes _ _ (dand _ _ _) => apply early_dand
         | |- early_writes _ _ (dwr _ _ _) => apply early_dwr
         | |- early_writes _ _ (with_interrupts _ _) => apply early_interrupts
         end.

(** setup_usb around its wait for the PLL. *)
Lemma setup_usb_unfold (fuel : nat) (b : board) :
  let pre :=
    dor PLLCSR (Z.shiftl 1 PLLE)
      (dwr PLLFRQ (Z.lor (Z.lor (Z.lor (Z.shiftl 1 PDIV3) (Z.shiftl 1 PDIV1))
                                (Z.shiftl 1 PLLUSB)) (Z.shiftl 1 PLLTM0))
         (dor PLLCSR (Z.shiftl 1 PINDIV)
            (dwr PLLCSR 0
               (dor UHWCON (Z.shiftl 1 UVREGE)
                  (with_interrupts true
                     (dand UEIENX 32
                        (dand UDIEN 130
                           (dand USBCON 254 (with_interrupts false b))))))))) in
  let post := fun b1 =>
    on_usb (disable_endpoints 6 1)
      (dand UDCON (Z.lnot (Z.shiftl 1 LSM))
         (dand USBCON (Z.lnot (Z.shiftl 1 FRZCLK))
            (dor USBCON (Z.lor (Z.shiftl 1 USBE) (Z.shiftl 1 OTGPADE)) b1))) in
  setup_usb fuel b =
    match wait_PLL_lock fuel pre with
    | BRet _ b1 => BRet tt (post b1)
    | BBusy b1 => BBusy b1
    | BHalted b1 => BHalted b1
    end.
Proof.
  cbv zeta. unfold setup_usb, bbind, blift.
  destruct (wait_PLL_lock fuel _) as [[] b1|b1|b1]; reflexivity.
Qed.

(** X22: setup_usb, once the PLL reports lock: it returns with interrupts
    enabled, having disabled the endpoints 1 to 6 one after the other by
    clearing EPEN in their UECONX, and leaves endpoint 6 selected.  The
    control endpoint 0 is not touched, no data is written and no variable
    of the program changes; all the writes to the USB, PLL and pad
    registers come before the first endpoint is touched. *)
Theorem setup_usb_disables_endpoints_1_to_6 (fuel : nat) (b : board) :
  0 <= UENUM (usb b) < 8 ->
  (exists k, (k < fuel)%nat /\ bit_is_set (dpeek PLLCSR (2 + k) b) PLOCK = true) ->
  exists b',
    setup_usb fuel b = BRet tt b' /\
    trace (usb b') =
      (trace (usb b) ++
       map (fun j => Wr UECONX j (cleared (peek UECONX j 0 (usb b)) EPEN))
           [1; 2; 3; 4; 5; 6])%list /\
    UENUM (usb b') = 6 /\ pvars (usb b') = pvars (usb b) /\
    interrupts b' = true /\
    exists dl, dtrace b' = (dtrace b ++ dl)%list /\
               Forall (fun e => match e with
                                | DWr pos _ ep _ =>
                                    pos = List.length (trace (usb b)) /\
                                    ep = UENUM (usb b)
                                end) dl.
Proof.
  intros Hu (k & Hk & Hb).
  rewrite setup_usb_unfold. cbv zeta.
  match goal with |- context [wait_PLL_lock fuel ?p] => set (pre := p) end.
  assert (Epre : early_writes (usb b) b pre).
  { subst pre. early. apply early_refl. }
  destruct (wait_PLL_lock_spec fuel pre) as (A & B & C & D & _).
  cbv zeta in A, B, C, D.
  assert (R : breturned (wait_PLL_lock fuel pre) = true) by (apply (D k Hk); exact Hb).
  destruct (wait_PLL_lock fuel pre) as [[] b1|b1|b1]; try discriminate R.
  cbn [bfinal] in A, B, C.
  destruct Epre as (_ & Upre & dl & Tpre & Fpre).
  assert (U1 : usb b1 = usb b) by congruence.
  destruct (disable_endpoints_spec 6 1 (usb b) Hu) as (V & U & T & _); [lia|lia|].
  cbv zeta in V, U, T.
  eexists. split; [reflexivity|].
  cbn [usb on_usb with_usb]. rewrite !usb_dand, usb_dor, U1.
  split; [exact T|]. split; [exact U|]. split; [exact V|].
  split.
  { cbn [interrupts on_usb with_usb]. rewrite !interrupts_dand, interrupts_dor, C.
    subst pre.
    repeat first [rewrite interrupts_dor|rewrite interrupts_dand
                 |rewrite interrupts_dwr].
    reflexivity. }
  assert (Epost : early_writes (usb b) b1
            (dand UDCON (Z.lnot (Z.shiftl 1 LSM))
               (dand USBCON (Z.lnot (Z.shiftl 1 FRZCLK))
                  (dor USBCON (Z.lor (Z.shiftl 1 USBE) (Z.shiftl 1 OTGPADE)) b1)))).
  { early. rewrite <- U1. apply early_refl. }
  destruct Epost as (_ & _ & dl2 & Tpost & Fpost).
  exists (dl ++ dl2)%list. split; [|apply Forall_app; auto].
  cbn [dtrace on_usb with_usb]. rewrite Tpost, B, Tpre, app_assoc. reflexivity.
Qed.

(** X23: setup_usb with a PLL that never locks: the program spins in the
    wait for PLOCK.  Whatever the fuel it has not returned, and it has not
    reached the USB endpoints: the engine is as it was. *)
Theorem setup_usb_waits_for_the_PLL (fuel : nat) (b : board) :
  (forall k, bit_is_set (dpeek PLLCSR (2 + k) b) PLOCK = false) ->
  let o := setup_usb fuel b in
  breturned o = false /\ usb (bfinal o) = usb b /\ interrupts (bfinal o) = true.
Proof.
  intros Hb o. subst o. rewrite setup_usb_unfold. cbv zeta.
  match goal with |- context [wait_PLL_lock fuel ?p] => set (pre := p) end.
  destruct (wait_PLL_lock_spec fuel pre) as (A & _ & C & _ & E).
  cbv zeta in A, C, E.
  assert (R : breturned (wait_PLL_lock fuel pre) = false) by (apply E; exact Hb).
  destruct (wait_PLL_lock fuel pre) as [[] b1|b1|b1]; try discriminate R;
    cbn [bfinal breturned] in *; rewrite A, C; subst pre;
    (split; [reflexivity|]); (split; [reflexivity|]);
    repeat first [rewrite interrupts_dor|rewrite interrupts_dand
                 |rewrite interrupts_dwr];
    reflexivity.
Qed.

(** The PLL locks at the third poll. *)
Lemma setup_usb_disables_endpoints_1_to_6_witness :
  let b := power_on (fun r k => match r with
                                | PLLCSR => nth k [0; 0; 0; 0; 1] 1
                                | _ => 0
                                end) in
  exists b',
    setup_usb 5 b = BRet tt b' /\
    trace (usb b') = map (fun j => Wr UECONX j 0) [1; 2; 3; 4; 5; 6] /\
    UENUM (usb b') = 6.
Proof.
  intros b.
  destruct (setup_usb_disables_endpoints_1_to_6 5 b) as (b' & E & T & U & _).
  - cbn. lia.
  - exists 2%nat. split; [lia|reflexivity].
  - exists b'. split; [exact E|]. split; [exact T|exact U].
Defined.

(** A PLL that never locks. *)
Lemma setup_usb_waits_for_the_PLL_witness :
  let b := power_on (fun _ _ => 0) in
  breturned (setup_usb 1000 b) = false.
Proof.
  intros b.
  exact (proj1 (setup_usb_waits_for_the_PLL 1000 b (fun k => eq_refl))).
Defined.

(** ** The interrupt handler *)

Lemma dreg_writes_app (r : dreg) (l1 l2 : list devent) :
  dreg_writes r (l1 ++ l2) = (dreg_writes r l1 ++ dreg_writes r l2)%list.
Proof.
  induction l1 as [|[pos r' ep v] l1 IH]; cbn [app dreg_writes]; [reflexivity|].
  destruct (dreg_eqb r' r); cbn [app]; now rewrite IH.
Qed.

(** Running setupEP0 on the board and going on with [f]. *)
Lemma core_setupEP0 (f : board -> board) (b : board) :
  bbind (core setupEP0) (fun _ => blift f) b =
    match setupEP0 (usb b) with
    | Ret _ s => BRet tt (f (with_usb s b))
    | Busy s => BBusy (with_usb s b)
    | Halted s => BHalted (with_usb s b)
    end.
Proof.
  unfold bbind, core, blift. destruct (setupEP0 (usb b)) as [[] s|s|s]; reflexivity.
Qed.

Lemma usb_on_usb f b : usb (on_usb f b) = f (usb b).
Proof. reflexivity. Qed.
Lemma usb_drd_next r b : usb (drd_next r b) = usb b.
Proof. reflexivity. Qed.
Lemma dtrace_on_usb f b : dtrace (on_usb f b) = dtrace b.
Proof. reflexivity. Qed.
Lemma dtrace_with_usb s b : dtrace (with_usb s b) = dtrace b.
Proof. reflexivity. Qed.
Lemma dtrace_drd_next r b : dtrace (drd_next r b) = dtrace b.
Proof. reflexivity. Qed.

Lemma writes_dor_other r0 r m b :
  dreg_eqb r r0 = false ->
  dreg_writes r0 (dtrace (dor r m b)) = dreg_writes r0 (dtrace b).
Proof.
  intros E. rewrite dtrace_dor, dreg_writes_app. cbn [dreg_writes].
  now rewrite E, app_nil_r.
Qed.
Lemma writes_dand_other r0 r m b :
  dreg_eqb r r0 = false ->
  dreg_writes r0 (dtrace (dand r m b)) = dreg_writes r0 (dtrace b).
Proof.
  intros E. rewrite dtrace_dand, dreg_writes_app. cbn [dreg_writes].
  now rewrite E, app_nil_r.
Qed.
Lemma writes_dwr_same r v b :
  dreg_writes r (dtrace (dwr r v b)) = (dreg_writes r (dtrace b) ++ [u8 v])%list.
Proof.
  rewrite dtrace_dwr, dreg_writes_app. cbn [dreg_writes].
  unfold dreg_eqb. now rewrite Z.eqb_refl.
Qed.

(** Push the engine and the log of one register through board steps. *)
Ltac board_walk :=
  repeat first
    [ rewrite usb_dor | rewrite usb_dand | rewrite usb_dwr | rewrite usb_on_usb
    | rewrite usb_drd_next
    | rewrite writes_dwr_same
    | rewrite writes_dor_other by reflexivity
    | rewrite writes_dand_other by reflexivity
    | rewrite dtrace_on_usb | rewrite dtrace_with_usb | rewrite dtrace_drd_next ].

Section InterruptFacts.
Variable hs : bool.

(** X24: the USB general interrupt acknowledges exactly what it handles.
    Provided the controller accepts the configuration of endpoint 0 when
    an end of reset is handled, the handler returns having written UDINT
    once, with a 0 at the bit of every interrupt it handled and a 1
    everywhere else: end of reset (bit 3) when its flag was up, and, only
    where HANDLE_SUSPEND is defined, suspend (bit 0) and wake-up (bit 4). *)
Theorem USB_GEN_vect_acknowledges_what_it_handles (b : board) :
  let status := dpeek UDINT 0 b in
  (bit_is_set status EORSTI = true ->
   bit_is_set (peek UESTA0X 0 0 (usb b)) CFGOK = true) ->
  let ack := (if hs && bit_is_set status SUSPI then 1 else 0) +
             (if hs && bit_is_set status WAKEUPI then 16 else 0) +
             (if bit_is_set status EORSTI then 8 else 0) in
  exists b',
    USB_GEN_vect hs b = BRet tt b' /\
    dreg_writes UDINT (dtrace b') = (dreg_writes UDINT (dtrace b) ++ [255 - ack])%list.
Proof.
  intros status Hok ack. subst ack.
  unfold USB_GEN_vect, drd. cbv beta iota zeta. fold status.
  set (b1 := on_usb (putchar "I") (drd_next UDINT b)).
  destruct (bit_is_set status EORSTI) eqn:He.
  - specialize (Hok eq_refl).
    assert (Hok' : bit_is_set (peek UESTA0X 0 0 (putchar "E" (putchar "I" (usb b))))
                     CFGOK = true) by (frame; exact Hok).
    destruct (setup_bulk_ep_spec 0 0 (putchar "E" (putchar "I" (usb b))) eq_refl)
      as (R & _).
    cbv zeta in R. rewrite Hok' in R.
    destruct hs; destruct (bit_is_set status SUSPI);
      destruct (bit_is_set status WAKEUPI); cbn [andb]; cbv beta iota zeta;
      rewrite core_setupEP0, setupEP0_eq; subst b1; board_walk;
      (destruct (setup_bulk_ep 0 0 (putchar "E" (putchar "I" (usb b))))
         as [[] s1|s1|s1]; try discriminate R);
      (eexists; split; [reflexivity|]); board_walk; reflexivity.
  - destruct hs; destruct (bit_is_set status SUSPI);
      destruct (bit_is_set status WAKEUPI); cbn [andb]; cbv beta iota zeta;
      (eexists; split; [reflexivity|]); subst b1; board_walk; reflexivity.
Qed.

End InterruptFacts.

Section InterruptReset.
Variable hs : bool.

(** X25: what the USB general interrupt does to the protocol engine.  It
    prints I.  Without an end of reset that is all.  On an end of reset it
    prints E and runs setupEP0: endpoint 0 is selected, and stays selected
    whichever endpoint the interrupted code had selected, and its five
    configuration writes follow.  The handler returns exactly when the
    controller reports CFGOK; otherwise it prints an exclamation mark and
    spins inside the handler, and UDINT is never written: the interrupt
    stays unacknowledged. *)
Theorem USB_GEN_vect_end_of_reset (b : board) :
  let o := USB_GEN_vect hs b in
  let s := usb b in
  let s' := usb (bfinal o) in
  let ok := bit_is_set (peek UESTA0X 0 0 s) CFGOK in
  if bit_is_set (dpeek UDINT 0 b) EORSTI then
    breturned o = ok /\ UENUM s' = 0 /\ pvars s' = pvars s /\
    trace s' =
      (trace s ++
       [Uart "I"; Uart "E";
        Wr UECONX 0 (cleared (peek UECONX 0 0 s) EPEN);
        Wr UECFG1X 0 (cleared (peek UECFG1X 0 0 s) ALLOC);
        Wr UECONX 0 (raised (peek UECONX 0 1 s) EPEN);
        Wr UECFG0X 0 0;
        Wr UECFG1X 0 50] ++ (if ok then [] else [Uart "!"]))%list /\
    (ok = false ->
     dreg_writes UDINT (dtrace (bfinal o)) = dreg_writes UDINT (dtrace b))
  else
    breturned o = true /\ s' = putchar "I" s.
Proof.
  cbv zeta.
  unfold USB_GEN_vect, drd. cbv beta iota zeta.
  set (status := dpeek UDINT 0 b).
  set (b1 := on_usb (putchar "I") (drd_next UDINT b)).
  destruct (bit_is_set status EORSTI) eqn:He.
  - set (s2 := putchar "E" (putchar "I" (usb b))).
    destruct (setup_bulk_ep_spec 0 0 s2 eq_refl) as (R & H & V & U & T & _).
    cbv zeta in R, H, V, U, T.
    assert (P0 : forall r k, peek r 0 k s2 = peek r 0 k (usb b))
      by (intros r k; subst s2; now frame).
    rewrite !P0 in R, H, T.
    assert (T2 : trace s2 = (trace (usb b) ++ [Uart "I"; Uart "E"])%list).
    { subst s2. rewrite !trace_putchar, <- app_assoc. reflexivity. }
    rewrite T2, <- app_assoc in T. cbn [app] in T.
    assert (V2 : pvars s2 = pvars (usb b)) by (subst s2; now frame).
    rewrite V2 in V.
    destruct hs; destruct (bit_is_set status SUSPI);
      destruct (bit_is_set status WAKEUPI); cbn [andb]; cbv beta iota zeta;
      rewrite core_setupEP0, setupEP0_eq; subst b1; board_walk; fold s2;
      (destruct (setup_bulk_ep 0 0 s2) as [[] s3|s3|s3];
       cbn [final returned] in R, H, V, U, T; cbn [bfinal breturned];
       board_walk;
       (split; [exact R|]); (split; [exact U|]); (split; [exact V|]);
       (split; [exact T|]);
       intros E; rewrite E in R; try discriminate R; reflexivity).
  - destruct hs; destruct (bit_is_set status SUSPI);
      destruct (bit_is_set status WAKEUPI); cbn [andb]; cbv beta iota zeta;
      cbn [bfinal breturned]; subst b1; board_walk; split; reflexivity.
Qed.

End InterruptReset.

(** An end of reset (bit 3 of UDINT) with a controller that accepts the
    control endpoint: UDINT is written once, with 0xF7. *)
Lemma USB_GEN_vect_acknowledges_what_it_handles_witness :
  let b := mkBoard (boot (mkHeader 0 0 0 0 0) 2 (script [] 255))
                   (fun r k => match r with UDINT => 8 | _ => 0 end)
                   [] true 0 usDone in
  exists b',
    USB_GEN_vect false b = BRet tt b' /\
    dreg_writes UDINT (dtrace b') = [247].
Proof.
  intros b.
  destruct (USB_GEN_vect_acknowledges_what_it_handles false b) as (b' & E & W).
  - intros _. reflexivity.
  - exists b'. split; [exact E|exact W].
Defined.

(** ** The body of the main loop *)

Lemma bfinal_core {A : Type} (m : M A) (b : board) :
  bfinal (core m b) = with_usb (final (m (usb b))) b.
Proof. unfold core. destruct (m (usb b)); reflexivity. Qed.

Lemma testbit_7 (c : Z) : Z.testbit c 7 = negb (Z.land c 0x80 =? 0).
Proof.
  destruct (Z.land c 0x80 =? 0) eqn:E; cbn [negb].
  - apply Z.eqb_eq in E.
    assert (T : Z.testbit (Z.land c 0x80) 7 = false) by (rewrite E; apply Z.bits_0).
    rewrite Z.land_spec in T. change (Z.testbit 0x80 7) with true in T.
    now rewrite andb_true_r in T.
  - apply Z.eqb_neq in E. destruct (Z.testbit c 7) eqn:T; [reflexivity|].
    elim E. apply Z.bits_inj'. intros n Hn. rewrite Z.land_spec, Z.bits_0.
    destruct (Z.eq_dec n 7) as [->|Hne]; [now rewrite T|].
    change 0x80 with (2 ^ 7). rewrite Z.pow2_bits_false by lia. apply andb_false_r.
Qed.

Section MainLoopBody.
Context {K : usb_h}.

(** A turn of the USB part only adds to the trace. *)
Lemma main_loop_usb_extends (fuel : nat) (s : state) :
  exists tr, trace (final (main_loop_usb fuel s)) = (trace s ++ tr)%list.
Proof.
  rewrite main_loop_usb_unfold. cbv zeta.
  set (s1 := rd_next UEINTX (EP_select 0 s)).
  assert (T1 : trace s1 = trace s) by (subst s1; now frame).
  assert (Hrelay : forall t, exists tr, trace (relay_poll t) = (trace t ++ tr)%list).
  { intros t. destruct (relay_poll_extends t) as (l & E). eauto. }
  destruct (bit_is_set (peek UEINTX 0 0 s) RXSTPI).
  - assert (Hc : exists tr, trace (final (handle_CONTROL fuel s1)) =
                            (trace s1 ++ tr)%list).
    { rewrite handle_CONTROL_reads.
      match goal with |- context [control_dispatch fuel ?t] =>
        destruct (control_dispatch_step fuel t) as (_ & _ & _ & tr & Htr);
        assert (Tt : exists l, trace t = (trace s1 ++ l)%list)
          by (eexists; rewrite trace_clear_bit; frame; reflexivity)
      end.
      destruct Tt as (l & Tt). exists (l ++ tr)%list.
      now rewrite Htr, Tt, app_assoc. }
    destruct Hc as (tr & Hc). rewrite T1 in Hc.
    destruct (handle_CONTROL fuel s1) as [[] s2|s2|s2]; cbn [final] in Hc |- *;
      eauto.
    destruct (Hrelay s2) as (tr2 & E2). exists (tr ++ tr2)%list.
    now rewrite E2, Hc, app_assoc.
  - cbn [final]. destruct (Hrelay s1) as (tr & E). exists tr. now rewrite E, T1.
Qed.

End MainLoopBody.

(** The two board-level parts of a turn of the main loop. *)
Lemma main_loop_led_spec (b : board) :
  let b' := main_loop_led b in
  let c := u16 (loop_ctr b + 1) in
  usb b' = usb b /\ us b' = us b /\ loop_ctr b' = c /\
  (forall r k, dpeek r k b' = dpeek r (if dreg_eqb r PORTC then S k else k) b) /\
  dtrace b' =
    (dtrace b ++
     [DWr (List.length (trace (usb b))) PORTC (UENUM (usb b))
          (if Z.testbit c 7
           then u8 (Z.lor (dpeek PORTC 0 b) 0x80)
           else u8 (Z.land (dpeek PORTC 0 b) (Z.lnot 0x80)))])%list.
Proof.
  cbv zeta. unfold main_loop_led. cbv zeta.
  change (loop_ctr (with_loop_ctr (u16 (loop_ctr b + 1)) b))
    with (u16 (loop_ctr b + 1)).
  rewrite <- testbit_7.
  destruct (Z.testbit (u16 (loop_ctr b + 1)) 7);
    repeat split; intros; destruct r; reflexivity.
Qed.

Section MainLoopPlug.
Context {K : usb_h}.

Lemma main_loop_plug_spec (b : board) :
  let b' := main_loop_plug b in
  let vbus := bit_is_set (dpeek USBSTA 0 b) VBUS in
  let msg := match us b, vbus with
             | usDisconnected, true => ("Plugged in!" ++ CRLF)%string
             | usDone, false => ("Disconnected!" ++ CRLF)%string
             | _, _ => EmptyString
             end in
  usb b' = print msg (usb b) /\
  us b' = (if vbus then usDone else usDisconnected) /\
  loop_ctr b' = loop_ctr b /\
  dtrace b' =
    (dtrace b ++
     match us b, vbus with
     | usDisconnected, true =>
         [DWr (List.length (trace (print msg (usb b)))) UDCON (UENUM (usb b))
              (u8 (Z.land (dpeek UDCON 0 b) (Z.lnot 1)));
          DWr (List.length (trace (print msg (usb b)))) UDIEN (UENUM (usb b))
              (u8 (Z.lor (dpeek UDIEN 0 b) 8))]
     | _, _ => []
     end)%list.
Proof.
  cbv zeta. unfold main_loop_plug, drd. cbv beta iota zeta.
  rewrite !bit_test.
  destruct (us b) eqn:Eu; destruct (bit_is_set (dpeek USBSTA 0 b) VBUS);
    cbn [negb]; cbv beta iota zeta.
  - rewrite dtrace_with_us, usb_with_us, us_with_us, loop_ctr_with_us.
    rewrite dtrace_dor, dtrace_dand, usb_dor, usb_dand, dtrace_on_usb,
      dtrace_drd_next, usb_on_usb, usb_drd_next, <- app_assoc.
    destruct (print_spec ("Plugged in!" ++ CRLF) (usb b)) as (_ & U & _ & _).
    rewrite U. repeat split; reflexivity.
  - rewrite app_nil_r. repeat split; try reflexivity. exact Eu.
  - rewrite app_nil_r. repeat split; try reflexivity. exact Eu.
  - rewrite app_nil_r. repeat split; reflexivity.
Qed.

Lemma main_loop_body_final (fuel : nat) (b : board) :
  bfinal (main_loop_body fuel b) =
  with_usb (final (main_loop_usb fuel (usb (main_loop_plug (main_loop_led b)))))
           (main_loop_plug (main_loop_led b)).
Proof.
  unfold main_loop_body, bbind, blift. apply bfinal_core.
Qed.

(** X26: the LED follows the loop counter.  Every turn of the main loop,
    however its USB part ends, adds one to the 16-bit counter, wrapping
    from 65535 to 0, and writes PORTC exactly once: bit 7, the LED, gets
    bit 7 of the new counter, and the other seven bits are written back as
    they were read. *)
Theorem main_loop_led_follows_counter (fuel : nat) (b : board) :
  let b' := bfinal (main_loop_body fuel b) in
  let c := (loop_ctr b + 1) mod 65536 in
  loop_ctr b' = c /\
  exists v,
    dreg_writes PORTC (dtrace b') = (dreg_writes PORTC (dtrace b) ++ [v])%list /\
    Z.testbit v 7 = Z.testbit c 7 /\
    forall i, 0 <= i < 7 -> Z.testbit v i = Z.testbit (dpeek PORTC 0 b) i.
Proof.
  cbv zeta. rewrite main_loop_body_final.
  destruct (main_loop_led_spec b) as (U1 & S1 & C1 & _ & D1). cbv zeta in *.
  destruct (main_loop_plug_spec (main_loop_led b)) as (_ & _ & C2 & D2).
  cbv zeta in C2, D2.
  change (loop_ctr (with_usb ?s ?x)) with (loop_ctr x).
  split; [now rewrite C2, C1|].
  rewrite dtrace_with_usb, D2, dreg_writes_app.
  match goal with |- ex (fun _ => (_ ++ dreg_writes PORTC ?x)%list = _ /\ _) =>
    assert (E : dreg_writes PORTC x = []) by
      (destruct (us (main_loop_led b));
       destruct (bit_is_set (dpeek USBSTA 0 (main_loop_led b)) VBUS); reflexivity);
    rewrite E
  end.
  rewrite app_nil_r, D1, dreg_writes_app. cbn [dreg_writes].
  change (dreg_eqb PORTC PORTC) with true.
  cbv iota. eexists. split; [reflexivity|].
  unfold u16, u8.
  destruct (Z.testbit ((loop_ctr b + 1) mod 65536) 7); split.
  - change 256 with (2 ^ 8). rewrite Z.mod_pow2_bits_low by lia.
    rewrite Z.lor_spec. apply orb_true_r.
  - intros i Hi. change 256 with (2 ^ 8). rewrite Z.mod_pow2_bits_low by lia.
    rewrite Z.lor_spec. change 0x80 with (2 ^ 7).
    rewrite Z.pow2_bits_false by lia. apply orb_false_r.
  - change 256 with (2 ^ 8). rewrite Z.mod_pow2_bits_low by lia.
    rewrite Z.land_spec, Z.lnot_spec by lia. apply andb_false_r.
  - intros i Hi. change 256 with (2 ^ 8). rewrite Z.mod_pow2_bits_low by lia.
    rewrite Z.land_spec, Z.lnot_spec by lia. change 0x80 with (2 ^ 7).
    rewrite Z.pow2_bits_false by lia. apply andb_true_r.
Qed.

(** X27: the main loop tracks the VBUS level.  Each turn reads USBSTA;
    afterwards the plug state is usDone exactly when that read showed VBUS.
    A message is printed only on a change: Plugged in! and a line end when
    VBUS appears, Disconnected! and a line end when it goes away, and it
    comes before anything the USB part of the turn emits.  The device is
    attached (DETACH cleared in UDCON) and the end-of-reset interrupt is
    enabled (bit 3 set in UDIEN) only on the turn that sees VBUS appear;
    no other turn writes UDCON or UDIEN, so losing VBUS does not detach. *)
Theorem main_loop_tracks_VBUS (fuel : nat) (b : board) :
  let b' := bfinal (main_loop_body fuel b) in
  let vbus := bit_is_set (dpeek USBSTA 0 b) VBUS in
  let plugged := match us b with usDisconnected => vbus | usDone => false end in
  let msg := match us b, vbus with
             | usDisconnected, true => ("Plugged in!" ++ CRLF)%string
             | usDone, false => ("Disconnected!" ++ CRLF)%string
             | _, _ => EmptyString
             end in
  us b' = (if vbus then usDone else usDisconnected) /\
  (exists tr, trace (usb b') =
              (trace (usb b) ++ map Uart (list_ascii_of_string msg) ++ tr)%list) /\
  dreg_writes UDCON (dtrace b') =
    (dreg_writes UDCON (dtrace b) ++
     (if plugged then [u8 (Z.land (dpeek UDCON 0 b) (Z.lnot 1))] else []))%list /\
  dreg_writes UDIEN (dtrace b') =
    (dreg_writes UDIEN (dtrace b) ++
     (if plugged then [u8 (Z.lor (dpeek UDIEN 0 b) 8)] else []))%list.
Proof.
  cbv zeta. rewrite main_loop_body_final.
  destruct (main_loop_led_spec b) as (U1 & S1 & C1 & P1 & D1). cbv zeta in *.
  destruct (main_loop_plug_spec (main_loop_led b)) as (U2 & S2 & C2 & D2).
  cbv zeta in U2, S2, C2, D2.
  rewrite !P1, S1, U1 in *. change (dreg_eqb USBSTA PORTC) with false in *.
  change (dreg_eqb UDCON PORTC) with false in *.
  change (dreg_eqb UDIEN PORTC) with false in *. cbv iota in *.
  change (us (with_usb ?s ?x)) with (us x).
  rewrite usb_with_usb, dtrace_with_usb.
  split; [exact S2|]. split.
  - destruct (main_loop_usb_extends fuel (usb (main_loop_plug (main_loop_led b))))
      as (tr & T).
    exists tr. rewrite T, U2, trace_print, <- app_assoc. reflexivity.
  - rewrite D2, D1, !dreg_writes_app. cbn [dreg_writes].
    change (dreg_eqb PORTC UDCON) with false.
    change (dreg_eqb PORTC UDIEN) with false. cbv iota. rewrite !app_nil_r.
    destruct (us b); destruct (bit_is_set (dpeek USBSTA 0 b) VBUS);
      split; reflexivity.
Qed.

End MainLoopPlug.
